(** * Availability resolution: a shallow embedding of [lib/availability.ts]
      and of the rule construction of [pages/api/chatbot.ts].

    Conventions of the embedding.

    - An instant (a JS [Date], or an ISO-8601 timestamp string that the code
      hands to [parseISO] / [new Date]) is the number of milliseconds since
      the epoch, a [Z].  [toISOString] followed by [parseISO] is the identity
      on instants, so [TimeSlot.datetime] holds the instant itself.
    - The process-local time zone, which date-fns reads implicitly, is a
      [DateFns.Zone]: the offset from UTC in force at each instant and the
      offset a JS [Date] picks for each wall-clock reading.  The offset may
      change (daylight saving), so a local day may last 23 or 25 hours;
      [DateFns.fixedZone] is a zone whose offset never changes and
      [DateFns.newYork] the zone the repository names as its default.
    - [parseISO] of date-fns is an argument of the code that calls it on
      a text of the request ([Chatbot.handler]); [DateFns.parseISO_date] is
      its value on texts of the form YYYY-MM-DD.
    - A JS number that results from [Number(...)] on a piece of a time
      string is an [option Z]: [None] is [NaN]; every comparison with [NaN]
      is false.  [Js.Number] converts the texts that denote integers: white
      space around an optionally signed run of decimal digits, or around a
      hexadecimal, octal or binary literal; the empty text converts to 0.
      A text with a fraction, an exponent or [Infinity] denotes a number
      that is no integer in general; such texts are not time strings of
      this application and convert to [None] here.
    - An optional string field that the code tests with [!field] is an
      [option]; [None] stands for [undefined]. *)

From Stdlib Require Import ZArith List String Ascii Bool Lia Permutation Sorted.
From Stdlib Require Import DecimalString.
From Stdlib Require OrderedTypeEx.
Import ListNotations.
Local Open Scope Z_scope.

(* ================================================================== *)
(** ** JS numbers and strings *)

Module Js.

(** A number that may be [NaN]. *)
Definition num := option Z.

Definition lt (a b : num) : bool :=
  match a, b with Some x, Some y => x <? y | _, _ => false end.
Definition le (a b : num) : bool :=
  match a, b with Some x, Some y => x <=? y | _, _ => false end.
Definition ge (a b : num) : bool := le b a.

Definition add (a b : num) : num :=
  match a, b with Some x, Some y => Some (x + y) | _, _ => None end.
Definition mul (a b : num) : num :=
  match a, b with Some x, Some y => Some (x * y) | _, _ => None end.

Definition digitValue (c : ascii) : option Z :=
  let n := Z.of_N (N_of_ascii c) in
  if (48 <=? n) && (n <=? 57) then Some (n - 48) else None.

Fixpoint digitsValue (acc : Z) (s : string) : num :=
  match s with
  | EmptyString => Some acc
  | String c s' =>
      match digitValue c with
      | Some d => digitsValue (10 * acc + d) s'
      | None => None
      end
  end.

(** White space of JS that is one ASCII character: TAB, LF, VT, FF, CR
    and the space. *)
Definition isWhiteSpace (c : ascii) : bool :=
  let n := Z.of_N (N_of_ascii c) in
  ((9 <=? n) && (n <=? 13)) || (n =? 32).

Fixpoint trimStart (s : string) : string :=
  match s with
  | EmptyString => EmptyString
  | String c s' => if isWhiteSpace c then trimStart s' else s
  end.

Fixpoint trimEnd (s : string) : string :=
  match s with
  | EmptyString => EmptyString
  | String c s' =>
      match trimEnd s' with
      | EmptyString => if isWhiteSpace c then EmptyString else String c EmptyString
      | t => String c t
      end
  end.

Definition trim (s : string) : string := trimEnd (trimStart s).

(** Value of a digit in a radix up to 16; [None] for another character. *)
Definition radixDigit (radix : Z) (c : ascii) : option Z :=
  let n := Z.of_N (N_of_ascii c) in
  let v := if (48 <=? n) && (n <=? 57) then n - 48
           else if (97 <=? n) && (n <=? 102) then n - 87
           else if (65 <=? n) && (n <=? 70) then n - 55
           else radix in
  if v <? radix then Some v else None.

Fixpoint radixValue (radix acc : Z) (s : string) : num :=
  match s with
  | EmptyString => Some acc
  | String c s' =>
      match radixDigit radix c with
      | Some d => radixValue radix (radix * acc + d) s'
      | None => None
      end
  end.

(** [Number(s)] on the texts that denote integers. *)
Definition Number (s : string) : num :=
  match trim s with
  | EmptyString => Some 0
  | String "+" (String _ _ as digits) => digitsValue 0 digits
  | String "-" (String _ _ as digits) => option_map Z.opp (digitsValue 0 digits)
  | String "0" (String x (String _ _ as digits)) as t =>
      if Ascii.eqb x "x" || Ascii.eqb x "X" then radixValue 16 0 digits
      else if Ascii.eqb x "o" || Ascii.eqb x "O" then radixValue 8 0 digits
      else if Ascii.eqb x "b" || Ascii.eqb x "B" then radixValue 2 0 digits
      else digitsValue 0 t
  | t => digitsValue 0 t
  end.

(** [s.split(sep)] for a one-character separator. *)
Fixpoint split (sep : ascii) (s : string) : list string :=
  match s with
  | EmptyString => [EmptyString]
  | String c s' =>
      if Ascii.eqb c sep then EmptyString :: split sep s'
      else match split sep s' with
           | [] => [String c EmptyString]
           | h :: t => String c h :: t
           end
  end.

(** [!s] is false exactly for a present, non-empty string. *)
Definition truthy (s : option string) : bool :=
  match s with
  | Some (String _ _) => true
  | _ => false
  end.

(** [arr.includes(x)] on an array of strings. *)
Definition includes (arr : list string) (x : string) : bool :=
  existsb (String.eqb x) arr.

(** [String(n).padStart(width, "0")] for a non-negative integer. *)
Fixpoint zeros (n : nat) : string :=
  match n with O => EmptyString | S k => String "0" (zeros k) end.

Definition addLeadingZeros (n : Z) (width : nat) : string :=
  let digits := NilZero.string_of_uint (N.to_uint (Z.to_N n)) in
  String.append (zeros (width - String.length digits)) digits.

(** ASCII part of [toLowerCase]. *)
Definition lowerChar (c : ascii) : ascii :=
  let n := N_of_ascii c in
  if (N.leb 65 n && N.leb n 90)%bool then ascii_of_N (n + 32) else c.

Fixpoint toLowerCase (s : string) : string :=
  match s with
  | EmptyString => EmptyString
  | String c s' => String (lowerChar c) (toLowerCase s')
  end.

End Js.

(* ================================================================== *)
(** ** date-fns and the local time of a JS [Date] *)

Module DateFns.

Definition MS_PER_MINUTE : Z := 60000.
Definition MS_PER_HOUR : Z := 3600000.
Definition MS_PER_DAY : Z := 86400000.

(** Proleptic Gregorian date [(year, month, day)] of a day number
    (days since 1970-01-01). *)
Definition civil_from_days (z : Z) : Z * Z * Z :=
  let z := z + 719468 in
  let era := z / 146097 in
  let doe := z - era * 146097 in
  let yoe := (doe - doe / 1460 + doe / 36524 - doe / 146096) / 365 in
  let y := yoe + era * 400 in
  let doy := doe - (365 * yoe + yoe / 4 - yoe / 100) in
  let mp := (5 * doy + 2) / 153 in
  let d := doy - (153 * mp + 2) / 5 + 1 in
  let m := if mp <? 10 then mp + 3 else mp - 9 in
  (if m <=? 2 then y + 1 else y, m, d).

(** Day number of a Gregorian date. *)
Definition days_from_civil (y m d : Z) : Z :=
  let y := if m <=? 2 then y - 1 else y in
  let era := y / 400 in
  let yoe := y - era * 400 in
  let doy := (153 * (if m >? 2 then m - 3 else m + 9) + 2) / 5 + d - 1 in
  let doe := yoe * 365 + yoe / 4 - yoe / 100 + doy in
  era * 146097 + doe - 719468.

Definition isLeapYear (y : Z) : bool :=
  ((y mod 4 =? 0) && negb (y mod 100 =? 0)) || (y mod 400 =? 0).

Definition daysInMonth (y m : Z) : Z :=
  if m =? 2 then (if isLeapYear y then 29 else 28)
  else if (m =? 4) || (m =? 6) || (m =? 9) || (m =? 11) then 30
  else 31.

(** The "yyyy-MM-dd" text of a day number. *)
Definition formatDay (day : Z) : string :=
  let '(y, m, d) := civil_from_days day in
  let year := if y >? 0 then y else 1 - y in
  String.append (Js.addLeadingZeros year 4)
    (String "-" (String.append (Js.addLeadingZeros m 2)
       (String "-" (Js.addLeadingZeros d 2)))).

(** Day number named by a "YYYY-MM-DD" text; [None] for another shape
    or a date that does not exist. *)
Definition parseDay (s : string) : option Z :=
  match s with
  | String y1 (String y2 (String y3 (String y4 (String "-"
      (String m1 (String m2 (String "-"
        (String d1 (String d2 EmptyString))))))))) =>
      match Js.digitsValue 0 (String y1 (String y2 (String y3 (String y4 EmptyString)))),
            Js.digitsValue 0 (String m1 (String m2 EmptyString)),
            Js.digitsValue 0 (String d1 (String d2 EmptyString)) with
      | Some y, Some m, Some d =>
          if (1 <=? m) && (m <=? 12) && (1 <=? d) && (d <=? daysInMonth y m)
          then Some (days_from_civil y m d) else None
      | _, _, _ => None
      end
  | _ => None
  end.

Definition isBefore (a b : Z) : bool := a <? b.
Definition isAfter (a b : Z) : bool := b <? a.
Definition addMinutes (t amount : Z) : Z := t + amount * MS_PER_MINUTE.

Definition weekdayAbbrev (dow : Z) : string :=
  if dow =? 0 then "Sun" else if dow =? 1 then "Mon"
  else if dow =? 2 then "Tue" else if dow =? 3 then "Wed"
  else if dow =? 4 then "Thu" else if dow =? 5 then "Fri" else "Sat".

(** The process-local time zone, as a JS [Date] reads it (ECMA-262,
    LocalTime and UTC).  Offsets are in milliseconds east of UTC.
    [offsetAt t] is the offset in force at the instant [t];
    [offsetOfLocal l] is the offset by which the wall-clock reading [l]
    (milliseconds since 1970-01-01T00:00 on the local clock) is turned
    into an instant: for a reading the clock shows twice or skips, the
    offset in force before the change. *)
Record Zone := {
  offsetAt : Z -> Z;
  offsetOfLocal : Z -> Z
}.

(** A zone whose offset never changes. *)
Definition fixedZone (utcOffset : Z) : Zone :=
  {| offsetAt := fun _ => utcOffset; offsetOfLocal := fun _ => utcOffset |}.

Definition utc : Zone := fixedZone 0.

(** Day number of the [n]-th Sunday of month [m] of year [y]
    (day 3, 1970-01-04, was a Sunday). *)
Definition nthSunday (y m n : Z) : Z :=
  let first := days_from_civil y m 1 in
  first + (3 - first) mod 7 + 7 * (n - 1).

(** America/New_York, the default of [TIMEZONE] in lib/availability.ts,
    under the rules in force since 2007: UTC-5, and UTC-4 from the second
    Sunday of March, 02:00 local (07:00 UTC), to the first Sunday of
    November, 02:00 local (06:00 UTC). *)
Definition daylightStart (y : Z) : Z := nthSunday y 3 2 * MS_PER_DAY + 7 * MS_PER_HOUR.
Definition daylightEnd (y : Z) : Z := nthSunday y 11 1 * MS_PER_DAY + 6 * MS_PER_HOUR.

Definition newYork : Zone :=
  {| offsetAt := fun t =>
       let '(y, _, _) := civil_from_days (t / MS_PER_DAY) in
       if (daylightStart y <=? t) && (t <? daylightEnd y)
       then -4 * MS_PER_HOUR else -5 * MS_PER_HOUR;
     offsetOfLocal := fun l =>
       let '(y, _, _) := civil_from_days (l / MS_PER_DAY) in
       if (daylightStart y - 4 * MS_PER_HOUR <=? l)
          && (l <? daylightEnd y - 4 * MS_PER_HOUR)
       then -4 * MS_PER_HOUR else -5 * MS_PER_HOUR |}.

Section Zone.
Variable zone : Zone.

(** LocalTime(t) and UTC(l) of ECMA-262. *)
Definition toLocal (t : Z) : Z := t + offsetAt zone t.
Definition fromLocal (l : Z) : Z := l - offsetOfLocal zone l.

(** Local calendar day (days since 1970-01-01) of an instant. *)
Definition localDay (t : Z) : Z := toLocal t / MS_PER_DAY.

(** [setHours(0, 0, 0, 0)] and [setHours(23, 59, 59, 999)] on a copy:
    the local day of [t] with the time of day replaced. *)
Definition startOfDay (t : Z) : Z := fromLocal (localDay t * MS_PER_DAY).
Definition endOfDay (t : Z) : Z :=
  fromLocal (localDay t * MS_PER_DAY + (MS_PER_DAY - 1)).

(** 0 is Sunday; 1970-01-01 was a Thursday. *)
Definition getDay (t : Z) : Z := (localDay t + 4) mod 7.

(** [format(t, 'HH:mm')] *)
Definition format_HHmm (t : Z) : string :=
  let ms := toLocal t mod MS_PER_DAY in
  String.append (Js.addLeadingZeros (ms / MS_PER_HOUR) 2)
    (String ":" (Js.addLeadingZeros ((ms / MS_PER_MINUTE) mod 60) 2)).

(** [format(t, 'yyyy-MM-dd')] *)
Definition format_yyyyMMdd (t : Z) : string := formatDay (localDay t).

(** [format(t, 'EEE')] *)
Definition format_EEE (t : Z) : string := weekdayAbbrev (getDay t).

(** [parseISO] on a text of the form YYYY-MM-DD: a [Date] of instant 0
    is given the year, month and day of the text by [setFullYear], which
    keeps its local time of day, and then the time 00:00:00.000 by
    [setHours].  Texts of other forms are not covered: [None] stands for
    them as for a date that does not exist. *)
Definition parseISO_date (s : string) : option Z :=
  option_map
    (fun day =>
       let withDate := fromLocal (day * MS_PER_DAY + toLocal 0 mod MS_PER_DAY) in
       fromLocal (localDay withDate * MS_PER_DAY))
    (parseDay s).

End Zone.

End DateFns.

(* ================================================================== *)
(** ** lib/airtable.ts: the records the engine reads *)

Inductive RuleStatus := RuleAvailable | RuleMaybe | RuleUnavailable.
Inductive RuleType := OneTime | Recurring.
Inductive RuleSource := web_app | chatbot | booking.

Record AvailabilityRule := {
  rule_id : string;
  rule_engineerId : string;
  rule_engineerName : option string;
  rule_status : RuleStatus;
  rule_ruleType : RuleType;
  rule_startDateTime : option Z;      (* instant of the ISO text *)
  rule_endDateTime : option Z;
  rule_startTime : option string;     (* "HH:mm" *)
  rule_endTime : option string;
  rule_recurrenceDays : option (list string);
  rule_effectiveFrom : option Z;      (* instant of the ISO text *)
  rule_effectiveUntil : option Z;
  rule_source : RuleSource;
  rule_updatedAt : Z                  (* new Date(updatedAt).getTime() *)
}.

Record Session := {
  session_id : string;
  session_title : string;
  session_engineerId : string;
  session_engineerName : option string;
  session_start : Z;          (* instant of the ISO text *)
  session_end : Z
}.

Record Engineer := {
  engineer_id : string;
  engineer_name : string;
  engineer_email : option string;
  engineer_phone : option string;
  engineer_active : bool
}.

(* ================================================================== *)
(** ** lib/availability.ts *)

Inductive SlotStatus := Available | Maybe | Unavailable | Booked | Blank.

Definition SlotStatus_eqb (a b : SlotStatus) : bool :=
  match a, b with
  | Available, Available | Maybe, Maybe | Unavailable, Unavailable
  | Booked, Booked | Blank, Blank => true
  | _, _ => false
  end.

(** A rule's status, read as a slot status ([slot.status = rule.status]). *)
Definition slotStatusOf (s : RuleStatus) : SlotStatus :=
  match s with
  | RuleAvailable => Available
  | RuleMaybe => Maybe
  | RuleUnavailable => Unavailable
  end.

Record TimeSlot := {
  slot_time : string;        (* "HH:mm" *)
  slot_datetime : Z;         (* instant of the ISO text *)
  slot_status : SlotStatus;
  slot_ruleId : option string;
  slot_sessionId : option string
}.

Record DayAvailability := {
  day_date : string;         (* "YYYY-MM-DD" *)
  day_dayName : string;
  day_slots : list TimeSlot
}.

Record AvailabilitySummary := {
  available : list string;
  maybe : list string;
  unavailable : list string;
  booked : list string;
  not_set : list string
}.

Definition SLOT_MINUTES : Z := 30.

Definition DAY_MAP (n : Z) : option string :=
  if n =? 0 then Some "Sun"%string else if n =? 1 then Some "Mon"%string
  else if n =? 2 then Some "Tue"%string else if n =? 3 then Some "Wed"%string
  else if n =? 4 then Some "Thu"%string else if n =? 5 then Some "Fri"%string
  else if n =? 6 then Some "Sat"%string else None.

Definition timeToMinutes (time : string) : Js.num :=
  match Js.split ":"%char time with
  | hours :: minutes :: _ =>
      Js.add (Js.mul (Js.Number hours) (Some 60)) (Js.Number minutes)
  | _ => None
  end.

Definition RuleType_eqb (a b : RuleType) : bool :=
  match a, b with
  | OneTime, OneTime | Recurring, Recurring => true
  | _, _ => false
  end.

(** The counter values the [for] loop of [generateDaySlots] visits:
    [minutes = 0; minutes < 24 * 60; minutes += SLOT_MINUTES]. *)
Fixpoint slotLoop (fuel : nat) (minutes : Z) : list Z :=
  match fuel with
  | O => []
  | S fuel' =>
      if minutes <? 24 * 60
      then minutes :: slotLoop fuel' (minutes + SLOT_MINUTES)
      else []
  end.

Definition setRule (slot : TimeSlot) (rule : AvailabilityRule) : TimeSlot :=
  {| slot_time := slot_time slot;
     slot_datetime := slot_datetime slot;
     slot_status := slotStatusOf (rule_status rule);
     slot_ruleId := Some (rule_id rule);
     slot_sessionId := slot_sessionId slot |}.

Definition setBooked (slot : TimeSlot) (session : Session) : TimeSlot :=
  {| slot_time := slot_time slot;
     slot_datetime := slot_datetime slot;
     slot_status := Booked;
     slot_ruleId := slot_ruleId slot;
     slot_sessionId := Some (session_id session) |}.

Definition oneTimeRuleApplies (rule : AvailabilityRule) (slotStart slotEnd : Z) : bool :=
  if negb (RuleType_eqb (rule_ruleType rule) OneTime) then false
  else match rule_startDateTime rule, rule_endDateTime rule with
       | Some ruleStart, Some ruleEnd =>
           DateFns.isBefore slotStart ruleEnd && DateFns.isAfter slotEnd ruleStart
       | _, _ => false
       end.

Definition recurringSlotApplies (rule : AvailabilityRule) (date : Z) (slotTime : string) : bool :=
  if negb (Js.truthy (rule_startTime rule)) || negb (Js.truthy (rule_endTime rule)) then false
  else match rule_startTime rule, rule_endTime rule with
       | Some startTime, Some endTime =>
           let slotMinutes := timeToMinutes slotTime in
           let startMinutes := timeToMinutes startTime in
           let endMinutes := timeToMinutes endTime in
           if Js.le endMinutes startMinutes
           then Js.ge slotMinutes startMinutes || Js.lt slotMinutes endMinutes
           else Js.ge slotMinutes startMinutes && Js.lt slotMinutes endMinutes
       | _, _ => false
       end.

Definition sessionCoversSlot (session : Session) (slotStart slotEnd : Z) : bool :=
  DateFns.isBefore slotStart (session_end session)
  && DateFns.isAfter slotEnd (session_start session).

(** Insertion of [r] in front of the first element that is not older:
    the step of a stable ascending sort on [updatedAt]. *)
Fixpoint insertByUpdatedAt (r : AvailabilityRule) (l : list AvailabilityRule)
  : list AvailabilityRule :=
  match l with
  | [] => [r]
  | x :: l' =>
      if rule_updatedAt r <=? rule_updatedAt x then r :: x :: l'
      else x :: insertByUpdatedAt r l'
  end.

(** [arr.sort((a, b) => t(a) - t(b))]: the stable sort of the array,
    ascending on [updatedAt]; elements with equal keys keep their order. *)
Fixpoint sortByUpdatedAt (l : list AvailabilityRule) : list AvailabilityRule :=
  match l with
  | [] => []
  | r :: l' => insertByUpdatedAt r (sortByUpdatedAt l')
  end.

(** The session loop of a slot: the first covering session books the
    slot and ends the loop ([break]). *)
Fixpoint applySessions (sessions : list Session) (slotStart slotEnd : Z) (slot : TimeSlot)
  : TimeSlot :=
  match sessions with
  | [] => slot
  | session :: rest =>
      if sessionCoversSlot session slotStart slotEnd
      then setBooked slot session
      else applySessions rest slotStart slotEnd slot
  end.

Section Engine.
Variable zone : DateFns.Zone.

Definition generateDaySlots (date : Z) : list TimeSlot :=
  let dayStart := DateFns.startOfDay zone date in
  map (fun minutes =>
         let slotTime := DateFns.addMinutes dayStart minutes in
         {| slot_time := DateFns.format_HHmm zone slotTime;
            slot_datetime := slotTime;
            slot_status := Blank;
            slot_ruleId := None;
            slot_sessionId := None |})
      (slotLoop (Z.to_nat (24 * 60)) 0).

Definition recurringRuleApplies (rule : AvailabilityRule) (date : Z) : bool :=
  if negb (RuleType_eqb (rule_ruleType rule) Recurring) then false
  else match rule_recurrenceDays rule with
       | None => false
       | Some days =>
           if (List.length days =? 0)%nat then false
           else
             let dayOfWeek := DateFns.getDay zone date in
             let includesDay :=
               match DAY_MAP dayOfWeek with
               | Some dayName => Js.includes days dayName
               | None => false
               end in
             if negb includesDay then false
             else if match rule_effectiveFrom rule with
                     | Some effectiveFrom => DateFns.isBefore date effectiveFrom
                     | None => false
                     end then false
             else if match rule_effectiveUntil rule with
                     | Some effectiveUntil => DateFns.isAfter date effectiveUntil
                     | None => false
                     end then false
             else true
       end.

(** Body of the rule loop: the two [if] statements, in order. *)
Definition applyRule (currentDate slotStart slotEnd : Z)
    (slot : TimeSlot) (rule : AvailabilityRule) : TimeSlot :=
  let slot1 :=
    if RuleType_eqb (rule_ruleType rule) OneTime
       && oneTimeRuleApplies rule slotStart slotEnd
    then setRule slot rule else slot in
  if RuleType_eqb (rule_ruleType rule) Recurring
     && recurringRuleApplies rule currentDate
     && recurringSlotApplies rule currentDate (slot_time slot1)
  then setRule slot1 rule else slot1.

(** Body of the slot loop. *)
Definition resolveSlot (sortedRules : list AvailabilityRule) (sessions : list Session)
    (currentDate : Z) (slot : TimeSlot) : TimeSlot :=
  let slotStart := slot_datetime slot in
  let slotEnd := DateFns.addMinutes slotStart SLOT_MINUTES in
  let slot' := fold_left (applyRule currentDate slotStart slotEnd) sortedRules slot in
  applySessions sessions slotStart slotEnd slot'.

(** Body of the day loop: the entry pushed for [currentDate]. *)
Definition resolveDay (rules : list AvailabilityRule) (sessions : list Session)
    (currentDate : Z) : DayAvailability :=
  let slots := generateDaySlots currentDate in
  let dateStr := DateFns.format_yyyyMMdd zone currentDate in
  let sortedRules := sortByUpdatedAt rules in
  {| day_date := dateStr;
     day_dayName := DateFns.format_EEE zone currentDate;
     day_slots := map (resolveSlot sortedRules sessions currentDate) slots |}.

(** The [while] loop, with an iteration budget. *)
Fixpoint dayLoop (fuel : nat) (rules : list AvailabilityRule) (sessions : list Session)
    (currentDate end_ : Z) : list DayAvailability :=
  match fuel with
  | O => []
  | S fuel' =>
      if DateFns.isBefore currentDate end_ || (currentDate =? end_)
      then resolveDay rules sessions currentDate
             :: dayLoop fuel' rules sessions
                  (DateFns.addMinutes currentDate (24 * 60)) end_
      else []
  end.

(** Iterations after which the loop condition is false: the instant
    advances by a whole day each time. *)
Definition dayBudget (currentDate end_ : Z) : nat :=
  Z.to_nat ((end_ - currentDate) / DateFns.MS_PER_DAY + 1).

Definition calculateAvailability (rules : list AvailabilityRule) (sessions : list Session)
    (startDate endDate : Z) : list DayAvailability :=
  let currentDate := DateFns.startOfDay zone startDate in
  let end_ := DateFns.endOfDay zone endDate in
  dayLoop (dayBudget currentDate end_) rules sessions currentDate end_.

End Engine.

(** *** getAvailabilitySummary *)

Definition emptySummary : AvailabilitySummary :=
  {| available := []; maybe := []; unavailable := []; booked := []; not_set := [] |}.

Definition push_available (s : AvailabilitySummary) (name : string) :=
  {| available := available s ++ [name]; maybe := maybe s;
     unavailable := unavailable s; booked := booked s; not_set := not_set s |}.
Definition push_maybe (s : AvailabilitySummary) (name : string) :=
  {| available := available s; maybe := maybe s ++ [name];
     unavailable := unavailable s; booked := booked s; not_set := not_set s |}.
Definition push_unavailable (s : AvailabilitySummary) (name : string) :=
  {| available := available s; maybe := maybe s;
     unavailable := unavailable s ++ [name]; booked := booked s; not_set := not_set s |}.
Definition push_booked (s : AvailabilitySummary) (name : string) :=
  {| available := available s; maybe := maybe s;
     unavailable := unavailable s; booked := booked s ++ [name]; not_set := not_set s |}.
Definition push_not_set (s : AvailabilitySummary) (name : string) :=
  {| available := available s; maybe := maybe s;
     unavailable := unavailable s; booked := booked s; not_set := not_set s ++ [name] |}.

(** [statuses.includes(x)] / [statuses.some(s => s === x)] *)
Definition includesStatus (statuses : list SlotStatus) (x : SlotStatus) : bool :=
  existsb (fun s => SlotStatus_eqb s x) statuses.
(** [statuses.every(s => s === x)] *)
Definition everyStatus (statuses : list SlotStatus) (x : SlotStatus) : bool :=
  forallb (fun s => SlotStatus_eqb s x) statuses.

(** The slots of [targetDay] inside the window. *)
Definition relevantSlotsOf (startMinutes endMinutes : Js.num) (targetDay : DayAvailability)
  : list TimeSlot :=
  filter (fun slot =>
            let slotMinutes := timeToMinutes (slot_time slot) in
            Js.ge slotMinutes startMinutes && Js.lt slotMinutes endMinutes)
         (day_slots targetDay).

(** Body of the loop over the entries of the map. *)
Definition summarizeEngineer (targetDate : string) (startMinutes endMinutes : Js.num)
    (summary : AvailabilitySummary) (entry : string * list DayAvailability)
  : AvailabilitySummary :=
  let '(engineerName, days) := entry in
  match find (fun d => String.eqb (day_date d) targetDate) days with
  | None => push_not_set summary engineerName
  | Some targetDay =>
      let relevantSlots := relevantSlotsOf startMinutes endMinutes targetDay in
      if (List.length relevantSlots =? 0)%nat then push_not_set summary engineerName
      else
        let statuses := map slot_status relevantSlots in
        if includesStatus statuses Booked then push_booked summary engineerName
        else if includesStatus statuses Unavailable then push_unavailable summary engineerName
        else if includesStatus statuses Blank then
          if everyStatus statuses Blank then push_not_set summary engineerName
          else if includesStatus statuses Maybe then push_maybe summary engineerName
          else if includesStatus statuses Available then push_available summary engineerName
          else push_not_set summary engineerName
        else if includesStatus statuses Maybe then push_maybe summary engineerName
        else if everyStatus statuses Available then push_available summary engineerName
        else push_not_set summary engineerName
  end.

(** The [Map] is its list of entries in insertion order (the order in
    which [entries()] yields them); its keys are distinct. *)
Definition getAvailabilitySummary (engineersAvailability : list (string * list DayAvailability))
    (targetDate startTime endTime : string) : AvailabilitySummary :=
  let startMinutes := timeToMinutes startTime in
  let endMinutes := timeToMinutes endTime in
  fold_left (summarizeEngineer targetDate startMinutes endMinutes)
            engineersAvailability emptySummary.

(** The five lists of a summary, by name. *)
Inductive Bucket := B_available | B_maybe | B_unavailable | B_booked | B_not_set.

Definition bucket (b : Bucket) (s : AvailabilitySummary) : list string :=
  match b with
  | B_available => available s
  | B_maybe => maybe s
  | B_unavailable => unavailable s
  | B_booked => booked s
  | B_not_set => not_set s
  end.

Definition allBuckets : list Bucket :=
  [B_available; B_maybe; B_unavailable; B_booked; B_not_set].

(** The precedence of the roll-up as the design document words it:
    numbered steps, the first whose condition holds decides. *)
Inductive Precedence (statuses : list SlotStatus) : Bucket -> Prop :=
| step1_booked :
    In Booked statuses -> Precedence statuses B_booked
| step2_unavailable :
    ~ In Booked statuses -> In Unavailable statuses ->
    Precedence statuses B_unavailable
| step3_all_blank :
    ~ In Booked statuses -> ~ In Unavailable statuses -> In Blank statuses ->
    Forall (fun s => s = Blank) statuses ->
    Precedence statuses B_not_set
| step3_maybe :
    ~ In Booked statuses -> ~ In Unavailable statuses -> In Blank statuses ->
    ~ Forall (fun s => s = Blank) statuses -> In Maybe statuses ->
    Precedence statuses B_maybe
| step3_available :
    ~ In Booked statuses -> ~ In Unavailable statuses -> In Blank statuses ->
    ~ Forall (fun s => s = Blank) statuses -> ~ In Maybe statuses ->
    In Available statuses ->
    Precedence statuses B_available
| step3_else :
    ~ In Booked statuses -> ~ In Unavailable statuses -> In Blank statuses ->
    ~ Forall (fun s => s = Blank) statuses -> ~ In Maybe statuses ->
    ~ In Available statuses ->
    Precedence statuses B_not_set
| step4_maybe :
    ~ In Booked statuses -> ~ In Unavailable statuses -> ~ In Blank statuses ->
    In Maybe statuses ->
    Precedence statuses B_maybe
| step5_available :
    ~ In Booked statuses -> ~ In Unavailable statuses -> ~ In Blank statuses ->
    ~ In Maybe statuses -> Forall (fun s => s = Available) statuses ->
    Precedence statuses B_available
| step6_else :
    ~ In Booked statuses -> ~ In Unavailable statuses -> ~ In Blank statuses ->
    ~ In Maybe statuses -> ~ Forall (fun s => s = Available) statuses ->
    Precedence statuses B_not_set.

(* ================================================================== *)
(** ** The arrays of a call, as objects of a store

    [calculateAvailability] receives references to two arrays.  The
    store below holds arrays by location, so that [[...rules]] (a fresh
    array) and [.sort] (an update in place) are told apart. *)

Module Store.

Inductive Obj :=
| RuleArray (l : list AvailabilityRule)
| SessionArray (l : list Session).

Definition Heap := list Obj.

(** A computation on the store that may fail on a dangling or
    ill-typed reference. *)
Definition M (A : Type) : Type := Heap -> option (A * Heap).

Definition ret {A} (a : A) : M A := fun h => Some (a, h).
Definition bind {A B} (m : M A) (k : A -> M B) : M B :=
  fun h => match m h with
           | Some (a, h') => k a h'
           | None => None
           end.

Fixpoint setNth (h : Heap) (n : nat) (o : Obj) : Heap :=
  match h, n with
  | [], _ => []
  | _ :: t, O => o :: t
  | x :: t, S n' => x :: setNth t n' o
  end.

Definition readRules (ref : nat) : M (list AvailabilityRule) :=
  fun h => match nth_error h ref with
           | Some (RuleArray l) => Some (l, h)
           | _ => None
           end.

Definition readSessions (ref : nat) : M (list Session) :=
  fun h => match nth_error h ref with
           | Some (SessionArray l) => Some (l, h)
           | _ => None
           end.

(** [[...arr]]: a new array with the elements of [arr]. *)
Definition spread (ref : nat) : M nat :=
  fun h => match nth_error h ref with
           | Some (RuleArray l) => Some (List.length h, h ++ [RuleArray l])
           | _ => None
           end.

(** [arr.sort(byUpdatedAt)]: sorts [arr] in place and returns it. *)
Definition sortInPlace (ref : nat) : M nat :=
  fun h => match nth_error h ref with
           | Some (RuleArray l) =>
               Some (ref, setNth h ref (RuleArray (sortByUpdatedAt l)))
           | _ => None
           end.

End Store.

Notation "x <- m ;; k" := (Store.bind m (fun x => k))
  (at level 61, m at next level, right associativity).

Section EngineOnStore.
Variable zone : DateFns.Zone.

Definition resolveDayM (rules sessions : nat) (currentDate : Z)
  : Store.M DayAvailability :=
  let slots := generateDaySlots zone currentDate in
  let dateStr := DateFns.format_yyyyMMdd zone currentDate in
  copy <- Store.spread rules ;;
  sortedRules <- Store.sortInPlace copy ;;
  sortedList <- Store.readRules sortedRules ;;
  sessionList <- Store.readSessions sessions ;;
  Store.ret
    {| day_date := dateStr;
       day_dayName := DateFns.format_EEE zone currentDate;
       day_slots :=
         map (resolveSlot zone sortedList sessionList currentDate) slots |}.

Fixpoint dayLoopM (fuel : nat) (rules sessions : nat) (currentDate end_ : Z)
  : Store.M (list DayAvailability) :=
  match fuel with
  | O => Store.ret []
  | S fuel' =>
      if DateFns.isBefore currentDate end_ || (currentDate =? end_)
      then
        day <- resolveDayM rules sessions currentDate ;;
        rest <- dayLoopM fuel' rules sessions
                  (DateFns.addMinutes currentDate (24 * 60)) end_ ;;
        Store.ret (day :: rest)
      else Store.ret []
  end.

Definition calculateAvailabilityM (rules sessions : nat) (startDate endDate : Z)
  : Store.M (list DayAvailability) :=
  let currentDate := DateFns.startOfDay zone startDate in
  let end_ := DateFns.endOfDay zone endDate in
  dayLoopM (dayBudget currentDate end_) rules sessions currentDate end_.

End EngineOnStore.

(* ================================================================== *)
(** ** pages/api/chatbot.ts

    The handler reads the engineers from the store and writes one rule
    to it; the list of engineers is an argument here and the rule handed
    to [createAvailabilityRule] is part of the result.  In that rule the
    date-times are still the texts the handler builds.  Of the [catch]
    branch only the date that fails to parse is modelled: the store calls
    are taken to succeed. *)

Module Chatbot.

Record ChatbotRequest := {
  req_engineer : option string;
  req_status : option RuleStatus;
  req_date : option string;            (* YYYY-MM-DD *)
  req_start_time : option string;      (* HH:mm *)
  req_end_time : option string;
  req_days : option (list string);
  req_effective_from : option string;
  req_effective_until : option string
}.

(** Argument of [createAvailabilityRule]. *)
Record NewRule := {
  new_engineerId : string;
  new_status : RuleStatus;
  new_ruleType : RuleType;
  new_startDateTime : option string;
  new_endDateTime : option string;
  new_startTime : option string;
  new_endTime : option string;
  new_recurrenceDays : option (list string);
  new_effectiveFrom : option string;
  new_effectiveUntil : option string;
  new_source : RuleSource
}.

Inductive Response :=
| Failure (code : Z) (error : string)
| Created (rule : NewRule).          (* status 201 *)

Definition isRecurring (body : ChatbotRequest) : bool :=
  match req_days body with
  | Some days => (0 <? List.length days)%nat
  | None => false
  end.

Definition findEngineer (engineers : list Engineer) (name : string) : option Engineer :=
  find (fun e =>
          String.eqb (Js.toLowerCase (engineer_name e)) (Js.toLowerCase name)
          || String.eqb (engineer_id e) name)
       engineers.

(** [`${date}T${time}:00`] *)
Definition dateTimeText (date time : string) : string :=
  String.append date (String "T" (String.append time ":00")).

Section Zone.
Variable zone : DateFns.Zone.
(** [parseISO] of date-fns, on the text of a request: the instant it
    reads, [None] for an Invalid Date (on which [format] throws). *)
Variable parseISO : string -> option Z.

Definition handler (method : string) (body : ChatbotRequest)
    (engineers : list Engineer) : Response :=
  if negb (String.eqb method "POST") then Failure 405 "Use POST method"
  else
    match req_engineer body, req_status body with
    | Some (String c name' as name), Some status =>
        match findEngineer engineers name with
        | None => Failure 404 "Engineer not found"
        | Some engineer =>
            if isRecurring body then
              if negb (Js.truthy (req_start_time body))
                 || negb (Js.truthy (req_end_time body))
              then Failure 400 "start_time and end_time are required for recurring rules"
              else
                Created
                  {| new_engineerId := engineer_id engineer;
                     new_status := status;
                     new_ruleType := Recurring;
                     new_startDateTime := None;
                     new_endDateTime := None;
                     new_startTime := req_start_time body;
                     new_endTime := req_end_time body;
                     new_recurrenceDays := req_days body;
                     new_effectiveFrom := req_effective_from body;
                     new_effectiveUntil := req_effective_until body;
                     new_source := chatbot |}
            else
              match req_date body, req_start_time body, req_end_time body with
              | Some (String _ _ as date), Some (String _ _ as start_time),
                Some (String _ _ as end_time) =>
                  let startDateTime := dateTimeText date start_time in
                  let endDateTime := dateTimeText date end_time in
                  let oneTime adjustedEndDateTime :=
                    Created
                      {| new_engineerId := engineer_id engineer;
                         new_status := status;
                         new_ruleType := OneTime;
                         new_startDateTime := Some startDateTime;
                         new_endDateTime := Some adjustedEndDateTime;
                         new_startTime := None;
                         new_endTime := None;
                         new_recurrenceDays := None;
                         new_effectiveFrom := None;
                         new_effectiveUntil := None;
                         new_source := chatbot |} in
                  if String.ltb end_time start_time then
                    match parseISO date with
                    | Some parsed =>
                        let nextDay :=
                          DateFns.format_yyyyMMdd zone
                            (DateFns.addMinutes parsed (24 * 60)) in
                        oneTime (dateTimeText nextDay end_time)
                    | None => Failure 500 "Internal server error"
                    end
                  else oneTime endDateTime
              | _, _, _ =>
                  Failure 400 "date, start_time, and end_time are required for one-time rules"
              end
        end
    | _, _ => Failure 400 "Engineer name and status are required"
    end.

End Zone.

End Chatbot.

(* ================================================================== *)
(** ** Vocabulary of the statements *)

(** The condition under which the rule loop overwrites a slot: either of
    its two [if] conditions. *)
Definition ruleAppliesToSlot (zone : DateFns.Zone) (rule : AvailabilityRule)
    (currentDate : Z) (slot : TimeSlot) : bool :=
  (RuleType_eqb (rule_ruleType rule) OneTime
   && oneTimeRuleApplies rule (slot_datetime slot)
        (DateFns.addMinutes (slot_datetime slot) SLOT_MINUTES))
  || (RuleType_eqb (rule_ruleType rule) Recurring
      && recurringRuleApplies zone rule currentDate
      && recurringSlotApplies rule currentDate (slot_time slot)).

(** The instant [currentDate] holds in iteration [k] of the day loop. *)
Definition dayStart (zone : DateFns.Zone) (startDate : Z) (k : nat) : Z :=
  DateFns.startOfDay zone startDate + Z.of_nat k * DateFns.MS_PER_DAY.

(** Iterations of the day loop of a call. *)
Definition iterations (zone : DateFns.Zone) (startDate endDate : Z) : nat :=
  dayBudget (DateFns.startOfDay zone startDate) (DateFns.endOfDay zone endDate).

(** Number of local calendar days from [startDate] to [endDate],
    both included. *)
Definition dayCount (zone : DateFns.Zone) (startDate endDate : Z) : nat :=
  Z.to_nat (DateFns.localDay zone endDate
            - DateFns.localDay zone startDate + 1).

(** Two decimal digits, zero-padded. *)
Definition digitChar (d : Z) : ascii := ascii_of_N (Z.to_N (48 + d)).
Definition twoDigits (n : Z) : string :=
  String (digitChar (n / 10)) (String (digitChar (n mod 10)) EmptyString).

(** "HH:mm" label of minute [m] of a day. *)
Definition labelOfMinute (m : Z) : string :=
  String.append (twoDigits (m / 60)) (String ":" (twoDigits (m mod 60))).

Definition pushTo (b : Bucket) (s : AvailabilitySummary) (name : string)
  : AvailabilitySummary :=
  match b with
  | B_available => push_available s name
  | B_maybe => push_maybe s name
  | B_unavailable => push_unavailable s name
  | B_booked => push_booked s name
  | B_not_set => push_not_set s name
  end.

(** The list the cascade of [summarizeEngineer] pushes to. *)
Definition classify (statuses : list SlotStatus) : Bucket :=
  if includesStatus statuses Booked then B_booked
  else if includesStatus statuses Unavailable then B_unavailable
  else if includesStatus statuses Blank then
    if everyStatus statuses Blank then B_not_set
    else if includesStatus statuses Maybe then B_maybe
    else if includesStatus statuses Available then B_available
    else B_not_set
  else if includesStatus statuses Maybe then B_maybe
  else if everyStatus statuses Available then B_available
  else B_not_set.

Definition findTargetDay (targetDate : string) (days : list DayAvailability)
  : option DayAvailability :=
  find (fun d => String.eqb (day_date d) targetDate) days.

Definition bucketOfEntry (targetDate : string) (startMinutes endMinutes : Js.num)
    (days : list DayAvailability) : Bucket :=
  match findTargetDay targetDate days with
  | None => B_not_set
  | Some targetDay =>
      let relevantSlots := relevantSlotsOf startMinutes endMinutes targetDay in
      if (List.length relevantSlots =? 0)%nat then B_not_set
      else classify (map slot_status relevantSlots)
  end.

(** The slot [generateDaySlots] creates at index [i] for [date]. *)
Definition generatedSlot (zone : DateFns.Zone) (date : Z) (i : nat) : TimeSlot :=
  let slotTime :=
    DateFns.addMinutes (DateFns.startOfDay zone date) (Z.of_nat i * SLOT_MINUTES) in
  {| slot_time := DateFns.format_HHmm zone slotTime;
     slot_datetime := slotTime;
     slot_status := Blank;
     slot_ruleId := None;
     slot_sessionId := None |}.

(** The slot at index [i] of a day of 24 hours that starts at
    [dayStart]: 30 i minutes past its midnight, labelled with that
    minute. *)
Definition freshSlot (dayStart : Z) (i : nat) : TimeSlot :=
  {| slot_time := labelOfMinute (Z.of_nat i * SLOT_MINUTES);
     slot_datetime := DateFns.addMinutes dayStart (Z.of_nat i * SLOT_MINUTES);
     slot_status := Blank;
     slot_ruleId := None;
     slot_sessionId := None |}.

(** Iterations the slot loop makes from counter value [minutes]. *)
Definition slotCount (minutes : Z) : nat :=
  Z.to_nat ((24 * 60 - minutes + (SLOT_MINUTES - 1)) / SLOT_MINUTES).

(** The last element of [l] that satisfies [p]: the rule whose
    overwrite survives a pass of the rule loop over [l]. *)
Fixpoint lastMatch {A} (p : A -> bool) (l : list A) : option A :=
  match l with
  | [] => None
  | x :: l' =>
      match lastMatch p l' with
      | Some r => Some r
      | None => if p x then Some x else None
      end
  end.

(** The clock of the zone is not set back between the instant [t] and
    24 hours later (nor set forward by a day or more): the offset from UTC
    does not decrease. *)
Definition notSetBackWithinDay (zone : DateFns.Zone) (t : Z) : Prop :=
  0 <= DateFns.offsetAt zone (DateFns.addMinutes t (24 * 60)) - DateFns.offsetAt zone t
    < DateFns.MS_PER_DAY.

(** The end of a slot that starts at [slotStart]. *)
Definition slotEndOf (slot : TimeSlot) : Z :=
  DateFns.addMinutes (slot_datetime slot) SLOT_MINUTES.

(** Order of the sorted array. *)
Definition olderOrEqual (a b : AvailabilityRule) : Prop :=
  rule_updatedAt a <= rule_updatedAt b.

(** *** Sample data

    2024-01-05 was a Friday; [friday] is its start in UTC. *)
Definition friday : Z := 19727 * DateFns.MS_PER_DAY.

Definition recurringRule (id : string) (status : RuleStatus)
    (startTime endTime : string) (days : list string) (updatedAt : Z)
  : AvailabilityRule :=
  {| rule_id := id; rule_engineerId := "eng1"; rule_engineerName := None;
     rule_status := status;
     rule_ruleType := Recurring;
     rule_startDateTime := None; rule_endDateTime := None;
     rule_startTime := Some startTime; rule_endTime := Some endTime;
     rule_recurrenceDays := Some days;
     rule_effectiveFrom := None; rule_effectiveUntil := None;
     rule_source := web_app; rule_updatedAt := updatedAt |}.

Definition oneTimeRule (id : string) (status : RuleStatus)
    (startDateTime endDateTime : Z) (updatedAt : Z) : AvailabilityRule :=
  {| rule_id := id; rule_engineerId := "eng1"; rule_engineerName := None;
     rule_status := status;
     rule_ruleType := OneTime;
     rule_startDateTime := Some startDateTime; rule_endDateTime := Some endDateTime;
     rule_startTime := None; rule_endTime := None;
     rule_recurrenceDays := None;
     rule_effectiveFrom := None; rule_effectiveUntil := None;
     rule_source := web_app; rule_updatedAt := updatedAt |}.

Definition sessionAt (id : string) (start end_ : Z) : Session :=
  {| session_id := id; session_title := "Session"; session_engineerId := "eng1";
     session_engineerName := None;
     session_start := start; session_end := end_ |}.

(** Friday 13:00-22:00, Available, written first. *)
Definition ruleA : AvailabilityRule :=
  recurringRule "A" RuleAvailable "13:00" "22:00" ["Fri"%string] 1000.
(** Friday 18:00-20:00, Unavailable, written second. *)
Definition ruleB : AvailabilityRule :=
  recurringRule "B" RuleUnavailable "18:00" "20:00" ["Fri"%string] 2000.
(** That Friday 17:00-19:00 UTC, Maybe, one-time, written last. *)
Definition ruleC : AvailabilityRule :=
  oneTimeRule "C" RuleMaybe (friday + 17 * DateFns.MS_PER_HOUR)
    (friday + 19 * DateFns.MS_PER_HOUR) 3000.
(** Fridays 22:00-04:00. *)
Definition ruleNight : AvailabilityRule :=
  recurringRule "N" RuleMaybe "22:00" "04:00" ["Fri"%string] 1000.
(** A session that Friday, 18:15-18:45 UTC. *)
Definition sessionS : Session :=
  sessionAt "S" (friday + 18 * DateFns.MS_PER_HOUR + 15 * DateFns.MS_PER_MINUTE)
    (friday + 18 * DateFns.MS_PER_HOUR + 45 * DateFns.MS_PER_MINUTE).

(** The status and rule of slot [i] of entry [k] of a result. *)
Definition slotAt (out : list DayAvailability) (k i : nat) : option TimeSlot :=
  match nth_error out k with
  | Some day => nth_error (day_slots day) i
  | None => None
  end.

(** Fridays, 09:00 to 09:00. *)
Definition ruleAllDay : AvailabilityRule :=
  recurringRule "W" RuleAvailable "09:00" "09:00" ["Fri"%string] 1000.

(** Friday and Saturday resolved against [ruleNight] alone. *)
Definition fridayNight : list DayAvailability :=
  calculateAvailability DateFns.utc [ruleNight] [] friday (friday + DateFns.MS_PER_DAY).

Definition Bucket_eqb (a b : Bucket) : bool :=
  match a, b with
  | B_available, B_available | B_maybe, B_maybe | B_unavailable, B_unavailable
  | B_booked, B_booked | B_not_set, B_not_set => true
  | _, _ => false
  end.

(** The names of the entries of the map that [classOf] sends to [b], in
    the order of the map. *)
Definition namesIn {A} (classOf : A -> Bucket) (b : Bucket) (m : list (string * A))
  : list string :=
  map fst (filter (fun entry => Bucket_eqb (classOf (snd entry)) b) m).

(** Three engineers on the sample Friday: Ann has [ruleA], Bob has
    [ruleA], [ruleB] and the session, Cy has nothing recorded. *)
Definition sampleEngineers : list (string * list DayAvailability) :=
  [("Ann"%string, calculateAvailability DateFns.utc [ruleA] [] friday friday);
   ("Bob"%string, calculateAvailability DateFns.utc [ruleA; ruleB] [sessionS] friday friday);
   ("Cy"%string, [])].

(** A store with the two input arrays of a call and an unrelated one. *)
Definition sampleStore : Store.Heap :=
  [Store.RuleArray [ruleC; ruleB; ruleA]; Store.SessionArray [sessionS];
   Store.RuleArray [ruleNight]].

(** *** Sample requests to the chatbot endpoint *)

Definition bob : Engineer :=
  {| engineer_id := "recBob"; engineer_name := "Bob";
     engineer_email := None; engineer_phone := None; engineer_active := true |}.

Definition request (date start_time end_time : option string)
    (days : option (list string)) : Chatbot.ChatbotRequest :=
  {| Chatbot.req_engineer := Some "bob"%string;
     Chatbot.req_status := Some RuleAvailable;
     Chatbot.req_date := date;
     Chatbot.req_start_time := start_time;
     Chatbot.req_end_time := end_time;
     Chatbot.req_days := days;
     Chatbot.req_effective_from := None;
     Chatbot.req_effective_until := None |}.

(** Mondays, no times given. *)
Definition mondaysWithoutTimes : Chatbot.ChatbotRequest :=
  request None None None (Some ["Mon"%string]).
(** 2024-02-29, 22:00 to 04:00. *)
Definition leapNight : Chatbot.ChatbotRequest :=
  request (Some "2024-02-29"%string) (Some "22:00"%string) (Some "04:00"%string) None.
(** 2024-02-29, 09:00 to 17:00. *)
Definition leapDay : Chatbot.ChatbotRequest :=
  request (Some "2024-02-29"%string) (Some "09:00"%string) (Some "17:00"%string) None.
(** Mondays and Tuesdays, 09:00 to 17:00. *)
Definition weekdayMornings : Chatbot.ChatbotRequest :=
  request None (Some "09:00"%string) (Some "17:00"%string)
    (Some ["Mon"%string; "Tue"%string]).

(** 2025-11-02, 22:00 to 04:00. *)
Definition fallBackNight : Chatbot.ChatbotRequest :=
  request (Some "2025-11-02"%string) (Some "22:00"%string) (Some "04:00"%string) None.

(** *** The days of 2025 on which New York changes its clocks

    2025-03-09 and 2025-11-02: their local midnights, 05:00 and 04:00
    UTC. *)
Definition marchNinth : Z :=
  20156 * DateFns.MS_PER_DAY + 5 * DateFns.MS_PER_HOUR.
Definition novemberSecond : Z :=
  20394 * DateFns.MS_PER_DAY + 4 * DateFns.MS_PER_HOUR.

(** The labels of the slots of an entry. *)
Definition labelsOf (day : DayAvailability) : list string :=
  map slot_time (day_slots day).

(** Friday 18:00-20:00, Maybe, written at the instant [ruleB] was. *)
Definition ruleTie : AvailabilityRule :=
  recurringRule "T" RuleMaybe "18:00" "20:00" ["Fri"%string] 2000.

(** *** Further vocabulary *)

(** Whether a time text contains the separator of [split(':')]. *)
Definition hasColon (s : string) : bool :=
  existsb (Ascii.eqb ":"%char) (list_ascii_of_string s).

(** [recurrenceDays.includes(DAY_MAP[weekday])] for the local calendar
    day [day] (days since 1970-01-01, a Thursday). *)
Definition includesWeekdayOf (days : list string) (day : Z) : bool :=
  match DAY_MAP ((day + 4) mod 7) with
  | Some dayName => Js.includes days dayName
  | None => false
  end.

(** A bound of the effective range that is absent lets every day pass. *)
Definition notBefore (bound : option Z) (day : Z) : bool :=
  match bound with Some b => b <=? day | None => true end.
Definition notAfter (bound : option Z) (day : Z) : bool :=
  match bound with Some b => day <=? b | None => true end.

(** Local midnight of a calendar day, as an optional bound: what
    [parseISO] yields for a date-only text. *)
Definition midnightOf (zone : DateFns.Zone) (day : option Z) : option Z :=
  option_map (fun d => DateFns.fromLocal zone (d * DateFns.MS_PER_DAY)) day.

(** Fridays 09:00-17:00, effective from Friday 2024-01-05 until Friday
    2024-01-26 (days 19727 and 19748). *)
Definition ruleJanuary : AvailabilityRule :=
  {| rule_id := "J"; rule_engineerId := "eng1"; rule_engineerName := None;
     rule_status := RuleAvailable; rule_ruleType := Recurring;
     rule_startDateTime := None; rule_endDateTime := None;
     rule_startTime := Some "09:00"%string; rule_endTime := Some "17:00"%string;
     rule_recurrenceDays := Some ["Fri"%string];
     rule_effectiveFrom := midnightOf DateFns.utc (Some 19727);
     rule_effectiveUntil := midnightOf DateFns.utc (Some 19748);
     rule_source := web_app; rule_updatedAt := 1000 |}.

(** Fridays "0900" to "1700": times written without a colon. *)
Definition ruleNoColon : AvailabilityRule :=
  recurringRule "Q" RuleAvailable "0900" "1700" ["Fri"%string] 1000.

(* ================================================================== *)
(** ** pages/index.tsx: from painted slots to one-time rules *)

Module WebApp.

(** [n.toString()] for an integer. *)
Definition toString (n : Z) : string :=
  if n <? 0
  then String "-" (NilZero.string_of_uint (N.to_uint (Z.to_N (- n))))
  else NilZero.string_of_uint (N.to_uint (Z.to_N n)).

(** [s.padStart(2, '0')] *)
Definition padStart2 (s : string) : string :=
  String.append (Js.zeros (2 - String.length s)) s.

(** [Math.floor(totalMinutes / 60) % 24] and [totalMinutes % 60]: the
    remainder of JS takes the sign of the dividend; [NaN] prints as "NaN". *)
Definition addMinutesToTime (time : string) (minutes : Z) : string :=
  match timeToMinutes time with
  | Some t =>
      let totalMinutes := t + minutes in
      let hours := Z.rem (totalMinutes / 60) 24 in
      let mins := Z.rem totalMinutes 60 in
      String.append (padStart2 (toString hours))
        (String ":" (padStart2 (toString mins)))
  | None => "NaN:NaN"
  end.

(** [rulesByDate]: the map from a date to the times picked on it, as its
    entries in insertion order.  [pushTime] is the body of the [forEach]:
    a new date enters with an empty array, then the time is pushed. *)
Fixpoint pushTime (date time : string) (m : list (string * list string))
  : list (string * list string) :=
  match m with
  | [] => [(date, [time])]
  | (d, times) :: m' =>
      if String.eqb d date then (d, times ++ [time]) :: m'
      else (d, times) :: pushTime date time m'
  end.

Definition groupByDate (slots : list (string * string)) : list (string * list string) :=
  fold_left (fun m slot => pushTime (fst slot) (snd slot) m) slots [].

(** [times.sort()]: ascending in the order of the code units. *)
Fixpoint insertTime (t : string) (l : list string) : list string :=
  match l with
  | [] => [t]
  | x :: l' => if String.leb t x then t :: x :: l' else x :: insertTime t l'
  end.

Fixpoint sortTimes (l : list string) : list string :=
  match l with
  | [] => []
  | t :: l' => insertTime t (sortTimes l')
  end.

(** [currMinutes - prevMinutes === 30] *)
Definition followsBy30 (prev curr : string) : bool :=
  match timeToMinutes curr, timeToMinutes prev with
  | Some c, Some p => c - p =? 30
  | _, _ => false
  end.

(** The loop over [sortedTimes] from index 1, with the two variables it
    updates, and the push after it. *)
Fixpoint rangeLoop (rangeStart rangeEnd : string) (rest : list string)
  : list (string * string) :=
  match rest with
  | [] => [(rangeStart, addMinutesToTime rangeEnd 30)]
  | curr :: rest' =>
      if followsBy30 rangeEnd curr
      then rangeLoop rangeStart curr rest'
      else (rangeStart, addMinutesToTime rangeEnd 30) :: rangeLoop curr curr rest'
  end.

(** The ranges of one date.  The array of a date is never empty: a date
    enters the map together with its first time. *)
Definition rangesOf (times : list string) : list (string * string) :=
  match sortTimes times with
  | [] => []
  | first :: rest => rangeLoop first first rest
  end.

(** [selectedStatus] as the status of a rule; Blank and Booked are not
    statuses of rules and are turned away by the guard. *)
Definition ruleStatusOf (s : SlotStatus) : option RuleStatus :=
  match s with
  | Available => Some RuleAvailable
  | Maybe => Some RuleMaybe
  | Unavailable => Some RuleUnavailable
  | Booked | Blank => None
  end.

Definition oneTimeRuleFor (engineerId : string) (status : RuleStatus)
    (date : string) (range : string * string) : Chatbot.NewRule :=
  {| Chatbot.new_engineerId := engineerId;
     Chatbot.new_status := status;
     Chatbot.new_ruleType := OneTime;
     Chatbot.new_startDateTime := Some (Chatbot.dateTimeText date (fst range));
     Chatbot.new_endDateTime := Some (Chatbot.dateTimeText date (snd range));
     Chatbot.new_startTime := None;
     Chatbot.new_endTime := None;
     Chatbot.new_recurrenceDays := None;
     Chatbot.new_effectiveFrom := None;
     Chatbot.new_effectiveUntil := None;
     Chatbot.new_source := web_app |}.

(** [handleSlotsSelected]: the [rules] array it posts to /api/rules, or
    [None] when the guard returns before any request. *)
Definition handleSlotsSelected (selectedEngineer : option Engineer)
    (selectedStatus : SlotStatus) (slots : list (string * string))
  : option (list Chatbot.NewRule) :=
  match selectedEngineer, ruleStatusOf selectedStatus, slots with
  | Some engineer, Some status, _ :: _ =>
      Some (flat_map
              (fun entry =>
                 map (oneTimeRuleFor (engineer_id engineer) status (fst entry))
                     (rangesOf (snd entry)))
              (groupByDate slots))
  | _, _, _ => None
  end.

End WebApp.

(** Picks of Friday's slots [a], ..., [a + n - 1], in order. *)
Definition picksOn (date : string) (a n : nat) : list (string * string) :=
  map (fun i => (date, labelOfMinute (Z.of_nat i * SLOT_MINUTES))) (seq a n).

(** "HH:mm" label of minute [t] of a day, and of slot [i]. *)
Definition minuteLabel (t : nat) : string := labelOfMinute (Z.of_nat t).
Definition slotLabel (i : nat) : string := labelOfMinute (Z.of_nat i * SLOT_MINUTES).

(** The slots [a], ..., [b] of a run. *)
Definition slotsOfRun (run : nat * nat) : list nat :=
  seq (fst run) (snd run - fst run + 1).

(** The range a run of slots is posted as: from the label of its first
    slot to the label 30 minutes after its last, which past 23:30 is
    "00:00". *)
Definition rangeOfRun (run : nat * nat) : string * string :=
  (slotLabel (fst run), slotLabel (S (snd run) mod 48)).

(** The runs of consecutive slots in a list of slot numbers read from
    left to right, the current run being [s], ..., [e]. *)
Fixpoint runsFrom (s e : nat) (rest : list nat) : list (nat * nat) :=
  match rest with
  | [] => [(s, e)]
  | c :: rest' =>
      if (c =? S e)%nat then runsFrom s c rest'
      else (s, e) :: runsFrom c c rest'
  end.

(** The order of [times.sort()]. *)
Definition timeLe (a b : string) : Prop := String.leb a b = true.

(* ================================================================== *)
(** ** Calendar arithmetic *)

(** *** The day loop ends by its own condition *)

Lemma dayBudget_step cur end_ :
  cur <= end_ ->
  dayBudget cur end_ = S (dayBudget (DateFns.addMinutes cur (24 * 60)) end_).
Proof.
  intros Hle. unfold dayBudget, DateFns.addMinutes.
  replace (end_ - (cur + 24 * 60 * DateFns.MS_PER_MINUTE))
    with ((end_ - cur) + (-1) * DateFns.MS_PER_DAY)
    by (unfold DateFns.MS_PER_MINUTE, DateFns.MS_PER_DAY; lia).
  rewrite Z.div_add by discriminate.
  assert (0 <= (end_ - cur) / DateFns.MS_PER_DAY)
    by (apply Z.div_pos; [lia | reflexivity]).
  rewrite <- Z2Nat.inj_succ by lia. f_equal; lia.
Qed.

Lemma dayBudget_done cur end_ : end_ < cur -> dayBudget cur end_ = O.
Proof.
  intros Hlt. unfold dayBudget.
  assert ((end_ - cur) / DateFns.MS_PER_DAY < 0)
    by (apply Z.div_lt_upper_bound; [reflexivity | lia]).
  lia.
Qed.

Lemma loop_condition cur end_ :
  (DateFns.isBefore cur end_ || (cur =? end_)) = (cur <=? end_).
Proof.
  unfold DateFns.isBefore.
  destruct (Z.ltb_spec cur end_), (Z.eqb_spec cur end_), (Z.leb_spec cur end_);
    simpl; try reflexivity; lia.
Qed.

Section LoopFacts.
Variable zone : DateFns.Zone.

Lemma dayLoop_days rules sessions end_ fuel : forall cur,
  (dayBudget cur end_ <= fuel)%nat ->
  dayLoop zone fuel rules sessions cur end_
  = map (fun k => resolveDay zone rules sessions
                    (cur + Z.of_nat k * DateFns.MS_PER_DAY))
        (seq 0 (dayBudget cur end_)).
Proof.
  induction fuel as [|fuel IH]; intros cur Hfuel.
  - replace (dayBudget cur end_) with O by lia. reflexivity.
  - cbn [dayLoop]. rewrite loop_condition.
    destruct (Z.leb_spec cur end_) as [Hle|Hgt].
    + rewrite (dayBudget_step cur end_ Hle) in *.
      rewrite IH by lia. cbn [seq map]. f_equal.
      * f_equal. lia.
      * rewrite <- seq_shift, map_map. apply map_ext. intros k.
        f_equal. unfold DateFns.addMinutes, DateFns.MS_PER_MINUTE, DateFns.MS_PER_DAY.
        lia.
    + rewrite dayBudget_done by lia. reflexivity.
Qed.

(** More budget never changes the result: the loop stops because its
    condition fails, not because the budget runs out. *)
Lemma dayLoop_budget_enough rules sessions cur end_ extra :
  dayLoop zone (dayBudget cur end_ + extra) rules sessions cur end_
  = dayLoop zone (dayBudget cur end_) rules sessions cur end_.
Proof. rewrite !dayLoop_days by lia. reflexivity. Qed.

(** Iteration [k] of the day loop resolves the instant [k] times 24
    hours after the local midnight of [startDate]. *)
Lemma calculateAvailability_loop rules sessions s e :
  calculateAvailability zone rules sessions s e
  = map (fun k => resolveDay zone rules sessions (dayStart zone s k))
        (seq 0 (iterations zone s e)).
Proof.
  unfold calculateAvailability. rewrite dayLoop_days by lia. reflexivity.
Qed.

End LoopFacts.

(** *** Zones whose offset never changes *)

Section FixedZoneFacts.
Variable utcOffset : Z.

Lemma toLocal_fixed t :
  DateFns.toLocal (DateFns.fixedZone utcOffset) t = t + utcOffset.
Proof. reflexivity. Qed.

Lemma fromLocal_fixed l :
  DateFns.fromLocal (DateFns.fixedZone utcOffset) l = l - utcOffset.
Proof. reflexivity. Qed.

Lemma toLocal_startOfDay t :
  DateFns.toLocal (DateFns.fixedZone utcOffset)
    (DateFns.startOfDay (DateFns.fixedZone utcOffset) t)
  = DateFns.localDay (DateFns.fixedZone utcOffset) t * DateFns.MS_PER_DAY.
Proof.
  unfold DateFns.startOfDay. rewrite toLocal_fixed, fromLocal_fixed. lia.
Qed.

Lemma toLocal_dayStart s k :
  DateFns.toLocal (DateFns.fixedZone utcOffset) (dayStart (DateFns.fixedZone utcOffset) s k)
  = (DateFns.localDay (DateFns.fixedZone utcOffset) s + Z.of_nat k) * DateFns.MS_PER_DAY.
Proof.
  unfold dayStart, DateFns.startOfDay. rewrite toLocal_fixed, fromLocal_fixed. lia.
Qed.

Lemma localDay_dayStart s k :
  DateFns.localDay (DateFns.fixedZone utcOffset) (dayStart (DateFns.fixedZone utcOffset) s k)
  = DateFns.localDay (DateFns.fixedZone utcOffset) s + Z.of_nat k.
Proof.
  unfold DateFns.localDay at 1. rewrite toLocal_dayStart.
  apply Z.div_mul. discriminate.
Qed.

Lemma startOfDay_dayStart s k :
  DateFns.startOfDay (DateFns.fixedZone utcOffset) (dayStart (DateFns.fixedZone utcOffset) s k)
  = dayStart (DateFns.fixedZone utcOffset) s k.
Proof.
  unfold DateFns.startOfDay at 1. rewrite localDay_dayStart.
  unfold dayStart, DateFns.startOfDay. rewrite !fromLocal_fixed. lia.
Qed.

Lemma localDay_mono a b :
  a <= b ->
  DateFns.localDay (DateFns.fixedZone utcOffset) a
  <= DateFns.localDay (DateFns.fixedZone utcOffset) b.
Proof.
  intros H. unfold DateFns.localDay. rewrite !toLocal_fixed.
  apply Z.div_le_mono; [reflexivity | lia].
Qed.

Lemma span_days s e :
  (DateFns.endOfDay (DateFns.fixedZone utcOffset) e
   - DateFns.startOfDay (DateFns.fixedZone utcOffset) s) / DateFns.MS_PER_DAY
  = DateFns.localDay (DateFns.fixedZone utcOffset) e
    - DateFns.localDay (DateFns.fixedZone utcOffset) s.
Proof.
  unfold DateFns.endOfDay, DateFns.startOfDay. rewrite !fromLocal_fixed.
  set (a := DateFns.localDay (DateFns.fixedZone utcOffset) e).
  set (b := DateFns.localDay (DateFns.fixedZone utcOffset) s).
  replace (a * DateFns.MS_PER_DAY + (DateFns.MS_PER_DAY - 1) - utcOffset
           - (b * DateFns.MS_PER_DAY - utcOffset))
    with ((DateFns.MS_PER_DAY - 1) + (a - b) * DateFns.MS_PER_DAY) by lia.
  rewrite Z.div_add by discriminate.
  rewrite Z.div_small; [lia | unfold DateFns.MS_PER_DAY; lia].
Qed.

Lemma iterations_fixed s e :
  iterations (DateFns.fixedZone utcOffset) s e = dayCount (DateFns.fixedZone utcOffset) s e.
Proof. unfold iterations, dayBudget, dayCount. rewrite span_days. reflexivity. Qed.

Lemma calculateAvailability_days rules sessions s e :
  calculateAvailability (DateFns.fixedZone utcOffset) rules sessions s e
  = map (fun k => resolveDay (DateFns.fixedZone utcOffset) rules sessions
                    (dayStart (DateFns.fixedZone utcOffset) s k))
        (seq 0 (dayCount (DateFns.fixedZone utcOffset) s e)).
Proof. rewrite calculateAvailability_loop, iterations_fixed. reflexivity. Qed.

End FixedZoneFacts.

(* ================================================================== *)
(** ** The slots of a day *)

Lemma nth_error_map_seq {A} (f : nat -> A) n i :
  nth_error (map f (seq 0 n)) i = if (i <? n)%nat then Some (f i) else None.
Proof.
  rewrite nth_error_map.
  destruct (Nat.ltb_spec i n) as [Hlt|Hge].
  - rewrite nth_error_nth' with (d := O) by (rewrite length_seq; exact Hlt).
    rewrite seq_nth by exact Hlt. reflexivity.
  - replace (nth_error (seq 0 n) i) with (@None nat); [reflexivity|].
    symmetry. apply nth_error_None. rewrite length_seq. exact Hge.
Qed.

Lemma slotLoop_minutes fuel : forall minutes,
  (slotCount minutes <= fuel)%nat ->
  slotLoop fuel minutes
  = map (fun i => minutes + Z.of_nat i * SLOT_MINUTES) (seq 0 (slotCount minutes)).
Proof.
  unfold slotCount, SLOT_MINUTES.
  induction fuel as [|fuel IH]; intros minutes Hfuel.
  - replace (Z.to_nat _) with O by lia. reflexivity.
  - cbn [slotLoop]. unfold SLOT_MINUTES.
    destruct (Z.ltb_spec minutes (24 * 60)) as [Hlt|Hge].
    + assert (Hstep : Z.to_nat ((24 * 60 - minutes + (30 - 1)) / 30)
                      = S (Z.to_nat ((24 * 60 - (minutes + 30) + (30 - 1)) / 30))).
      { replace (24 * 60 - minutes + (30 - 1))
          with ((24 * 60 - (minutes + 30) + (30 - 1)) + 1 * 30) by lia.
        rewrite Z.div_add by discriminate.
        assert (0 <= (24 * 60 - (minutes + 30) + (30 - 1)) / 30)
          by (apply Z.div_pos; lia).
        rewrite <- Z2Nat.inj_succ by lia. f_equal; lia. }
      rewrite Hstep in *. rewrite IH by lia. cbn [seq map]. f_equal.
      * lia.
      * rewrite <- seq_shift, map_map. apply map_ext. intros i. lia.
    + assert ((24 * 60 - minutes + (30 - 1)) / 30 < 1)
        by (apply Z.div_lt_upper_bound; lia).
      replace (Z.to_nat _) with O by lia. reflexivity.
Qed.

(** The loop of [generateDaySlots] visits 0, 30, ..., 1410 and stops by
    its own condition. *)
Lemma slotLoop_day :
  slotLoop (Z.to_nat (24 * 60)) 0
  = map (fun i => Z.of_nat i * SLOT_MINUTES) (seq 0 48).
Proof. rewrite slotLoop_minutes; [reflexivity | vm_compute; lia]. Qed.

Lemma timeToMinutes_label i :
  (i < 48)%nat ->
  timeToMinutes (labelOfMinute (Z.of_nat i * SLOT_MINUTES))
  = Some (Z.of_nat i * SLOT_MINUTES).
Proof.
  intros Hi.
  do 48 (destruct i as [|i]; [vm_compute; reflexivity|]).
  lia.
Qed.

Lemma forallb_below (P : nat -> bool) n :
  forallb P (seq 0 n) = true -> forall i, (i < n)%nat -> P i = true.
Proof.
  intros H i Hi. rewrite forallb_forall in H. apply H. apply in_seq. lia.
Qed.

Lemma timeToMinutes_minuteLabel t :
  (t < 1440)%nat -> timeToMinutes (minuteLabel t) = Some (Z.of_nat t).
Proof.
  intros Ht.
  assert (Hall : forallb (fun t => match timeToMinutes (minuteLabel t) with
                                   | Some m => m =? Z.of_nat t
                                   | None => false
                                   end) (seq 0 1440) = true)
    by (vm_compute; reflexivity).
  pose proof (forallb_below _ _ Hall t Ht) as H. cbv beta in H.
  destruct (timeToMinutes (minuteLabel t)) as [m|]; [|discriminate H].
  apply Z.eqb_eq in H. congruence.
Qed.

Lemma addLeadingZeros_twoDigits n :
  0 <= n < 100 -> Js.addLeadingZeros n 2 = twoDigits n.
Proof.
  intros Hn.
  assert (Hall : forallb (fun k => String.eqb (Js.addLeadingZeros (Z.of_nat k) 2)
                                     (twoDigits (Z.of_nat k))) (seq 0 100) = true)
    by (vm_compute; reflexivity).
  pose proof (forallb_below _ _ Hall (Z.to_nat n) ltac:(lia)) as H. cbv beta in H.
  rewrite Z2Nat.id in H by lia. apply String.eqb_eq. exact H.
Qed.

Section SlotFacts.
Variable zone : DateFns.Zone.

(** The minute of the local day at an instant. *)
Lemma minuteOfDay_bounds t :
  0 <= (DateFns.toLocal zone t mod DateFns.MS_PER_DAY) / DateFns.MS_PER_MINUTE < 1440.
Proof.
  pose proof (Z.mod_pos_bound (DateFns.toLocal zone t) DateFns.MS_PER_DAY eq_refl) as H.
  split.
  - apply Z.div_pos; [lia | reflexivity].
  - apply Z.div_lt_upper_bound; [reflexivity|].
    unfold DateFns.MS_PER_DAY, DateFns.MS_PER_MINUTE in *. lia.
Qed.

(** [format(t, 'HH:mm')] is the zero-padded label of the minute of the
    local day. *)
Lemma format_HHmm_label t :
  DateFns.format_HHmm zone t
  = labelOfMinute ((DateFns.toLocal zone t mod DateFns.MS_PER_DAY) / DateFns.MS_PER_MINUTE).
Proof.
  unfold DateFns.format_HHmm, labelOfMinute. cbv zeta.
  pose proof (minuteOfDay_bounds t) as Hm.
  set (ms := DateFns.toLocal zone t mod DateFns.MS_PER_DAY) in *.
  set (m := ms / DateFns.MS_PER_MINUTE) in *.
  assert (Hh : ms / DateFns.MS_PER_HOUR = m / 60).
  { unfold m. rewrite Z.div_div by (unfold DateFns.MS_PER_MINUTE; lia). reflexivity. }
  rewrite Hh.
  assert (0 <= m / 60 < 24).
  { split; [apply Z.div_pos; lia | apply Z.div_lt_upper_bound; lia]. }
  pose proof (Z.mod_pos_bound m 60 eq_refl).
  rewrite !addLeadingZeros_twoDigits by lia. reflexivity.
Qed.

Lemma timeToMinutes_format_HHmm t :
  timeToMinutes (DateFns.format_HHmm zone t)
  = Some ((DateFns.toLocal zone t mod DateFns.MS_PER_DAY) / DateFns.MS_PER_MINUTE).
Proof.
  rewrite format_HHmm_label.
  pose proof (minuteOfDay_bounds t) as Hm.
  set (m := DateFns.toLocal zone t mod DateFns.MS_PER_DAY / DateFns.MS_PER_MINUTE) in *.
  pose proof (timeToMinutes_minuteLabel (Z.to_nat m) ltac:(lia)) as H.
  unfold minuteLabel in H. rewrite Z2Nat.id in H by lia. exact H.
Qed.

Lemma generateDaySlots_generated date :
  generateDaySlots zone date = map (generatedSlot zone date) (seq 0 48).
Proof. unfold generateDaySlots. rewrite slotLoop_day, map_map. reflexivity. Qed.

Lemma generateDaySlots_length date :
  List.length (generateDaySlots zone date) = 48%nat.
Proof. rewrite generateDaySlots_generated, length_map, length_seq. reflexivity. Qed.

Lemma generateDaySlots_nth date i :
  nth_error (generateDaySlots zone date) i
  = if (i <? 48)%nat then Some (generatedSlot zone date i) else None.
Proof. rewrite generateDaySlots_generated. apply nth_error_map_seq. Qed.

End SlotFacts.

(** *** The slots of a day in a zone whose offset never changes *)

Section FixedZoneSlots.
Variable utcOffset : Z.

Lemma format_HHmm_slot t i :
  (i < 48)%nat ->
  DateFns.toLocal (DateFns.fixedZone utcOffset) t mod DateFns.MS_PER_DAY = 0 ->
  DateFns.format_HHmm (DateFns.fixedZone utcOffset)
    (DateFns.addMinutes t (Z.of_nat i * SLOT_MINUTES))
  = labelOfMinute (Z.of_nat i * SLOT_MINUTES).
Proof.
  intros Hi Hmid. rewrite format_HHmm_label. f_equal.
  rewrite toLocal_fixed in *. unfold DateFns.addMinutes.
  replace (t + Z.of_nat i * SLOT_MINUTES * DateFns.MS_PER_MINUTE + utcOffset)
    with ((t + utcOffset) + Z.of_nat i * SLOT_MINUTES * DateFns.MS_PER_MINUTE) by lia.
  rewrite Z.add_mod by discriminate. rewrite Hmid, Z.add_0_l, Z.mod_mod by discriminate.
  rewrite Z.mod_small
    by (unfold SLOT_MINUTES, DateFns.MS_PER_MINUTE, DateFns.MS_PER_DAY; lia).
  apply Z.div_mul. discriminate.
Qed.

Lemma toLocal_startOfDay_mod t :
  DateFns.toLocal (DateFns.fixedZone utcOffset)
    (DateFns.startOfDay (DateFns.fixedZone utcOffset) t) mod DateFns.MS_PER_DAY = 0.
Proof. rewrite toLocal_startOfDay. apply Z.mod_mul. discriminate. Qed.

Lemma generatedSlot_fresh date i :
  (i < 48)%nat ->
  generatedSlot (DateFns.fixedZone utcOffset) date i
  = freshSlot (DateFns.startOfDay (DateFns.fixedZone utcOffset) date) i.
Proof.
  intros Hi. unfold generatedSlot, freshSlot. cbv zeta. f_equal.
  apply format_HHmm_slot; [exact Hi | apply toLocal_startOfDay_mod].
Qed.

Lemma generateDaySlots_fresh date :
  generateDaySlots (DateFns.fixedZone utcOffset) date
  = map (freshSlot (DateFns.startOfDay (DateFns.fixedZone utcOffset) date)) (seq 0 48).
Proof.
  rewrite generateDaySlots_generated.
  apply map_ext_in. intros i Hi. apply in_seq in Hi.
  apply generatedSlot_fresh. lia.
Qed.

End FixedZoneSlots.

(* ================================================================== *)
(** ** The stable sort on [updatedAt] *)

Lemma insertByUpdatedAt_perm r l : Permutation (r :: l) (insertByUpdatedAt r l).
Proof.
  induction l as [|x l IH]; simpl.
  - apply Permutation_refl.
  - destruct (rule_updatedAt r <=? rule_updatedAt x).
    + apply Permutation_refl.
    + eapply perm_trans; [apply perm_swap|]. apply perm_skip. exact IH.
Qed.

Lemma sortByUpdatedAt_perm l : Permutation l (sortByUpdatedAt l).
Proof.
  induction l as [|r l IH]; simpl.
  - apply perm_nil.
  - eapply perm_trans; [apply perm_skip; exact IH|]. apply insertByUpdatedAt_perm.
Qed.

Lemma sortByUpdatedAt_In l r : In r (sortByUpdatedAt l) <-> In r l.
Proof.
  split; intros H.
  - eapply Permutation_in; [apply Permutation_sym, sortByUpdatedAt_perm | exact H].
  - eapply Permutation_in; [apply sortByUpdatedAt_perm | exact H].
Qed.

Lemma insertByUpdatedAt_sorted r l :
  StronglySorted olderOrEqual l -> StronglySorted olderOrEqual (insertByUpdatedAt r l).
Proof.
  induction 1 as [|x l Hs IH Hall]; simpl.
  - repeat constructor.
  - destruct (Z.leb_spec (rule_updatedAt r) (rule_updatedAt x)) as [Hle|Hgt].
    + constructor; [constructor; assumption|].
      constructor; [exact Hle|].
      eapply Forall_impl; [|exact Hall]. unfold olderOrEqual. intros; lia.
    + constructor; [exact IH|].
      eapply Permutation_Forall; [apply insertByUpdatedAt_perm|].
      constructor; [unfold olderOrEqual; lia | exact Hall].
Qed.

Lemma sortByUpdatedAt_sorted l : StronglySorted olderOrEqual (sortByUpdatedAt l).
Proof.
  induction l as [|r l IH]; simpl.
  - constructor.
  - apply insertByUpdatedAt_sorted. exact IH.
Qed.

(** Stability: rules with one [updatedAt] keep their input order. *)
Lemma insertByUpdatedAt_filter t r l :
  StronglySorted olderOrEqual l ->
  filter (fun x => rule_updatedAt x =? t) (insertByUpdatedAt r l)
  = filter (fun x => rule_updatedAt x =? t) (r :: l).
Proof.
  induction 1 as [|x l Hs IH Hall]; [reflexivity|].
  cbn [insertByUpdatedAt].
  destruct (Z.leb_spec (rule_updatedAt r) (rule_updatedAt x)) as [Hle|Hgt];
    [reflexivity|].
  cbn [filter] in *. rewrite IH.
  destruct (Z.eqb_spec (rule_updatedAt x) t) as [Hx|Hx];
    destruct (Z.eqb_spec (rule_updatedAt r) t) as [Hr|Hr];
    try reflexivity.
  lia.
Qed.

Lemma sortByUpdatedAt_stable t l :
  filter (fun x => rule_updatedAt x =? t) (sortByUpdatedAt l)
  = filter (fun x => rule_updatedAt x =? t) l.
Proof.
  induction l as [|r l IH]; [reflexivity|].
  cbn [sortByUpdatedAt].
  rewrite insertByUpdatedAt_filter by apply sortByUpdatedAt_sorted.
  cbn [filter]. rewrite IH. reflexivity.
Qed.

(* ================================================================== *)
(** ** The last match of a pass *)

Lemma lastMatch_Some {A} (p : A -> bool) l r :
  lastMatch p l = Some r -> In r l /\ p r = true.
Proof.
  induction l as [|x l IH]; simpl; [discriminate|].
  destruct (lastMatch p l) as [r'|] eqn:E.
  - intros [= <-]. destruct (IH eq_refl). auto.
  - destruct (p x) eqn:Ex; [|discriminate].
    intros [= <-]. auto.
Qed.

Lemma lastMatch_None {A} (p : A -> bool) l :
  lastMatch p l = None <-> (forall x, In x l -> p x = false).
Proof.
  induction l as [|x l IH]; simpl.
  - split; [intros _ y [] | reflexivity].
  - destruct (lastMatch p l) as [r|] eqn:E.
    + split; [discriminate|]. intros H.
      destruct (lastMatch_Some p l r E) as [Hin Hp].
      rewrite (H r (or_intror Hin)) in Hp. discriminate.
    + destruct (p x) eqn:Ex.
      * split; [discriminate|]. intros H. rewrite (H x (or_introl eq_refl)) in Ex.
        discriminate.
      * split; [|reflexivity]. intros _ y [<-|Hy]; [exact Ex|].
        apply IH; [reflexivity | exact Hy].
Qed.

Lemma lastMatch_newest p l r :
  StronglySorted olderOrEqual l ->
  lastMatch p l = Some r ->
  forall x, In x l -> p x = true -> rule_updatedAt x <= rule_updatedAt r.
Proof.
  induction 1 as [|y l Hs IH Hall]; simpl; [discriminate|].
  destruct (lastMatch p l) as [r'|] eqn:E.
  - intros [= <-] x [<-|Hx] Hp.
    + rewrite Forall_forall in Hall. apply Hall.
      apply (lastMatch_Some p l r' E).
    + apply IH; auto.
  - destruct (p y) eqn:Ey; [|discriminate].
    intros [= <-] x [<-|Hx] Hp; [lia|].
    rewrite lastMatch_None in E. rewrite (E x Hx) in Hp. discriminate.
Qed.

(* ================================================================== *)
(** ** One slot: the rule pass and the session pass *)

Section SlotResolution.
Variable zone : DateFns.Zone.

Lemma setRule_setRule slot r1 r2 : setRule (setRule slot r1) r2 = setRule slot r2.
Proof. reflexivity. Qed.

Lemma ruleAppliesToSlot_ext rule cur slot slot' :
  slot_time slot' = slot_time slot ->
  slot_datetime slot' = slot_datetime slot ->
  ruleAppliesToSlot zone rule cur slot' = ruleAppliesToSlot zone rule cur slot.
Proof. unfold ruleAppliesToSlot. intros -> ->. reflexivity. Qed.

(** The two [if] statements of the loop body amount to one test. *)
Lemma applyRule_test cur slot rule :
  applyRule zone cur (slot_datetime slot) (slotEndOf slot) slot rule
  = if ruleAppliesToSlot zone rule cur slot then setRule slot rule else slot.
Proof.
  unfold applyRule, ruleAppliesToSlot, slotEndOf.
  destruct (rule_ruleType rule) eqn:Ety; cbn [RuleType_eqb andb orb].
  - rewrite orb_false_r.
    destruct (oneTimeRuleApplies rule _ _); reflexivity.
  - destruct (recurringRuleApplies zone rule cur
              && recurringSlotApplies rule cur (slot_time slot)); reflexivity.
Qed.

Lemma rulePass_lastMatch cur fresh rules : forall slot,
  slot_time slot = slot_time fresh ->
  slot_datetime slot = slot_datetime fresh ->
  fold_left (applyRule zone cur (slot_datetime fresh) (slotEndOf fresh)) rules slot
  = match lastMatch (fun r => ruleAppliesToSlot zone r cur fresh) rules with
    | Some r => setRule slot r
    | None => slot
    end.
Proof.
  induction rules as [|x rules IH]; intros slot Ht Hd; [reflexivity|].
  cbn [fold_left lastMatch].
  assert (Hstep : applyRule zone cur (slot_datetime fresh) (slotEndOf fresh) slot x
                  = if ruleAppliesToSlot zone x cur fresh
                    then setRule slot x else slot).
  { rewrite <- (ruleAppliesToSlot_ext x cur fresh slot Ht Hd).
    rewrite <- applyRule_test. unfold slotEndOf. rewrite Hd. reflexivity. }
  rewrite Hstep.
  destruct (ruleAppliesToSlot zone x cur fresh).
  - rewrite IH by assumption.
    destruct (lastMatch _ rules); reflexivity.
  - rewrite IH by assumption.
    destruct (lastMatch _ rules); reflexivity.
Qed.

Lemma applySessions_none sessions slotStart slotEnd slot :
  (forall S, In S sessions -> sessionCoversSlot S slotStart slotEnd = false) ->
  applySessions sessions slotStart slotEnd slot = slot.
Proof.
  induction sessions as [|S sessions IH]; intros H; [reflexivity|].
  cbn [applySessions]. rewrite (H S (or_introl eq_refl)).
  apply IH. intros S' HS'. apply H. right. exact HS'.
Qed.

Lemma applySessions_some sessions slotStart slotEnd slot S :
  In S sessions -> sessionCoversSlot S slotStart slotEnd = true ->
  exists S', In S' sessions
             /\ sessionCoversSlot S' slotStart slotEnd = true
             /\ applySessions sessions slotStart slotEnd slot = setBooked slot S'.
Proof.
  induction sessions as [|S0 sessions IH]; intros Hin Hcov; [destruct Hin|].
  cbn [applySessions].
  destruct (sessionCoversSlot S0 slotStart slotEnd) eqn:E0.
  - exists S0. repeat split; [left; reflexivity | exact E0].
  - destruct Hin as [->|Hin]; [congruence|].
    destruct (IH Hin Hcov) as (S' & HS' & Hc & Heq).
    exists S'. repeat split; [right; exact HS' | exact Hc | exact Heq].
Qed.

(** The slot at index [i] of the entry at index [k] of the result. *)
Lemma resolved_slot rules sessions s e k i day slot :
  nth_error (calculateAvailability zone rules sessions s e) k = Some day ->
  nth_error (day_slots day) i = Some slot ->
  (k < iterations zone s e)%nat /\ (i < 48)%nat
  /\ day = resolveDay zone rules sessions (dayStart zone s k)
  /\ slot = resolveSlot zone (sortByUpdatedAt rules) sessions
              (dayStart zone s k) (generatedSlot zone (dayStart zone s k) i).
Proof.
  rewrite calculateAvailability_loop, nth_error_map_seq.
  destruct (Nat.ltb_spec k (iterations zone s e)) as [Hk|Hk]; [|discriminate].
  intros [= <-]. unfold resolveDay at 1. cbn [day_slots].
  rewrite nth_error_map, generateDaySlots_nth.
  destruct (Nat.ltb_spec i 48) as [Hi|Hi]; [|discriminate].
  cbn [option_map]. intros [= <-]. auto.
Qed.

Lemma resolveSlot_fresh rules sessions cur fresh :
  resolveSlot zone rules sessions cur fresh
  = applySessions sessions (slot_datetime fresh) (slotEndOf fresh)
      match lastMatch (fun r => ruleAppliesToSlot zone r cur fresh) rules with
      | Some r => setRule fresh r
      | None => fresh
      end.
Proof.
  unfold resolveSlot. fold (slotEndOf fresh).
  rewrite rulePass_lastMatch by reflexivity. reflexivity.
Qed.

Lemma applySessions_keeps sessions slotStart slotEnd slot :
  let slot' := applySessions sessions slotStart slotEnd slot in
  slot_time slot' = slot_time slot /\ slot_datetime slot' = slot_datetime slot
  /\ slot_ruleId slot' = slot_ruleId slot.
Proof.
  induction sessions as [|S sessions IH]; cbn [applySessions]; [auto|].
  destruct (sessionCoversSlot S slotStart slotEnd); [cbn; auto | exact IH].
Qed.

(** Resolution never touches [time] and [datetime]. *)
Lemma resolveSlot_keeps rules sessions cur fresh :
  let slot := resolveSlot zone rules sessions cur fresh in
  slot_time slot = slot_time fresh /\ slot_datetime slot = slot_datetime fresh.
Proof.
  cbv zeta. rewrite resolveSlot_fresh.
  destruct (applySessions_keeps sessions (slot_datetime fresh) (slotEndOf fresh)
              match lastMatch (fun r => ruleAppliesToSlot zone r cur fresh) rules with
              | Some r => setRule fresh r
              | None => fresh
              end) as (Ht & Hd & _).
  rewrite Ht, Hd. destruct (lastMatch _ rules); auto.
Qed.

End SlotResolution.

(* ================================================================== *)
(** ** Properties of [calculateAvailability] *)

(** The example of the design document: A then B on a Friday. *)
Example friday_A_then_B :
  option_map (fun d => map slot_status (day_slots d))
    (nth_error (calculateAvailability DateFns.utc [ruleB; ruleA] [] friday friday) 0)
  = Some (repeat Blank 26 ++ repeat Available 10 ++ repeat Unavailable 4
          ++ repeat Available 4 ++ repeat Blank 4).
Proof. vm_compute. reflexivity. Qed.

Section Resolution.
Variable zone : DateFns.Zone.

Lemma resolved_slot_form rules sessions s e k i day slot :
  nth_error (calculateAvailability zone rules sessions s e) k = Some day ->
  nth_error (day_slots day) i = Some slot ->
  let fresh := generatedSlot zone (dayStart zone s k) i in
  slot_time slot = slot_time fresh /\ slot_datetime slot = slot_datetime fresh
  /\ slot = applySessions sessions (slot_datetime fresh) (slotEndOf fresh)
              match lastMatch
                      (fun r => ruleAppliesToSlot zone r (dayStart zone s k) fresh)
                      (sortByUpdatedAt rules) with
              | Some r => setRule fresh r
              | None => fresh
              end.
Proof.
  intros Hday Hslot fresh.
  destruct (resolved_slot zone rules sessions s e k i day slot Hday Hslot)
    as (_ & _ & _ & ->).
  fold fresh.
  destruct (resolveSlot_keeps zone (sortByUpdatedAt rules) sessions
              (dayStart zone s k) fresh) as [Ht Hd].
  repeat split; [exact Ht | exact Hd | apply resolveSlot_fresh].
Qed.

(** C1, as amended.  When two rules R1 and R2 of the input with
    [R1.updatedAt < R2.updatedAt] both apply to a slot of a resolved day,
    every other rule of the input that applies to the slot is strictly
    older than R2, and no session covers the slot, the slot carries R2's
    status and R2's id as [ruleId], whatever the rule types and the order
    of the input array. *)
Theorem latest_applicable_rule_wins rules sessions s e k i day slot R1 R2 :
  nth_error (calculateAvailability zone rules sessions s e) k = Some day ->
  nth_error (day_slots day) i = Some slot ->
  In R1 rules -> In R2 rules ->
  rule_updatedAt R1 < rule_updatedAt R2 ->
  ruleAppliesToSlot zone R1 (dayStart zone s k) slot = true ->
  ruleAppliesToSlot zone R2 (dayStart zone s k) slot = true ->
  (forall R, In R rules -> ruleAppliesToSlot zone R (dayStart zone s k) slot = true ->
             R = R2 \/ rule_updatedAt R < rule_updatedAt R2) ->
  (forall S, In S sessions ->
             sessionCoversSlot S (slot_datetime slot) (slotEndOf slot) = false) ->
  slot_status slot = slotStatusOf (rule_status R2)
  /\ slot_ruleId slot = Some (rule_id R2).
Proof.
  intros Hday Hslot _ HR2 _ _ Happ2 Hnewest Hfree.
  destruct (resolved_slot_form rules sessions s e k i day slot Hday Hslot)
    as (Ht & Hd & Heq).
  set (cur := dayStart zone s k) in *.
  set (fresh := generatedSlot zone cur i) in *.
  assert (Hext : forall R, ruleAppliesToSlot zone R cur slot
                           = ruleAppliesToSlot zone R cur fresh)
    by (intros R; apply ruleAppliesToSlot_ext; assumption).
  assert (Hends : slotEndOf slot = slotEndOf fresh)
    by (unfold slotEndOf; rewrite Hd; reflexivity).
  rewrite applySessions_none in Heq
    by (intros S HS; rewrite <- Hd, <- Hends; apply Hfree; exact HS).
  destruct (lastMatch (fun r => ruleAppliesToSlot zone r cur fresh)
              (sortByUpdatedAt rules)) as [r|] eqn:Elast.
  - destruct (lastMatch_Some _ _ _ Elast) as [Hin Hp].
    apply (proj1 (sortByUpdatedAt_In _ _)) in Hin.
    assert (Hle : rule_updatedAt R2 <= rule_updatedAt r).
    { apply (lastMatch_newest _ _ _ (sortByUpdatedAt_sorted rules) Elast).
      - apply (proj2 (sortByUpdatedAt_In _ _)). exact HR2.
      - rewrite <- Hext. exact Happ2. }
    destruct (Hnewest r Hin) as [->|Hlt]; [rewrite Hext; exact Hp | | lia].
    subst slot. split; reflexivity.
  - rewrite lastMatch_None in Elast.
    rewrite Hext, (Elast R2) in Happ2; [discriminate|].
    apply (proj2 (sortByUpdatedAt_In _ _)). exact HR2.
Qed.

(** C3.  A slot of a resolved day that a session of the input overlaps
    (slot start before the session's end, slot end after the session's
    start) is Booked and carries the id of a session of the input that
    overlaps it, whatever the rules are. *)
Theorem session_overlay_books rules sessions s e k i day slot S :
  nth_error (calculateAvailability zone rules sessions s e) k = Some day ->
  nth_error (day_slots day) i = Some slot ->
  In S sessions ->
  slot_datetime slot < session_end S ->
  session_start S < slotEndOf slot ->
  slot_status slot = Booked
  /\ exists S', In S' sessions
                /\ slot_datetime slot < session_end S'
                /\ session_start S' < slotEndOf slot
                /\ slot_sessionId slot = Some (session_id S').
Proof.
  intros Hday Hslot HS Hlo Hhi.
  destruct (resolved_slot_form rules sessions s e k i day slot Hday Hslot)
    as (Ht & Hd & Heq).
  set (cur := dayStart zone s k) in *.
  set (fresh := generatedSlot zone cur i) in *.
  assert (Hends : slotEndOf slot = slotEndOf fresh)
    by (unfold slotEndOf; rewrite Hd; reflexivity).
  assert (Hcov : sessionCoversSlot S (slot_datetime fresh) (slotEndOf fresh) = true).
  { unfold sessionCoversSlot, DateFns.isBefore, DateFns.isAfter.
    rewrite <- Hd, <- Hends.
    apply andb_true_intro. split; apply Z.ltb_lt; assumption. }
  destruct (applySessions_some sessions (slot_datetime fresh) (slotEndOf fresh)
              match lastMatch (fun r => ruleAppliesToSlot zone r cur fresh)
                      (sortByUpdatedAt rules) with
              | Some r => setRule fresh r
              | None => fresh
              end S HS Hcov) as (S' & HS' & Hc & Hbooked).
  rewrite Hbooked in Heq.
  unfold sessionCoversSlot, DateFns.isBefore, DateFns.isAfter in Hc.
  apply andb_prop in Hc. destruct Hc as [Hc1 Hc2].
  apply Z.ltb_lt in Hc1. apply Z.ltb_lt in Hc2.
  rewrite Hd, Hends.
  split; [subst slot; reflexivity|].
  exists S'. repeat split; try assumption.
  subst slot. reflexivity.
Qed.

(** C7.  A slot of a resolved day to which no rule of the input applies
    and which no session of the input covers is the freshly generated
    slot: status Blank, no [ruleId], no [sessionId]. *)
Theorem uncovered_slot_stays_blank rules sessions s e k i day slot :
  nth_error (calculateAvailability zone rules sessions s e) k = Some day ->
  nth_error (day_slots day) i = Some slot ->
  (forall R, In R rules ->
             ruleAppliesToSlot zone R (dayStart zone s k) slot = false) ->
  (forall S, In S sessions ->
             sessionCoversSlot S (slot_datetime slot) (slotEndOf slot) = false) ->
  slot_status slot = Blank /\ slot_ruleId slot = None /\ slot_sessionId slot = None
  /\ nth_error (generateDaySlots zone (dayStart zone s k)) i = Some slot.
Proof.
  intros Hday Hslot Hnone Hfree.
  destruct (resolved_slot zone rules sessions s e k i day slot Hday Hslot)
    as (_ & Hi & _ & _).
  destruct (resolved_slot_form rules sessions s e k i day slot Hday Hslot)
    as (Ht & Hd & Heq).
  set (cur := dayStart zone s k) in *.
  set (fresh := generatedSlot zone cur i) in *.
  assert (Hends : slotEndOf slot = slotEndOf fresh)
    by (unfold slotEndOf; rewrite Hd; reflexivity).
  rewrite applySessions_none in Heq
    by (intros S HS; rewrite <- Hd, <- Hends; apply Hfree; exact HS).
  assert (Elast : lastMatch (fun r => ruleAppliesToSlot zone r cur fresh)
                    (sortByUpdatedAt rules) = None).
  { apply lastMatch_None. intros R HR.
    rewrite <- (ruleAppliesToSlot_ext zone R cur fresh slot Ht Hd).
    apply Hnone. apply (proj1 (sortByUpdatedAt_In _ _)). exact HR. }
  rewrite Elast in Heq.
  assert (Hgen : nth_error (generateDaySlots zone cur) i = Some slot).
  { rewrite generateDaySlots_nth.
    apply Nat.ltb_lt in Hi. rewrite Hi. subst slot. reflexivity. }
  subst slot. repeat split; try reflexivity. exact Hgen.
Qed.

End Resolution.

(** C1, as stated, fails.  A (updated 1000) and B (updated 2000) both
    apply to the 18:00 slot of the Friday.  With C, a third applicable rule
    updated later still, the slot carries C's status and id; with T, updated
    at the same instant as B and placed after it in the input, the slot
    carries T's; with a session over the slot, it is Booked. *)
Lemma recency_pair_counterexample :
  In ruleA [ruleA; ruleB; ruleC] /\ In ruleB [ruleA; ruleB; ruleC]
  /\ rule_updatedAt ruleA < rule_updatedAt ruleB
  /\ ruleAppliesToSlot DateFns.utc ruleA (dayStart DateFns.utc friday 0) (freshSlot friday 36) = true
  /\ ruleAppliesToSlot DateFns.utc ruleB (dayStart DateFns.utc friday 0) (freshSlot friday 36) = true
  /\ (exists slot,
        slotAt (calculateAvailability DateFns.utc [ruleA; ruleB; ruleC] [] friday friday) 0 36
        = Some slot
        /\ slot_time slot = slot_time (freshSlot friday 36)
        /\ slot_datetime slot = slot_datetime (freshSlot friday 36)
        /\ slot_status slot = slotStatusOf (rule_status ruleC)
        /\ slot_ruleId slot = Some (rule_id ruleC)
        /\ ~ (slot_status slot = slotStatusOf (rule_status ruleB)
              /\ slot_ruleId slot = Some (rule_id ruleB)))
  /\ (exists slot,
        slotAt (calculateAvailability DateFns.utc [ruleA; ruleB; ruleTie] [] friday friday) 0 36
        = Some slot
        /\ slot_ruleId slot = Some (rule_id ruleTie)
        /\ ~ (slot_status slot = slotStatusOf (rule_status ruleB)
              /\ slot_ruleId slot = Some (rule_id ruleB)))
  /\ (exists slot,
        slotAt (calculateAvailability DateFns.utc [ruleA; ruleB] [sessionS] friday friday) 0 36
        = Some slot
        /\ slot_status slot = Booked
        /\ ~ (slot_status slot = slotStatusOf (rule_status ruleB)
              /\ slot_ruleId slot = Some (rule_id ruleB))).
Proof.
  split; [left; reflexivity|].
  split; [right; left; reflexivity|].
  do 3 (split; [vm_compute; reflexivity|]).
  split; [|split].
  - eexists. split; [vm_compute; reflexivity|].
    do 4 (split; [vm_compute; reflexivity|]).
    vm_compute. intros [H _]. discriminate H.
  - eexists. split; [vm_compute; reflexivity|].
    split; [vm_compute; reflexivity|].
    vm_compute. intros [H _]. discriminate H.
  - eexists. split; [vm_compute; reflexivity|].
    split; [vm_compute; reflexivity|].
    vm_compute. intros [H _]. discriminate H.
Qed.

Lemma latest_applicable_rule_wins_witness :
  exists slot,
    slotAt (calculateAvailability DateFns.utc [ruleC; ruleB; ruleA] [] friday friday) 0 36
    = Some slot
    /\ rule_updatedAt ruleB < rule_updatedAt ruleC
    /\ slot_status slot = Maybe /\ slot_ruleId slot = Some "C"%string.
Proof.
  eexists. split; [vm_compute; reflexivity|].
  split; [vm_compute; reflexivity|].
  apply (latest_applicable_rule_wins DateFns.utc [ruleC; ruleB; ruleA] [] friday friday
           0%nat 36%nat
           (resolveDay DateFns.utc [ruleC; ruleB; ruleA] [] friday) _ ruleB ruleC).
  - vm_compute. reflexivity.
  - vm_compute. reflexivity.
  - right. left. reflexivity.
  - left. reflexivity.
  - vm_compute. reflexivity.
  - vm_compute. reflexivity.
  - vm_compute. reflexivity.
  - intros R [<-|[<-|[<-|[]]]] _;
      [left; reflexivity | right; vm_compute; reflexivity
       | right; vm_compute; reflexivity].
  - intros S [].
Defined.

Lemma session_overlay_books_witness :
  exists slot,
    slotAt (calculateAvailability DateFns.utc [ruleA; ruleB] [sessionS] friday friday) 0 36
    = Some slot
    /\ slot_status slot = Booked
    /\ exists S', In S' [sessionS]
                  /\ slot_datetime slot < session_end S'
                  /\ session_start S' < slotEndOf slot
                  /\ slot_sessionId slot = Some (session_id S').
Proof.
  eexists. split; [vm_compute; reflexivity|].
  apply (session_overlay_books DateFns.utc [ruleA; ruleB] [sessionS] friday friday
           0%nat 36%nat
           (resolveDay DateFns.utc [ruleA; ruleB] [sessionS] friday) _ sessionS).
  - vm_compute. reflexivity.
  - vm_compute. reflexivity.
  - left. reflexivity.
  - vm_compute. reflexivity.
  - vm_compute. reflexivity.
Defined.

Lemma uncovered_slot_stays_blank_witness :
  exists slot,
    slotAt (calculateAvailability DateFns.utc [ruleA; ruleB] [sessionS] friday friday) 0 4
    = Some slot
    /\ slot_status slot = Blank /\ slot_ruleId slot = None
    /\ slot_sessionId slot = None
    /\ nth_error (generateDaySlots DateFns.utc (dayStart DateFns.utc friday 0)) 4 = Some slot.
Proof.
  eexists. split; [vm_compute; reflexivity|].
  apply (uncovered_slot_stays_blank DateFns.utc [ruleA; ruleB] [sessionS] friday friday
           0%nat 4%nat
           (resolveDay DateFns.utc [ruleA; ruleB] [sessionS] friday) _).
  - vm_compute. reflexivity.
  - vm_compute. reflexivity.
  - intros R [<-|[<-|[]]]; vm_compute; reflexivity.
  - intros S [<-|[]]; vm_compute; reflexivity.
Defined.

(* ================================================================== *)
(** ** Shape of the result *)

Lemma resolveDay_labels zone rules sessions cur :
  labelsOf (resolveDay zone rules sessions cur)
  = map slot_time (generateDaySlots zone cur).
Proof.
  unfold labelsOf, resolveDay. cbn [day_slots]. rewrite map_map.
  apply map_ext. intros fresh.
  apply (resolveSlot_keeps zone (sortByUpdatedAt rules) sessions cur fresh).
Qed.

Lemma resolveDay_length zone rules sessions cur :
  List.length (day_slots (resolveDay zone rules sessions cur)) = 48%nat.
Proof.
  unfold resolveDay. cbn [day_slots]. rewrite length_map.
  apply generateDaySlots_length.
Qed.

(** C5.  The claim fails where a local day does not last 24 hours: the
    day loop advances by 24 hours, not by a calendar day.  In
    America/New_York, whatever the rules and sessions: resolving
    [2025-11-02, 2025-11-02], a day of 25 hours, returns two entries, both
    dated 2025-11-02, whose labels hold 01:00 and 01:30 twice and stop at
    22:30; resolving [2025-11-01, 2025-11-02] returns three entries for
    two days; resolving [2025-03-09, 2025-03-09], a day of 23 hours,
    returns one entry whose labels pass from 01:30 to 03:00 and end with
    00:00 and 00:30. *)
Theorem clock_change_days_resolved rules sessions :
  DateFns.parseISO_date DateFns.newYork "2025-11-02" = Some novemberSecond
  /\ DateFns.parseISO_date DateFns.newYork "2025-03-09" = Some marchNinth
  /\ (let out := calculateAvailability DateFns.newYork rules sessions
                   novemberSecond novemberSecond in
      List.length out = 2%nat
      /\ map day_date out = ["2025-11-02"; "2025-11-02"]%string
      /\ map (fun day => firstn 7 (labelsOf day)) out
         = [["00:00"; "00:30"; "01:00"; "01:30"; "01:00"; "01:30"; "02:00"];
            ["00:00"; "00:30"; "01:00"; "01:30"; "01:00"; "01:30"; "02:00"]]%string
      /\ map (fun day => skipn 46 (labelsOf day)) out
         = [["22:00"; "22:30"]; ["22:00"; "22:30"]]%string)
  /\ map day_date
       (calculateAvailability DateFns.newYork rules sessions
          (novemberSecond - DateFns.MS_PER_DAY) novemberSecond)
     = ["2025-11-01"; "2025-11-02"; "2025-11-02"]%string
  /\ (let out := calculateAvailability DateFns.newYork rules sessions
                   marchNinth marchNinth in
      map day_date out = ["2025-03-09"]%string
      /\ map (fun day => firstn 6 (labelsOf day)) out
         = [["00:00"; "00:30"; "01:00"; "01:30"; "03:00"; "03:30"]]%string
      /\ map (fun day => skipn 44 (labelsOf day)) out
         = [["23:00"; "23:30"; "00:00"; "00:30"]]%string).
Proof.
  assert (Hout : forall s e n,
             iterations DateFns.newYork s e = n ->
             calculateAvailability DateFns.newYork rules sessions s e
             = map (fun k => resolveDay DateFns.newYork rules sessions
                               (dayStart DateFns.newYork s k)) (seq 0 n))
    by (intros s e n <-; apply calculateAvailability_loop).
  split; [vm_compute; reflexivity|].
  split; [vm_compute; reflexivity|].
  split; [|split].
  - cbv zeta.
    rewrite (Hout novemberSecond novemberSecond 2%nat) by (vm_compute; reflexivity).
    cbn [seq map List.length]. rewrite !resolveDay_labels.
    split; [reflexivity|]. repeat split; vm_compute; reflexivity.
  - rewrite (Hout _ _ 3%nat) by (vm_compute; reflexivity).
    vm_compute. reflexivity.
  - cbv zeta.
    rewrite (Hout marchNinth marchNinth 1%nat) by (vm_compute; reflexivity).
    cbn [seq map]. rewrite !resolveDay_labels.
    repeat split; vm_compute; reflexivity.
Qed.

Section FixedZoneShape.
Variable utcOffset : Z.

Lemma dayStart_midnight s k :
  dayStart (DateFns.fixedZone utcOffset) s k
  = DateFns.fromLocal (DateFns.fixedZone utcOffset)
      ((DateFns.localDay (DateFns.fixedZone utcOffset) s + Z.of_nat k) * DateFns.MS_PER_DAY).
Proof. unfold dayStart, DateFns.startOfDay. rewrite !fromLocal_fixed. lia. Qed.

Lemma dayCount_ordered s e :
  s <= e ->
  Z.of_nat (dayCount (DateFns.fixedZone utcOffset) s e)
  = DateFns.localDay (DateFns.fixedZone utcOffset) e
    - DateFns.localDay (DateFns.fixedZone utcOffset) s + 1.
Proof.
  intros H. unfold dayCount. pose proof (localDay_mono utcOffset s e H). lia.
Qed.

Lemma resolved_slot_fixed rules sessions s e k i day slot :
  nth_error (calculateAvailability (DateFns.fixedZone utcOffset) rules sessions s e) k
  = Some day ->
  nth_error (day_slots day) i = Some slot ->
  (i < 48)%nat
  /\ slot_time slot = labelOfMinute (Z.of_nat i * SLOT_MINUTES)
  /\ slot_datetime slot
     = DateFns.addMinutes (dayStart (DateFns.fixedZone utcOffset) s k)
         (Z.of_nat i * SLOT_MINUTES).
Proof.
  intros Hday Hslot.
  destruct (resolved_slot _ rules sessions s e k i day slot Hday Hslot)
    as (_ & Hi & _ & _).
  destruct (resolved_slot_form _ rules sessions s e k i day slot Hday Hslot)
    as (Ht & Hd & _).
  rewrite generatedSlot_fresh, startOfDay_dayStart in Ht, Hd by exact Hi.
  repeat split; assumption.
Qed.

(** X16.  In a zone whose offset never changes, for [startDate <= endDate] the
    result holds one entry per local calendar day from the day of
    [startDate] to the day of [endDate], both included and in that order
    (exactly one entry when the two are the same instant); every entry holds
    48 slots; slot [i] starts [30 * i] minutes after the local midnight of
    its day and is labelled with the zero-padded "HH:mm" of that minute, so
    the first is "00:00" and each slot begins where the previous one ends. *)
Theorem fixed_zone_one_day_per_date rules sessions s e :
  s <= e ->
  let zone := DateFns.fixedZone utcOffset in
  let out := calculateAvailability zone rules sessions s e in
  let firstDay := DateFns.localDay zone s in
  let lastDay := DateFns.localDay zone e in
  Z.of_nat (List.length out) = lastDay - firstDay + 1
  /\ (s = e -> List.length out = 1%nat)
  /\ (forall k day, nth_error out k = Some day ->
        day_date day = DateFns.formatDay (firstDay + Z.of_nat k)
        /\ firstDay + Z.of_nat k <= lastDay
        /\ List.length (day_slots day) = 48%nat
        /\ forall i slot, nth_error (day_slots day) i = Some slot ->
             slot_time slot = labelOfMinute (30 * Z.of_nat i)
             /\ slot_datetime slot
                = DateFns.fromLocal zone
                    ((firstDay + Z.of_nat k) * DateFns.MS_PER_DAY)
                  + 30 * Z.of_nat i * DateFns.MS_PER_MINUTE
             /\ slotEndOf slot
                = DateFns.fromLocal zone
                    ((firstDay + Z.of_nat k) * DateFns.MS_PER_DAY)
                  + 30 * Z.of_nat (S i) * DateFns.MS_PER_MINUTE).
Proof.
  intros Hse zone out firstDay lastDay.
  assert (Hlen : List.length out = dayCount zone s e).
  { unfold out, zone. rewrite calculateAvailability_days, length_map, length_seq.
    reflexivity. }
  pose proof (dayCount_ordered s e Hse) as Hcount.
  fold zone in Hcount. fold firstDay lastDay in Hcount.
  split; [rewrite Hlen; exact Hcount|].
  split.
  { intros ->. rewrite Hlen. unfold dayCount.
    replace (DateFns.localDay zone e - DateFns.localDay zone e + 1)
      with 1 by lia. reflexivity. }
  intros k day Hday.
  assert (Hk : (k < dayCount zone s e)%nat).
  { rewrite <- Hlen. apply nth_error_Some. rewrite Hday. discriminate. }
  assert (Hform : day = resolveDay zone rules sessions (dayStart zone s k)).
  { unfold out, zone in Hday.
    rewrite calculateAvailability_days, nth_error_map_seq in Hday.
    apply Nat.ltb_lt in Hk. fold zone in Hday. rewrite Hk in Hday. congruence. }
  split.
  { rewrite Hform. cbn [resolveDay day_date]. unfold DateFns.format_yyyyMMdd.
    unfold zone. rewrite localDay_dayStart. reflexivity. }
  split; [lia|].
  split; [rewrite Hform; apply resolveDay_length|].
  intros i slot Hslot.
  destruct (resolved_slot_fixed rules sessions s e k i day slot Hday Hslot)
    as (_ & Ht & Hd).
  unfold slotEndOf. rewrite Ht, Hd.
  rewrite dayStart_midnight. fold zone. fold firstDay.
  unfold DateFns.addMinutes, SLOT_MINUTES.
  repeat split; [f_equal; lia | lia | lia].
Qed.

End FixedZoneShape.

Lemma fixed_zone_one_day_per_date_witness :
  friday <= friday + 2 * DateFns.MS_PER_DAY
  /\ Z.of_nat (List.length
                 (calculateAvailability DateFns.utc [ruleA] [sessionS] friday
                    (friday + 2 * DateFns.MS_PER_DAY)))
     = 3.
Proof.
  assert (H : friday <= friday + 2 * DateFns.MS_PER_DAY) by (vm_compute; discriminate).
  split; [exact H|].
  exact (proj1 (fixed_zone_one_day_per_date 0 [ruleA] [sessionS] friday
                  (friday + 2 * DateFns.MS_PER_DAY) H)).
Defined.

(** The dates and labels of a three-day span, evaluated. *)
Example three_days_evaluated :
  let out := calculateAvailability DateFns.utc [ruleA] [sessionS] friday
               (friday + 2 * DateFns.MS_PER_DAY) in
  map day_date out = ["2024-01-05"; "2024-01-06"; "2024-01-07"]%string
  /\ map day_dayName out = ["Fri"; "Sat"; "Sun"]%string
  /\ option_map (fun d => firstn 5 (map slot_time (day_slots d))) (nth_error out 1)
     = Some ["00:00"; "00:30"; "01:00"; "01:30"; "02:00"]%string
  /\ option_map (fun d => skipn 45 (map slot_time (day_slots d))) (nth_error out 1)
     = Some ["22:30"; "23:00"; "23:30"]%string.
Proof. vm_compute. repeat split. Qed.

(* ================================================================== *)
(** ** Recurring rules and the time of day *)

Lemma timeToMinutes_nonempty time m :
  timeToMinutes time = Some m -> Js.truthy (Some time) = true.
Proof. destruct time; [vm_compute; discriminate | reflexivity]. Qed.

(** Every label [generateDaySlots] writes denotes a minute of the day,
    whatever the zone. *)
Lemma generated_slot_numeric zone cur slot :
  In slot (generateDaySlots zone cur) ->
  exists x, 0 <= x < 1440 /\ timeToMinutes (slot_time slot) = Some x.
Proof.
  rewrite generateDaySlots_generated, in_map_iff.
  intros (i & <- & _). unfold generatedSlot. cbn [slot_time].
  eexists. split; [|apply timeToMinutes_format_HHmm].
  apply minuteOfDay_bounds.
Qed.

Lemma generated_slot_minutes utcOffset cur slot :
  In slot (generateDaySlots (DateFns.fixedZone utcOffset) cur) ->
  exists i, (i < 48)%nat
            /\ nth_error (generateDaySlots (DateFns.fixedZone utcOffset) cur) i = Some slot
            /\ timeToMinutes (slot_time slot) = Some (Z.of_nat i * SLOT_MINUTES).
Proof.
  intros Hin. apply In_nth_error in Hin. destruct Hin as [i Hi].
  exists i. pose proof Hi as Hi'.
  rewrite generateDaySlots_fresh, nth_error_map_seq in Hi'.
  destruct (Nat.ltb_spec i 48) as [Hlt|]; [|discriminate].
  injection Hi' as <-. repeat split; [exact Hlt | exact Hi|].
  apply timeToMinutes_label. exact Hlt.
Qed.

(** C10.  A recurring rule whose start and end times denote the same
    minute passes the slot-time test at every slot time (the wrap branch is
    taken and one of its two comparisons holds), so on every date that
    passes [recurringRuleApplies] it applies to each of the 48 slots
    generated for the day. *)
Theorem equal_start_end_covers_day zone rule startTime endTime m :
  rule_ruleType rule = Recurring ->
  rule_startTime rule = Some startTime ->
  rule_endTime rule = Some endTime ->
  timeToMinutes startTime = Some m ->
  timeToMinutes endTime = Some m ->
  (forall date slotTime x,
      timeToMinutes slotTime = Some x ->
      recurringSlotApplies rule date slotTime = true)
  /\ (forall currentDate,
        recurringRuleApplies zone rule currentDate = true ->
        List.length (generateDaySlots zone currentDate) = 48%nat
        /\ forall slot, In slot (generateDaySlots zone currentDate) ->
                        ruleAppliesToSlot zone rule currentDate slot = true).
Proof.
  intros Hty Hst Het Hs He.
  assert (Hslot : forall date slotTime x,
             timeToMinutes slotTime = Some x ->
             recurringSlotApplies rule date slotTime = true).
  { intros date slotTime x Hx. unfold recurringSlotApplies.
    rewrite Hst, Het, (timeToMinutes_nonempty _ _ Hs), (timeToMinutes_nonempty _ _ He).
    cbn [negb orb]. rewrite Hs, He, Hx.
    unfold Js.le, Js.ge, Js.le, Js.lt. rewrite Z.leb_refl.
    destruct (Z.leb_spec m x); [reflexivity|].
    destruct (Z.ltb_spec x m); [reflexivity | lia]. }
  split; [exact Hslot|].
  intros cur Hday. split; [apply generateDaySlots_length|].
  intros slot Hin.
  destruct (generated_slot_numeric zone cur slot Hin) as (x & _ & Hmin).
  unfold ruleAppliesToSlot. rewrite Hty, Hday, (Hslot cur _ _ Hmin). reflexivity.
Qed.

Lemma equal_start_end_covers_day_witness :
  timeToMinutes "09:00" = Some 540
  /\ recurringRuleApplies DateFns.utc ruleAllDay friday = true
  /\ Forall (fun slot => ruleAppliesToSlot DateFns.utc ruleAllDay friday slot = true)
            (generateDaySlots DateFns.utc friday).
Proof.
  split; [vm_compute; reflexivity|].
  split; [vm_compute; reflexivity|].
  apply Forall_forall.
  apply (equal_start_end_covers_day DateFns.utc ruleAllDay "09:00" "09:00" 540);
    vm_compute; reflexivity.
Defined.

(** C4.  The claim wants a night of 22:00 to 04:00 carried into the day
    after D; the code keeps it inside D.  [recurringSlotApplies] never
    reads its [date]: it compares minutes of the day alone.  So for a rule
    that recurs on Fridays only, resolved over Friday 2024-01-05 and the
    Saturday after it, the slots 00:00 to 03:30 and 22:00 to 23:30 of the
    Friday carry the rule's status, and every slot of the Saturday stays
    Blank: Friday's 00:00 is matched and Saturday's 00:00 is not, the
    opposite of what the claim states. *)
Theorem friday_night_stays_on_friday :
  (forall rule date date' slotTime,
      recurringSlotApplies rule date slotTime = recurringSlotApplies rule date' slotTime)
  /\ map day_dayName fridayNight = ["Fri"; "Sat"]%string
  /\ map (fun day => map slot_status (day_slots day)) fridayNight
     = [repeat Maybe 8 ++ repeat Blank 36 ++ repeat Maybe 4; repeat Blank 48]
  /\ exists fri0000 sat0000,
       slotAt fridayNight 0 0 = Some fri0000 /\ slotAt fridayNight 1 0 = Some sat0000
       /\ slot_time fri0000 = "00:00"%string /\ slot_time sat0000 = "00:00"%string
       /\ ruleAppliesToSlot DateFns.utc ruleNight (dayStart DateFns.utc friday 0) fri0000
          = true
       /\ slot_status fri0000 = Maybe
       /\ ruleAppliesToSlot DateFns.utc ruleNight (dayStart DateFns.utc friday 1) sat0000
          = false
       /\ slot_status sat0000 = Blank.
Proof.
  split; [reflexivity|].
  split; [vm_compute; reflexivity|].
  split; [vm_compute; reflexivity|].
  eexists. eexists.
  split; [vm_compute; reflexivity|].
  split; [vm_compute; reflexivity|].
  repeat split; vm_compute; reflexivity.
Qed.

(* ================================================================== *)
(** ** The roll-up *)

Lemma Bucket_eqb_eq a b : Bucket_eqb a b = true <-> a = b.
Proof. destruct a, b; simpl; split; congruence. Qed.

Lemma SlotStatus_eqb_eq a b : SlotStatus_eqb a b = true <-> a = b.
Proof. destruct a, b; simpl; split; congruence. Qed.

Lemma includesStatus_In statuses x : includesStatus statuses x = true <-> In x statuses.
Proof.
  unfold includesStatus. rewrite existsb_exists. split.
  - intros (s & Hin & Heq). apply SlotStatus_eqb_eq in Heq. subst. exact Hin.
  - intros Hin. exists x. split; [exact Hin | apply SlotStatus_eqb_eq; reflexivity].
Qed.

Lemma includesStatus_not_In statuses x :
  includesStatus statuses x = false <-> ~ In x statuses.
Proof.
  rewrite <- includesStatus_In. destruct (includesStatus statuses x); split;
    congruence.
Qed.

Lemma everyStatus_Forall statuses x :
  everyStatus statuses x = true <-> Forall (fun s => s = x) statuses.
Proof.
  unfold everyStatus. rewrite forallb_forall, Forall_forall. split.
  - intros H s Hs. apply SlotStatus_eqb_eq. apply H. exact Hs.
  - intros H s Hs. apply SlotStatus_eqb_eq. apply H. exact Hs.
Qed.

Lemma everyStatus_not_Forall statuses x :
  everyStatus statuses x = false <-> ~ Forall (fun s => s = x) statuses.
Proof.
  rewrite <- everyStatus_Forall. destruct (everyStatus statuses x); split;
    congruence.
Qed.

Ltac status_tests :=
  repeat match goal with
    | H : includesStatus _ _ = true |- _ => apply includesStatus_In in H
    | H : includesStatus _ _ = false |- _ => apply includesStatus_not_In in H
    | H : everyStatus _ _ = true |- _ => apply everyStatus_Forall in H
    | H : everyStatus _ _ = false |- _ => apply everyStatus_not_Forall in H
    end.

(** The cascade of the code takes the step the worded precedence takes. *)
Lemma classify_Precedence statuses : Precedence statuses (classify statuses).
Proof.
  unfold classify.
  destruct (includesStatus statuses Booked) eqn:Ebooked;
    [status_tests; apply step1_booked; assumption|].
  destruct (includesStatus statuses Unavailable) eqn:Eun;
    [status_tests; apply step2_unavailable; assumption|].
  destruct (includesStatus statuses Blank) eqn:Eblank.
  - destruct (everyStatus statuses Blank) eqn:Eall;
      [status_tests; apply step3_all_blank; assumption|].
    destruct (includesStatus statuses Maybe) eqn:Emaybe;
      [status_tests; apply step3_maybe; assumption|].
    destruct (includesStatus statuses Available) eqn:Eav; status_tests.
    + apply step3_available; assumption.
    + apply step3_else; assumption.
  - destruct (includesStatus statuses Maybe) eqn:Emaybe;
      [status_tests; apply step4_maybe; assumption|].
    destruct (everyStatus statuses Available) eqn:Eav; status_tests.
    + apply step5_available; assumption.
    + apply step6_else; assumption.
Qed.

(** The worded precedence decides one bucket. *)
Lemma Precedence_functional statuses b1 b2 :
  Precedence statuses b1 -> Precedence statuses b2 -> b1 = b2.
Proof. intros H1 H2. destruct H1; destruct H2; try reflexivity; contradiction. Qed.

Lemma Precedence_classify statuses b : Precedence statuses b <-> classify statuses = b.
Proof.
  split.
  - intros H. apply (Precedence_functional statuses); [apply classify_Precedence | exact H].
  - intros <-. apply classify_Precedence.
Qed.

Lemma summarizeEngineer_pushTo targetDate startMinutes endMinutes summary name days :
  summarizeEngineer targetDate startMinutes endMinutes summary (name, days)
  = pushTo (bucketOfEntry targetDate startMinutes endMinutes days) summary name.
Proof.
  unfold summarizeEngineer, bucketOfEntry, findTargetDay.
  destruct (find _ days) as [targetDay|]; [|reflexivity].
  destruct (List.length _ =? 0)%nat; [reflexivity|].
  unfold classify.
  repeat match goal with
    | |- context [if ?c then _ else _] => destruct c
    end; reflexivity.
Qed.

Lemma bucket_pushTo b b' summary name :
  bucket b (pushTo b' summary name)
  = if Bucket_eqb b' b then bucket b summary ++ [name] else bucket b summary.
Proof. destruct b, b'; reflexivity. Qed.

(** Each list of the summary holds, in the order of the map, the names
    of the entries the loop body sends to it. *)
Lemma summary_buckets targetDate startMinutes endMinutes b m : forall summary,
  bucket b (fold_left (summarizeEngineer targetDate startMinutes endMinutes) m summary)
  = bucket b summary
    ++ namesIn (bucketOfEntry targetDate startMinutes endMinutes) b m.
Proof.
  unfold namesIn.
  induction m as [|[name days] m IH]; intros summary; cbn [fold_left filter map].
  - rewrite app_nil_r. reflexivity.
  - rewrite IH, summarizeEngineer_pushTo, bucket_pushTo. cbn [snd].
    destruct (Bucket_eqb _ b); cbn [map fst].
    + rewrite <- app_assoc. reflexivity.
    + reflexivity.
Qed.

Lemma getAvailabilitySummary_bucket m targetDate startTime endTime b :
  bucket b (getAvailabilitySummary m targetDate startTime endTime)
  = namesIn (bucketOfEntry targetDate (timeToMinutes startTime) (timeToMinutes endTime))
      b m.
Proof. unfold getAvailabilitySummary. rewrite summary_buckets. destruct b; reflexivity. Qed.

Lemma In_namesIn {A} (classOf : A -> Bucket) b m name :
  In name (namesIn classOf b m) <-> exists a, In (name, a) m /\ classOf a = b.
Proof.
  unfold namesIn. rewrite in_map_iff. split.
  - intros ([n a] & <- & Hin). apply filter_In in Hin. destruct Hin as [Hin Hb].
    exists a. split; [exact Hin | apply Bucket_eqb_eq; exact Hb].
  - intros (a & Hin & Hb). exists (name, a). split; [reflexivity|].
    apply filter_In. split; [exact Hin | apply Bucket_eqb_eq; exact Hb].
Qed.

Lemma NoDup_keys_unique {A} (m : list (string * A)) name a1 a2 :
  NoDup (map fst m) -> In (name, a1) m -> In (name, a2) m -> a1 = a2.
Proof.
  induction m as [|[n a] m IH]; intros Hnd H1 H2; [destruct H1|].
  cbn [map fst] in Hnd. inversion Hnd as [|? ? Hnotin Hnd']; subst.
  destruct H1 as [H1|H1], H2 as [H2|H2].
  - congruence.
  - injection H1 as -> ->. exfalso. apply Hnotin.
    apply in_map_iff. exists (name, a2). split; [reflexivity | exact H2].
  - injection H2 as -> ->. exfalso. apply Hnotin.
    apply in_map_iff. exists (name, a1). split; [reflexivity | exact H1].
  - apply IH; assumption.
Qed.

Lemma perm_insert {A} (x : A) pre post l :
  Permutation (pre ++ post) l -> Permutation (pre ++ x :: post) (x :: l).
Proof.
  intros H. eapply perm_trans; [apply Permutation_sym, Permutation_middle|].
  apply perm_skip. exact H.
Qed.

Lemma namesIn_partition {A} (classOf : A -> Bucket) m :
  Permutation
    (namesIn classOf B_available m ++ namesIn classOf B_maybe m
     ++ namesIn classOf B_unavailable m ++ namesIn classOf B_booked m
     ++ namesIn classOf B_not_set m)
    (map fst m).
Proof.
  induction m as [|[name a] m IH]; [apply perm_nil|].
  unfold namesIn in *. cbn [filter map fst snd].
  set (la := map fst (filter (fun e => Bucket_eqb (classOf (snd e)) B_available) m)) in *.
  set (lm := map fst (filter (fun e => Bucket_eqb (classOf (snd e)) B_maybe) m)) in *.
  set (lu := map fst (filter (fun e => Bucket_eqb (classOf (snd e)) B_unavailable) m)) in *.
  set (lb := map fst (filter (fun e => Bucket_eqb (classOf (snd e)) B_booked) m)) in *.
  set (ln := map fst (filter (fun e => Bucket_eqb (classOf (snd e)) B_not_set) m)) in *.
  destruct (classOf a); cbn [Bucket_eqb map fst].
  - change (Permutation ([] ++ name :: (la ++ lm ++ lu ++ lb ++ ln))
              (name :: map fst m)).
    apply perm_insert. exact IH.
  - change (Permutation (la ++ name :: (lm ++ lu ++ lb ++ ln)) (name :: map fst m)).
    apply perm_insert. exact IH.
  - change (Permutation (la ++ lm ++ name :: (lu ++ lb ++ ln)) (name :: map fst m)).
    replace (la ++ lm ++ name :: (lu ++ lb ++ ln))
      with ((la ++ lm) ++ name :: (lu ++ lb ++ ln))
      by (rewrite <- !app_assoc; reflexivity).
    apply perm_insert. rewrite <- !app_assoc. exact IH.
  - change (Permutation (la ++ lm ++ lu ++ name :: (lb ++ ln)) (name :: map fst m)).
    replace (la ++ lm ++ lu ++ name :: (lb ++ ln))
      with ((la ++ lm ++ lu) ++ name :: (lb ++ ln))
      by (rewrite <- !app_assoc; reflexivity).
    apply perm_insert. rewrite <- !app_assoc. exact IH.
  - change (Permutation (la ++ lm ++ lu ++ lb ++ name :: ln) (name :: map fst m)).
    replace (la ++ lm ++ lu ++ lb ++ name :: ln)
      with ((la ++ lm ++ lu ++ lb) ++ name :: ln)
      by (rewrite <- !app_assoc; reflexivity).
    apply perm_insert. rewrite <- !app_assoc. exact IH.
Qed.

Lemma bucketOfEntry_classify targetDate startMinutes endMinutes days targetDay :
  findTargetDay targetDate days = Some targetDay ->
  relevantSlotsOf startMinutes endMinutes targetDay <> [] ->
  bucketOfEntry targetDate startMinutes endMinutes days
  = classify (map slot_status (relevantSlotsOf startMinutes endMinutes targetDay)).
Proof.
  intros Hfind Hne. unfold bucketOfEntry. rewrite Hfind.
  destruct (relevantSlotsOf startMinutes endMinutes targetDay); [congruence|].
  reflexivity.
Qed.

Lemma bucket_of_engineer m targetDate startTime endTime name days b :
  NoDup (map fst m) ->
  In (name, days) m ->
  In name (bucket b (getAvailabilitySummary m targetDate startTime endTime))
  <-> bucketOfEntry targetDate (timeToMinutes startTime) (timeToMinutes endTime) days = b.
Proof.
  intros Hnd Hin. rewrite getAvailabilitySummary_bucket, In_namesIn. split.
  - intros (days' & Hin' & Hb).
    rewrite (NoDup_keys_unique m name days days' Hnd Hin Hin'). exact Hb.
  - intros Hb. exists days. split; assumption.
Qed.

(** C2.  An engineer of the map whose target day has at least one slot in
    the window is in bucket [b] exactly when the precedence, read in order
    with the first matching step deciding, gives [b] for the statuses of
    those slots.  In particular a window of Blank and Available slots with
    no Maybe, Unavailable or Booked slot puts the engineer in
    [available]. *)
Theorem summary_follows_precedence m targetDate startTime endTime name days targetDay :
  NoDup (map fst m) ->
  In (name, days) m ->
  findTargetDay targetDate days = Some targetDay ->
  relevantSlotsOf (timeToMinutes startTime) (timeToMinutes endTime) targetDay <> [] ->
  let statuses :=
    map slot_status
      (relevantSlotsOf (timeToMinutes startTime) (timeToMinutes endTime) targetDay) in
  let summary := getAvailabilitySummary m targetDate startTime endTime in
  (forall b, In name (bucket b summary) <-> Precedence statuses b)
  /\ (In Blank statuses -> In Available statuses ->
      ~ In Maybe statuses -> ~ In Unavailable statuses -> ~ In Booked statuses ->
      In name (available summary)).
Proof.
  intros Hnd Hin Hfind Hne statuses summary.
  assert (Hchar : forall b, In name (bucket b summary) <-> Precedence statuses b).
  { intros b. unfold summary.
    rewrite (bucket_of_engineer m targetDate startTime endTime name days b Hnd Hin).
    rewrite (bucketOfEntry_classify _ _ _ _ _ Hfind Hne).
    fold statuses. symmetry. apply Precedence_classify. }
  split; [exact Hchar|].
  intros Hblank Hav Hmaybe Hun Hbooked.
  apply (Hchar B_available). apply step3_available; try assumption.
  intros Hall. rewrite Forall_forall in Hall. specialize (Hall Available Hav).
  discriminate Hall.
Qed.

(** C6.  The five lists together hold every engineer of the map once,
    each engineer is in one list and no other, and an engineer with no
    entry for the target date, or with no slot of that entry inside the
    window, is in [not_set]. *)
Theorem summary_partitions_engineers m targetDate startTime endTime :
  NoDup (map fst m) ->
  let summary := getAvailabilitySummary m targetDate startTime endTime in
  Permutation
    (available summary ++ maybe summary ++ unavailable summary
     ++ booked summary ++ not_set summary)
    (map fst m)
  /\ (forall name, In name (map fst m) ->
        exists b, In name (bucket b summary)
                  /\ forall b', In name (bucket b' summary) -> b' = b)
  /\ (forall name days, In (name, days) m ->
        findTargetDay targetDate days = None ->
        In name (not_set summary))
  /\ (forall name days targetDay, In (name, days) m ->
        findTargetDay targetDate days = Some targetDay ->
        relevantSlotsOf (timeToMinutes startTime) (timeToMinutes endTime) targetDay = [] ->
        In name (not_set summary)).
Proof.
  intros Hnd summary.
  split.
  { unfold summary.
    change (available ?s) with (bucket B_available s).
    change (maybe ?s) with (bucket B_maybe s).
    change (unavailable ?s) with (bucket B_unavailable s).
    change (booked ?s) with (bucket B_booked s).
    change (not_set ?s) with (bucket B_not_set s).
    rewrite !getAvailabilitySummary_bucket. apply namesIn_partition. }
  split.
  { intros name Hname. apply in_map_iff in Hname.
    destruct Hname as ([n days] & Hn & Hin). cbn [fst] in Hn. subst n.
    exists (bucketOfEntry targetDate (timeToMinutes startTime)
              (timeToMinutes endTime) days).
    split.
    - apply (bucket_of_engineer m targetDate startTime endTime name days _ Hnd Hin).
      reflexivity.
    - intros b' Hb'.
      apply (bucket_of_engineer m targetDate startTime endTime name days _ Hnd Hin)
        in Hb'.
      symmetry. exact Hb'. }
  split.
  { intros name days Hin Hfind.
    apply (bucket_of_engineer m targetDate startTime endTime name days B_not_set Hnd Hin).
    unfold bucketOfEntry. rewrite Hfind. reflexivity. }
  intros name days targetDay Hin Hfind Hrel.
  apply (bucket_of_engineer m targetDate startTime endTime name days B_not_set Hnd Hin).
  unfold bucketOfEntry. rewrite Hfind, Hrel. reflexivity.
Qed.

Lemma sampleEngineers_keys : NoDup (map fst sampleEngineers).
Proof.
  cbn. repeat constructor; cbn; intros H;
    repeat (destruct H as [H|H]; [discriminate H|]); exact H.
Defined.

Lemma summary_follows_precedence_witness :
  In "Ann"%string
     (available (getAvailabilitySummary sampleEngineers "2024-01-05" "12:00" "14:00")).
Proof.
  refine (proj2 (summary_follows_precedence sampleEngineers "2024-01-05" "12:00" "14:00"
                   "Ann" (calculateAvailability DateFns.utc [ruleA] [] friday friday)
                   (resolveDay DateFns.utc [ruleA] [] friday)
                   sampleEngineers_keys _ _ _) _ _ _ _ _).
  - left. reflexivity.
  - vm_compute. reflexivity.
  - vm_compute. discriminate.
  - vm_compute. left. reflexivity.
  - vm_compute. right. right. left. reflexivity.
  - vm_compute. intros H. repeat (destruct H as [H|H]; [discriminate H|]). exact H.
  - vm_compute. intros H. repeat (destruct H as [H|H]; [discriminate H|]). exact H.
  - vm_compute. intros H. repeat (destruct H as [H|H]; [discriminate H|]). exact H.
Defined.

Lemma summary_partitions_engineers_witness :
  Permutation
    (available (getAvailabilitySummary sampleEngineers "2024-01-05" "18:00" "19:00")
     ++ maybe (getAvailabilitySummary sampleEngineers "2024-01-05" "18:00" "19:00")
     ++ unavailable (getAvailabilitySummary sampleEngineers "2024-01-05" "18:00" "19:00")
     ++ booked (getAvailabilitySummary sampleEngineers "2024-01-05" "18:00" "19:00")
     ++ not_set (getAvailabilitySummary sampleEngineers "2024-01-05" "18:00" "19:00"))
    (map fst sampleEngineers).
Proof.
  exact (proj1 (summary_partitions_engineers sampleEngineers "2024-01-05" "18:00" "19:00"
                  sampleEngineers_keys)).
Defined.

(** The sample map, summarised for 18:00-19:00 of the Friday. *)
Example sample_summary :
  getAvailabilitySummary sampleEngineers "2024-01-05" "18:00" "19:00"
  = {| available := ["Ann"%string]; maybe := []; unavailable := [];
       booked := ["Bob"%string]; not_set := ["Cy"%string] |}.
Proof. vm_compute. reflexivity. Qed.

(* ================================================================== *)
(** ** The call and the arrays it is given *)

Section StoreFacts.
Variable zone : DateFns.Zone.

Lemma nth_error_extend (h ext : Store.Heap) ref o :
  nth_error h ref = Some o -> nth_error (h ++ ext) ref = Some o.
Proof.
  intros H. rewrite nth_error_app1; [exact H|].
  apply nth_error_Some. rewrite H. discriminate.
Qed.

Lemma nth_error_last (h : Store.Heap) o :
  nth_error (h ++ [o]) (List.length h) = Some o.
Proof. rewrite nth_error_app2, Nat.sub_diag by lia. reflexivity. Qed.

Lemma setNth_last (h : Store.Heap) o o' :
  Store.setNth (h ++ [o]) (List.length h) o' = h ++ [o'].
Proof. induction h as [|x h IH]; cbn; [reflexivity | rewrite IH; reflexivity]. Qed.

(** One iteration: the copy is allocated past the end of the store and
    sorted there; no object that was in the store is written. *)
Lemma resolveDayM_run h rulesRef sessionsRef rules sessions cur :
  nth_error h rulesRef = Some (Store.RuleArray rules) ->
  nth_error h sessionsRef = Some (Store.SessionArray sessions) ->
  resolveDayM zone rulesRef sessionsRef cur h
  = Some (resolveDay zone rules sessions cur,
          h ++ [Store.RuleArray (sortByUpdatedAt rules)]).
Proof.
  intros Hr Hs. unfold resolveDayM, Store.bind.
  unfold Store.spread. rewrite Hr.
  unfold Store.sortInPlace. rewrite nth_error_last, setNth_last.
  unfold Store.readRules. rewrite nth_error_last.
  unfold Store.readSessions.
  rewrite (nth_error_extend h _ sessionsRef _ Hs).
  reflexivity.
Qed.

Lemma dayLoopM_run rulesRef sessionsRef rules sessions end_ fuel : forall cur h,
  nth_error h rulesRef = Some (Store.RuleArray rules) ->
  nth_error h sessionsRef = Some (Store.SessionArray sessions) ->
  exists ext,
    dayLoopM zone fuel rulesRef sessionsRef cur end_ h
    = Some (dayLoop zone fuel rules sessions cur end_, h ++ ext).
Proof.
  induction fuel as [|fuel IH]; intros cur h Hr Hs.
  - exists []. cbn. rewrite app_nil_r. reflexivity.
  - cbn [dayLoopM dayLoop].
    destruct (DateFns.isBefore cur end_ || (cur =? end_)).
    + unfold Store.bind at 1.
      rewrite (resolveDayM_run h rulesRef sessionsRef rules sessions cur Hr Hs).
      set (h1 := h ++ [Store.RuleArray (sortByUpdatedAt rules)]).
      destruct (IH (DateFns.addMinutes cur (24 * 60)) h1
                  (nth_error_extend h _ _ _ Hr) (nth_error_extend h _ _ _ Hs))
        as [ext Hrun].
      exists ([Store.RuleArray (sortByUpdatedAt rules)] ++ ext).
      unfold Store.bind. rewrite Hrun. unfold Store.ret, h1.
      rewrite <- app_assoc. reflexivity.
    + exists []. cbn. rewrite app_nil_r. reflexivity.
Qed.

(** C9.  Run on a store that holds the rules array and the sessions
    array, a call returns the value of [calculateAvailability] on their
    contents, which depends on nothing else; it leaves every object that was
    in the store as it was, in particular both input arrays with their
    elements in their order; a second call on the resulting store returns
    the same value. *)
Theorem calculateAvailability_reads_only h rulesRef sessionsRef rules sessions s e :
  nth_error h rulesRef = Some (Store.RuleArray rules) ->
  nth_error h sessionsRef = Some (Store.SessionArray sessions) ->
  exists h',
    calculateAvailabilityM zone rulesRef sessionsRef s e h
    = Some (calculateAvailability zone rules sessions s e, h')
    /\ nth_error h' rulesRef = Some (Store.RuleArray rules)
    /\ nth_error h' sessionsRef = Some (Store.SessionArray sessions)
    /\ (forall ref o, nth_error h ref = Some o -> nth_error h' ref = Some o)
    /\ exists h'',
         calculateAvailabilityM zone rulesRef sessionsRef s e h'
         = Some (calculateAvailability zone rules sessions s e, h'').
Proof.
  intros Hr Hs. unfold calculateAvailabilityM, calculateAvailability.
  set (cur := DateFns.startOfDay zone s).
  set (end_ := DateFns.endOfDay zone e).
  destruct (dayLoopM_run rulesRef sessionsRef rules sessions end_
              (dayBudget cur end_) cur h Hr Hs) as [ext Hrun].
  exists (h ++ ext).
  pose proof (nth_error_extend h ext _ _ Hr) as Hr'.
  pose proof (nth_error_extend h ext _ _ Hs) as Hs'.
  repeat split; try assumption.
  - intros ref o Ho. apply nth_error_extend. exact Ho.
  - destruct (dayLoopM_run rulesRef sessionsRef rules sessions end_
                (dayBudget cur end_) cur (h ++ ext) Hr' Hs') as [ext' Hrun'].
    exists ((h ++ ext) ++ ext'). exact Hrun'.
Qed.

End StoreFacts.

Lemma calculateAvailability_reads_only_witness :
  exists h',
    calculateAvailabilityM DateFns.utc 0 1 friday (friday + DateFns.MS_PER_DAY) sampleStore
    = Some (calculateAvailability DateFns.utc [ruleC; ruleB; ruleA] [sessionS] friday
              (friday + DateFns.MS_PER_DAY), h')
    /\ nth_error h' 0 = Some (Store.RuleArray [ruleC; ruleB; ruleA])
    /\ nth_error h' 1 = Some (Store.SessionArray [sessionS]).
Proof.
  destruct (calculateAvailability_reads_only DateFns.utc sampleStore 0 1
              [ruleC; ruleB; ruleA] [sessionS] friday (friday + DateFns.MS_PER_DAY)
              eq_refl eq_refl) as (h' & Hrun & Hr & Hs & _).
  exists h'. repeat split; assumption.
Defined.

(** The sorted copies are new objects of the store; the input array keeps
    its order. *)
Example store_after_call :
  option_map snd
    (calculateAvailabilityM DateFns.utc 0 1 friday (friday + DateFns.MS_PER_DAY) sampleStore)
  = Some (sampleStore
          ++ [Store.RuleArray [ruleA; ruleB; ruleC];
              Store.RuleArray [ruleA; ruleB; ruleC]]).
Proof. vm_compute. reflexivity. Qed.

(* ================================================================== *)
(** ** The chatbot endpoint *)

Section ChatbotFacts.
Variable zone : DateFns.Zone.
Variable parseISO : string -> option Z.

Lemma isRecurring_days body :
  Chatbot.isRecurring body = true
  <-> exists d ds, Chatbot.req_days body = Some (d :: ds).
Proof.
  unfold Chatbot.isRecurring. destruct (Chatbot.req_days body) as [[|d ds]|]; cbn.
  - split; [discriminate | intros (d & ds & H); discriminate H].
  - split; [intros _; exists d, ds; reflexivity | reflexivity].
  - split; [discriminate | intros (d & ds & H); discriminate H].
Qed.

(** [format(addMinutes(parsed, 24 * 60), 'yyyy-MM-dd')] for the local
    midnight of a day: the following calendar date, unless the clock is set
    back within those 24 hours. *)
Lemma next_day_text parsed day :
  DateFns.toLocal zone parsed = day * DateFns.MS_PER_DAY ->
  notSetBackWithinDay zone parsed ->
  DateFns.format_yyyyMMdd zone (DateFns.addMinutes parsed (24 * 60))
  = DateFns.formatDay (day + 1).
Proof.
  unfold notSetBackWithinDay, DateFns.format_yyyyMMdd, DateFns.localDay, DateFns.toLocal.
  set (later := DateFns.addMinutes parsed (24 * 60)).
  intros Hmid Hoff. f_equal.
  assert (Hlater : later = parsed + DateFns.MS_PER_DAY) by reflexivity.
  symmetry.
  apply (Z.div_unique _ _ _ (DateFns.offsetAt zone later - DateFns.offsetAt zone parsed));
    [left; exact Hoff | lia].
Qed.

(** The type of a created rule follows the weekday list alone. *)
Lemma created_rule_type method body engineers rule :
  Chatbot.handler zone parseISO method body engineers = Chatbot.Created rule ->
  (Chatbot.new_ruleType rule = Recurring <-> Chatbot.isRecurring body = true).
Proof.
  unfold Chatbot.handler.
  destruct (negb (method =? "POST")%string); [discriminate|].
  destruct (Chatbot.req_engineer body) as [[|c name]|]; try discriminate.
  destruct (Chatbot.req_status body) as [status|]; try discriminate.
  destruct (Chatbot.findEngineer engineers (String c name)) as [engineer|];
    try discriminate.
  destruct (Chatbot.isRecurring body).
  - destruct (negb _ || negb _); [discriminate|].
    intros [= <-]. cbn. split; reflexivity.
  - destruct (Chatbot.req_date body) as [[|? ?]|]; try discriminate.
    destruct (Chatbot.req_start_time body) as [[|? ?]|]; try discriminate.
    destruct (Chatbot.req_end_time body) as [[|? ?]|]; try discriminate.
    destruct (String.ltb _ _).
    + destruct (parseISO _); [|discriminate].
      intros [= <-]. cbn. split; discriminate.
    + intros [= <-]. cbn. split; discriminate.
Qed.

(** C8, as amended.  For a POST request that names a known engineer and
    carries a status, a start_time and an end_time: with a non-empty weekday
    list the endpoint creates a recurring rule with those times and days;
    without one, and with a date, it creates a one-time rule that starts on
    the request's date at start_time.  When [end_time < start_time] does not
    hold as strings the rule ends at end_time on the request's date.  When
    it holds, and [parseISO] reads the date as the local midnight of a
    calendar day after which the clock is not set back within 24 hours, the
    rule ends at end_time on the following calendar date.  Whatever the
    request, a rule the endpoint creates is recurring exactly when the
    weekday list is non-empty. *)
Theorem chatbot_rule_from_request body engineers name status engineer
    start_time end_time :
  Chatbot.req_engineer body = Some name -> name <> EmptyString ->
  Chatbot.req_status body = Some status ->
  Chatbot.findEngineer engineers name = Some engineer ->
  Chatbot.req_start_time body = Some start_time -> start_time <> EmptyString ->
  Chatbot.req_end_time body = Some end_time -> end_time <> EmptyString ->
  (Chatbot.isRecurring body = true ->
     exists rule,
       Chatbot.handler zone parseISO "POST" body engineers = Chatbot.Created rule
       /\ Chatbot.new_ruleType rule = Recurring
       /\ Chatbot.new_startTime rule = Some start_time
       /\ Chatbot.new_endTime rule = Some end_time
       /\ Chatbot.new_recurrenceDays rule = Chatbot.req_days body)
  /\ (Chatbot.isRecurring body = false ->
      forall date, Chatbot.req_date body = Some date -> date <> EmptyString ->
        (String.ltb end_time start_time = false ->
           exists rule,
             Chatbot.handler zone parseISO "POST" body engineers = Chatbot.Created rule
             /\ Chatbot.new_ruleType rule = OneTime
             /\ Chatbot.new_startDateTime rule
                = Some (Chatbot.dateTimeText date start_time)
             /\ Chatbot.new_endDateTime rule
                = Some (Chatbot.dateTimeText date end_time))
        /\ (String.ltb end_time start_time = true ->
            forall parsed day,
              parseISO date = Some parsed ->
              DateFns.toLocal zone parsed = day * DateFns.MS_PER_DAY ->
              notSetBackWithinDay zone parsed ->
              exists rule,
                Chatbot.handler zone parseISO "POST" body engineers = Chatbot.Created rule
                /\ Chatbot.new_ruleType rule = OneTime
                /\ Chatbot.new_startDateTime rule
                   = Some (Chatbot.dateTimeText date start_time)
                /\ Chatbot.new_endDateTime rule
                   = Some (Chatbot.dateTimeText (DateFns.formatDay (day + 1)) end_time)))
  /\ (forall method rule,
        Chatbot.handler zone parseISO method body engineers = Chatbot.Created rule ->
        (Chatbot.new_ruleType rule = Recurring
         <-> exists d ds, Chatbot.req_days body = Some (d :: ds))).
Proof.
  intros Heng Hname Hstatus Hfind Hst Hst_ne Het Het_ne.
  destruct name as [|c name]; [congruence|].
  destruct start_time as [|cs start_time]; [congruence|].
  destruct end_time as [|ce end_time]; [congruence|].
  assert (Hfront : forall k,
             (if negb ("POST" =? "POST")%string then Chatbot.Failure 405 "Use POST method"
              else k) = k) by reflexivity.
  split; [|split].
  - intros Hrec. unfold Chatbot.handler.
    rewrite Hfront, Heng, Hstatus. cbv beta iota. rewrite Hfind. cbv beta iota.
    rewrite Hrec, Hst, Het. cbn [Js.truthy negb orb].
    eexists. split; [reflexivity|]. cbn. repeat split.
  - intros Hrec date Hdate Hdate_ne.
    destruct date as [|cd date]; [congruence|].
    split.
    + intros Hlt. unfold Chatbot.handler.
      rewrite Hfront, Heng, Hstatus. cbv beta iota. rewrite Hfind. cbv beta iota.
      rewrite Hrec, Hdate, Hst, Het. cbv beta iota zeta. rewrite Hlt.
      eexists. split; [reflexivity|]. cbn. repeat split.
    + intros Hlt parsed day Hparsed Hmid Hclock. unfold Chatbot.handler.
      rewrite Hfront, Heng, Hstatus. cbv beta iota. rewrite Hfind. cbv beta iota.
      rewrite Hrec, Hdate, Hst, Het. cbv beta iota zeta. rewrite Hlt.
      rewrite Hparsed, (next_day_text parsed day Hmid Hclock).
      eexists. split; [reflexivity|]. cbn. repeat split.
  - intros method rule Hcreated.
    rewrite (created_rule_type method body engineers rule Hcreated).
    apply isRecurring_days.
Qed.

End ChatbotFacts.

(** C8, as stated, fails.  The request carries a non-empty weekday list
    (and a known engineer and a status) but no times; the endpoint answers
    400 and creates no rule.  Nor is a rule created for a well-formed
    recurring request sent with another method or naming an unknown
    engineer. *)
Lemma recurring_request_without_times_counterexample :
  Chatbot.req_days mondaysWithoutTimes = Some ["Mon"%string]
  /\ Chatbot.handler DateFns.utc (DateFns.parseISO_date DateFns.utc)
       "POST" mondaysWithoutTimes [bob]
     = Chatbot.Failure 400 "start_time and end_time are required for recurring rules"
  /\ (forall zone parseISO,
        ~ (exists rule,
             Chatbot.handler zone parseISO "POST" mondaysWithoutTimes [bob]
             = Chatbot.Created rule
             /\ Chatbot.new_ruleType rule = Recurring))
  /\ Chatbot.req_days weekdayMornings = Some ["Mon"%string; "Tue"%string]
  /\ Chatbot.handler DateFns.utc (DateFns.parseISO_date DateFns.utc)
       "PUT" weekdayMornings [bob]
     = Chatbot.Failure 405 "Use POST method"
  /\ Chatbot.handler DateFns.utc (DateFns.parseISO_date DateFns.utc)
       "POST" weekdayMornings []
     = Chatbot.Failure 404 "Engineer not found".
Proof.
  split; [reflexivity|]. split; [vm_compute; reflexivity|].
  split; [intros zone parseISO (rule & H & _); vm_compute in H; discriminate H|].
  repeat split.
Qed.

Lemma chatbot_rule_from_request_witness :
  exists rule,
    Chatbot.handler DateFns.utc (DateFns.parseISO_date DateFns.utc)
      "POST" leapNight [bob] = Chatbot.Created rule
    /\ Chatbot.new_ruleType rule = OneTime
    /\ Chatbot.new_startDateTime rule = Some "2024-02-29T22:00:00"%string
    /\ Chatbot.new_endDateTime rule = Some "2024-03-01T04:00:00"%string.
Proof.
  assert (Hne : forall c s, String c s <> EmptyString) by (intros c s H; discriminate H).
  refine (proj2 (proj1 (proj2
            (chatbot_rule_from_request DateFns.utc (DateFns.parseISO_date DateFns.utc)
               leapNight [bob] "bob" RuleAvailable bob
               "22:00" "04:00" eq_refl (Hne _ _) eq_refl _ eq_refl (Hne _ _)
               eq_refl (Hne _ _)))
            _ "2024-02-29"%string eq_refl (Hne _ _)) _
            (19782 * DateFns.MS_PER_DAY) 19782 _ _ _).
  - vm_compute. reflexivity.
  - reflexivity.
  - vm_compute. reflexivity.
  - vm_compute. reflexivity.
  - vm_compute. reflexivity.
  - vm_compute. split; [discriminate | reflexivity].
Defined.

(** The four sample requests, evaluated. *)
Example chatbot_samples :
  let handler := Chatbot.handler DateFns.utc (DateFns.parseISO_date DateFns.utc) in
  option_map Chatbot.new_endDateTime
    (match handler "POST"%string leapDay [bob] with
     | Chatbot.Created rule => Some rule | _ => None end)
  = Some (Some "2024-02-29T17:00:00"%string)
  /\ option_map Chatbot.new_ruleType
       (match handler "POST"%string weekdayMornings [bob] with
        | Chatbot.Created rule => Some rule | _ => None end)
     = Some Recurring
  /\ handler "GET"%string leapDay [bob] = Chatbot.Failure 405 "Use POST method"
  /\ handler "POST"%string leapDay [] = Chatbot.Failure 404 "Engineer not found".
Proof. vm_compute. repeat split. Qed.

(** New York sets its clock back an hour on 2025-11-02: 24 hours after
    that day's local midnight it is 23:00 of the same date, the hypothesis
    on the clock fails, and the end the endpoint stores for a night that
    starts at 22:00 carries the request's own date.  On the eve of a day of
    23 hours the following date is stored. *)
Example chatbot_on_clock_change_days :
  let handler := Chatbot.handler DateFns.newYork (DateFns.parseISO_date DateFns.newYork) in
  DateFns.parseISO_date DateFns.newYork "2025-11-02" = Some novemberSecond
  /\ DateFns.toLocal DateFns.newYork novemberSecond = 20394 * DateFns.MS_PER_DAY
  /\ ~ notSetBackWithinDay DateFns.newYork novemberSecond
  /\ option_map Chatbot.new_endDateTime
       (match handler "POST"%string fallBackNight [bob] with
        | Chatbot.Created rule => Some rule | _ => None end)
     = Some (Some "2025-11-02T04:00:00"%string)
  /\ notSetBackWithinDay DateFns.newYork marchNinth
  /\ option_map Chatbot.new_endDateTime
       (match handler "POST"%string
                (request (Some "2025-03-09"%string) (Some "22:00"%string)
                   (Some "04:00"%string) None) [bob] with
        | Chatbot.Created rule => Some rule | _ => None end)
     = Some (Some "2025-03-10T04:00:00"%string).
Proof.
  cbv zeta.
  split; [vm_compute; reflexivity|].
  split; [vm_compute; reflexivity|].
  split; [vm_compute; intros [H _]; apply H; reflexivity|].
  split; [vm_compute; reflexivity|].
  split; [vm_compute; split; [discriminate | reflexivity]|].
  vm_compute. reflexivity.
Qed.

(* ================================================================== *)
(** ** Further properties of the engine *)

(** X1.  The rule pass reads the rules in ascending [updatedAt], rules
    with one [updatedAt] in their input order, and each rule of the input
    once: the sorted array is a permutation of the input, is ordered, and
    keeps the order of equal keys. *)
Theorem rules_sorted_stably rules :
  Permutation rules (sortByUpdatedAt rules)
  /\ StronglySorted olderOrEqual (sortByUpdatedAt rules)
  /\ forall t,
       filter (fun r => rule_updatedAt r =? t) (sortByUpdatedAt rules)
       = filter (fun r => rule_updatedAt r =? t) rules.
Proof.
  split; [apply sortByUpdatedAt_perm|].
  split; [apply sortByUpdatedAt_sorted|].
  intros t. apply sortByUpdatedAt_stable.
Qed.

Lemma sorted_distinct_unique (l1 : list AvailabilityRule) : forall l2,
  StronglySorted olderOrEqual l1 -> StronglySorted olderOrEqual l2 ->
  NoDup (map rule_updatedAt l1) ->
  Permutation l1 l2 ->
  l1 = l2.
Proof.
  induction l1 as [|a l1 IH]; intros l2 Hs1 Hs2 Hnd Hperm.
  - apply Permutation_nil in Hperm. subst. reflexivity.
  - destruct l2 as [|b l2];
      [apply Permutation_sym, Permutation_nil in Hperm; discriminate Hperm|].
    inversion Hs1 as [|? ? Hs1' Hall1]; subst.
    inversion Hs2 as [|? ? Hs2' Hall2]; subst.
    cbn [map] in Hnd. inversion Hnd as [|? ? Hnotin Hnd']; subst.
    rewrite Forall_forall in Hall1, Hall2.
    assert (Hab : a = b).
    { assert (Ha : In a (b :: l2))
        by (eapply Permutation_in; [exact Hperm | left; reflexivity]).
      assert (Hb : In b (a :: l1))
        by (eapply Permutation_in; [apply Permutation_sym; exact Hperm
                                   | left; reflexivity]).
      destruct Ha as [Ha|Ha]; [congruence|].
      destruct Hb as [Hb|Hb]; [congruence|].
      pose proof (Hall2 a Ha) as Hle1. pose proof (Hall1 b Hb) as Hle2.
      unfold olderOrEqual in *.
      exfalso. apply Hnotin. apply in_map_iff. exists b.
      split; [lia | exact Hb]. }
    subst b. f_equal.
    apply IH; try assumption.
    eapply Permutation_cons_inv. exact Hperm.
Qed.

(** X2.  When no two rules share an [updatedAt], the result does not
    depend on the order of the rules in the input array. *)
Theorem input_order_is_irrelevant zone rules rules' sessions s e :
  NoDup (map rule_updatedAt rules) ->
  Permutation rules rules' ->
  calculateAvailability zone rules sessions s e
  = calculateAvailability zone rules' sessions s e.
Proof.
  intros Hnd Hperm.
  assert (Hsort : sortByUpdatedAt rules = sortByUpdatedAt rules').
  { apply sorted_distinct_unique; try apply sortByUpdatedAt_sorted.
    - eapply Permutation_NoDup; [|exact Hnd].
      apply Permutation_map. apply sortByUpdatedAt_perm.
    - eapply perm_trans; [apply Permutation_sym, sortByUpdatedAt_perm|].
      eapply perm_trans; [exact Hperm | apply sortByUpdatedAt_perm]. }
  rewrite !calculateAvailability_loop.
  apply map_ext. intros k.
  unfold resolveDay. rewrite Hsort. reflexivity.
Qed.

Lemma input_order_is_irrelevant_witness :
  calculateAvailability DateFns.utc [ruleA; ruleB; ruleC] [sessionS] friday friday
  = calculateAvailability DateFns.utc [ruleC; ruleA; ruleB] [sessionS] friday friday.
Proof.
  apply (input_order_is_irrelevant DateFns.utc [ruleA; ruleB; ruleC] [ruleC; ruleA; ruleB]).
  - cbn. repeat constructor; cbn; intros H;
      repeat (destruct H as [H|H]; [discriminate H|]); exact H.
  - apply Permutation_sym.
    apply (Permutation_cons_app [ruleA; ruleB] [] ruleC). apply Permutation_refl.
Defined.

Lemma applySessions_cases sessions slotStart slotEnd slot :
  ((forall S, In S sessions -> sessionCoversSlot S slotStart slotEnd = false)
   /\ applySessions sessions slotStart slotEnd slot = slot)
  \/ (exists S, In S sessions /\ sessionCoversSlot S slotStart slotEnd = true
                /\ applySessions sessions slotStart slotEnd slot = setBooked slot S).
Proof.
  induction sessions as [|S0 sessions IH]; cbn [applySessions].
  - left. split; [intros S [] | reflexivity].
  - destruct (sessionCoversSlot S0 slotStart slotEnd) eqn:E0.
    + right. exists S0. repeat split; [left; reflexivity | exact E0].
    + destruct IH as [[Hnone Heq]|(S & HS & Hc & Heq)].
      * left. split; [|exact Heq]. intros S [<-|HS]; [exact E0 | apply Hnone, HS].
      * right. exists S. repeat split; [right; exact HS | exact Hc | exact Heq].
Qed.

(** X3.  The three result fields of a resolved slot agree with each
    other.  A slot is Booked exactly when it has a [sessionId], which is
    then the id of an input session that covers it.  A [ruleId] is the id of
    an input rule that applies to the slot, and the slot then carries that
    rule's status unless it is Booked (the session pass keeps the [ruleId]).
    A slot without [ruleId] is Blank or Booked. *)
Theorem resolved_slot_fields_agree zone rules sessions s e k i day slot :
  nth_error (calculateAvailability zone rules sessions s e) k = Some day ->
  nth_error (day_slots day) i = Some slot ->
  (slot_status slot = Booked <-> slot_sessionId slot <> None)
  /\ (forall sid, slot_sessionId slot = Some sid ->
        exists S, In S sessions /\ session_id S = sid
                  /\ sessionCoversSlot S (slot_datetime slot) (slotEndOf slot) = true)
  /\ (forall rid, slot_ruleId slot = Some rid ->
        exists R, In R rules /\ rule_id R = rid
                  /\ ruleAppliesToSlot zone R (dayStart zone s k) slot = true
                  /\ (slot_status slot = Booked
                      \/ slot_status slot = slotStatusOf (rule_status R)))
  /\ (slot_ruleId slot = None -> slot_status slot = Blank \/ slot_status slot = Booked).
Proof.
  intros Hday Hslot.
  destruct (resolved_slot_form zone rules sessions s e k i day slot Hday Hslot)
    as (Ht & Hd & Heq).
  set (cur := dayStart zone s k) in *.
  set (fresh := generatedSlot zone cur i) in *.
  assert (Hends : slotEndOf slot = slotEndOf fresh)
    by (unfold slotEndOf; rewrite Hd; reflexivity).
  assert (Hext : forall R, ruleAppliesToSlot zone R cur slot
                           = ruleAppliesToSlot zone R cur fresh)
    by (intros R; apply ruleAppliesToSlot_ext; assumption).
  rewrite Hd, Hends.
  set (afterRules :=
         match lastMatch (fun r => ruleAppliesToSlot zone r cur fresh)
                 (sortByUpdatedAt rules) with
         | Some r => setRule fresh r
         | None => fresh
         end) in *.
  assert (Hrules :
            slot_sessionId afterRules = None
            /\ slot_status afterRules <> Booked
            /\ (forall rid, slot_ruleId afterRules = Some rid ->
                  exists R, In R rules /\ rule_id R = rid
                            /\ ruleAppliesToSlot zone R cur fresh = true
                            /\ slot_status afterRules = slotStatusOf (rule_status R))
            /\ (slot_ruleId afterRules = None -> slot_status afterRules = Blank)).
  { unfold afterRules.
    destruct (lastMatch (fun r => ruleAppliesToSlot zone r cur fresh)
                (sortByUpdatedAt rules)) as [r|] eqn:Elast.
    - destruct (lastMatch_Some _ _ _ Elast) as [Hin Hp].
      apply (proj1 (sortByUpdatedAt_In _ _)) in Hin.
      cbn. repeat split.
      + destruct (rule_status r); discriminate.
      + intros rid [= <-]. exists r. auto.
      + discriminate.
    - cbn. repeat split; try discriminate. }
  destruct Hrules as (Hsid & Hnb & Hrid & Hnone).
  destruct (applySessions_cases sessions (slot_datetime fresh) (slotEndOf fresh)
              afterRules) as [[Hfree Hsame]|(S & HS & Hc & Hbooked)].
  - rewrite Hsame in Heq. subst slot.
    repeat split.
    + intros Hb. contradiction.
    + intros Hs. rewrite Hsid in Hs. contradiction.
    + intros sid Hs. rewrite Hsid in Hs. discriminate Hs.
    + intros rid Hr. destruct (Hrid rid Hr) as (R & HR & Hid & Happ & Hst).
      exists R. rewrite Hext. auto.
    + intros Hr. left. apply Hnone. exact Hr.
  - rewrite Hbooked in Heq. subst slot. cbn [setBooked slot_status slot_sessionId slot_ruleId].
    repeat split.
    + discriminate.
    + intros sid [= <-]. exists S. auto.
    + intros rid Hr. destruct (Hrid rid Hr) as (R & HR & Hid & Happ & Hst).
      exists R. rewrite Hext. auto.
    + intros _. right. reflexivity.
Qed.

Lemma resolved_slot_fields_agree_witness :
  exists slot,
    slotAt (calculateAvailability DateFns.utc [ruleA; ruleB] [sessionS] friday friday) 0 36
    = Some slot
    /\ (slot_status slot = Booked <-> slot_sessionId slot <> None)
    /\ slot_ruleId slot = Some "B"%string.
Proof.
  eexists. split; [vm_compute; reflexivity|].
  split; [|vm_compute; reflexivity].
  refine (proj1 (resolved_slot_fields_agree DateFns.utc [ruleA; ruleB] [sessionS] friday friday
                   0%nat 36%nat
                   (resolveDay DateFns.utc [ruleA; ruleB] [sessionS] friday) _ _ _)).
  - vm_compute. reflexivity.
  - vm_compute. reflexivity.
Defined.

(** X4.  For a slot and a one-time rule (or a session) that both last a
    positive time, the overlap test holds exactly when some instant lies in
    both half-open intervals; touching intervals do not overlap.  A rule or
    session of zero length passes the test exactly when it lies strictly
    inside the slot. *)
Theorem overlap_test_is_intersection rule session slotStart slotEnd a b :
  rule_ruleType rule = OneTime ->
  rule_startDateTime rule = Some a -> rule_endDateTime rule = Some b ->
  session_start session = a -> session_end session = b ->
  slotStart < slotEnd ->
  oneTimeRuleApplies rule slotStart slotEnd = sessionCoversSlot session slotStart slotEnd
  /\ (a < b ->
      (oneTimeRuleApplies rule slotStart slotEnd = true
       <-> exists t, slotStart <= t < slotEnd /\ a <= t < b))
  /\ (a = b ->
      (oneTimeRuleApplies rule slotStart slotEnd = true
       <-> slotStart < a < slotEnd)).
Proof.
  intros Hty Ha Hb Hsa Hsb Hslot.
  unfold oneTimeRuleApplies, sessionCoversSlot, DateFns.isBefore, DateFns.isAfter.
  rewrite Hty, Ha, Hb, Hsa, Hsb. cbn [RuleType_eqb negb].
  split; [reflexivity|].
  rewrite andb_true_iff, !Z.ltb_lt.
  split.
  - intros Hab. split.
    + intros [H1 H2]. exists (Z.max slotStart a). lia.
    + intros (t & Ht1 & Ht2). lia.
  - intros ->. lia.
Qed.

Lemma overlap_test_is_intersection_witness :
  oneTimeRuleApplies ruleC (friday + 18 * DateFns.MS_PER_HOUR)
    (friday + 18 * DateFns.MS_PER_HOUR + 30 * DateFns.MS_PER_MINUTE) = true
  <-> exists t,
        friday + 18 * DateFns.MS_PER_HOUR <= t
          < friday + 18 * DateFns.MS_PER_HOUR + 30 * DateFns.MS_PER_MINUTE
        /\ friday + 17 * DateFns.MS_PER_HOUR <= t < friday + 19 * DateFns.MS_PER_HOUR.
Proof.
  refine (proj1 (proj2
            (overlap_test_is_intersection ruleC
               (sessionAt "W" (friday + 17 * DateFns.MS_PER_HOUR)
                  (friday + 19 * DateFns.MS_PER_HOUR))
               _ _ _ _ eq_refl eq_refl eq_refl eq_refl eq_refl _)) _);
    vm_compute; reflexivity.
Defined.

(** X5.  A one-time rule that runs from the start of slot [a] to the
    start of slot [b] of a day applies to the slots [a], ..., [b - 1] of that
    day and to no other slot of it: the interval is closed at its start and
    open at its end. *)
Theorem aligned_rule_marks_half_open_range zone rule currentDate a b i slot :
  rule_ruleType rule = OneTime ->
  rule_startDateTime rule
  = Some (DateFns.addMinutes (DateFns.startOfDay zone currentDate) (a * SLOT_MINUTES)) ->
  rule_endDateTime rule
  = Some (DateFns.addMinutes (DateFns.startOfDay zone currentDate) (b * SLOT_MINUTES)) ->
  nth_error (generateDaySlots zone currentDate) i = Some slot ->
  ruleAppliesToSlot zone rule currentDate slot
  = (a <=? Z.of_nat i) && (Z.of_nat i <? b).
Proof.
  intros Hty Ha Hb Hslot.
  rewrite generateDaySlots_nth in Hslot.
  destruct (Nat.ltb_spec i 48) as [Hi|]; [|discriminate].
  injection Hslot as <-.
  unfold ruleAppliesToSlot, oneTimeRuleApplies. rewrite Hty, Ha, Hb.
  unfold generatedSlot. cbn [RuleType_eqb negb andb orb slot_datetime].
  rewrite orb_false_r.
  unfold DateFns.isBefore, DateFns.isAfter, DateFns.addMinutes, SLOT_MINUTES,
    DateFns.MS_PER_MINUTE.
  destruct (Z.leb_spec a (Z.of_nat i)), (Z.ltb_spec (Z.of_nat i) b); cbn [andb];
    rewrite ?andb_true_iff, ?andb_false_iff, ?Z.ltb_lt, ?Z.ltb_ge; lia.
Qed.

Lemma aligned_rule_marks_half_open_range_witness :
  nth_error (generateDaySlots DateFns.utc friday) 37 = Some (freshSlot friday 37)
  /\ ruleAppliesToSlot DateFns.utc ruleC friday (freshSlot friday 37) = true
  /\ nth_error (generateDaySlots DateFns.utc friday) 38 = Some (freshSlot friday 38)
  /\ ruleAppliesToSlot DateFns.utc ruleC friday (freshSlot friday 38) = false.
Proof.
  assert (H37 : nth_error (generateDaySlots DateFns.utc friday) 37 = Some (freshSlot friday 37))
    by (vm_compute; reflexivity).
  assert (H38 : nth_error (generateDaySlots DateFns.utc friday) 38 = Some (freshSlot friday 38))
    by (vm_compute; reflexivity).
  split; [exact H37|]. split.
  - exact (aligned_rule_marks_half_open_range DateFns.utc ruleC friday 34 38 37 _
             eq_refl eq_refl eq_refl H37).
  - split; [exact H38|].
    exact (aligned_rule_marks_half_open_range DateFns.utc ruleC friday 34 38 38 _
             eq_refl eq_refl eq_refl H38).
Defined.

Lemma getDay_midnight utcOffset day :
  DateFns.getDay (DateFns.fixedZone utcOffset) (DateFns.fromLocal (DateFns.fixedZone utcOffset) (day * DateFns.MS_PER_DAY))
  = (day + 4) mod 7.
Proof.
  unfold DateFns.getDay, DateFns.localDay. rewrite toLocal_fixed, fromLocal_fixed.
  replace (day * DateFns.MS_PER_DAY - utcOffset + utcOffset)
    with (day * DateFns.MS_PER_DAY) by lia.
  rewrite Z.div_mul by discriminate. reflexivity.
Qed.

(** X6.  The effective range of a recurring rule is inclusive at both
    ends and counts whole days.  In a zone whose offset never changes, with
    bounds that are the local midnights of two dates, on the local midnight
    of day [day] the rule passes
    [recurringRuleApplies] exactly when the weekday of [day] is among its
    recurrence days and [day] is neither before effectiveFrom nor after
    effectiveUntil; a missing bound does not restrict. *)
Theorem effective_range_is_inclusive utcOffset rule days from until day :
  rule_ruleType rule = Recurring ->
  rule_recurrenceDays rule = Some days ->
  rule_effectiveFrom rule = midnightOf (DateFns.fixedZone utcOffset) from ->
  rule_effectiveUntil rule = midnightOf (DateFns.fixedZone utcOffset) until ->
  recurringRuleApplies (DateFns.fixedZone utcOffset) rule
    (DateFns.fromLocal (DateFns.fixedZone utcOffset) (day * DateFns.MS_PER_DAY))
  = includesWeekdayOf days day && notBefore from day && notAfter until day.
Proof.
  intros Hty Hdays Hfrom Huntil.
  unfold recurringRuleApplies. rewrite Hty, Hdays, Hfrom, Huntil.
  cbn [RuleType_eqb negb]. rewrite getDay_midnight. unfold includesWeekdayOf.
  destruct days as [|d days].
  - cbn. destruct (DAY_MAP ((day + 4) mod 7)); reflexivity.
  - cbn [List.length Nat.eqb].
    destruct (match DAY_MAP ((day + 4) mod 7) with
              | Some dayName => Js.includes (d :: days) dayName
              | None => false
              end); cbn [negb andb]; [|reflexivity].
    unfold midnightOf, notBefore, notAfter, DateFns.isBefore, DateFns.isAfter.
    destruct from as [f|], until as [u|]; cbn [option_map];
      rewrite ?fromLocal_fixed;
      repeat match goal with
        | |- context [?x <? ?y] => destruct (Z.ltb_spec x y)
        | |- context [?x <=? ?y] => destruct (Z.leb_spec x y)
        end; cbn; try reflexivity;
      unfold DateFns.MS_PER_DAY in *; lia.
Qed.

Lemma effective_range_is_inclusive_witness :
  recurringRuleApplies DateFns.utc ruleJanuary (DateFns.fromLocal DateFns.utc (19748 * DateFns.MS_PER_DAY))
  = true
  /\ recurringRuleApplies DateFns.utc ruleJanuary (DateFns.fromLocal DateFns.utc (19755 * DateFns.MS_PER_DAY))
     = false.
Proof.
  split.
  - exact (effective_range_is_inclusive 0 ruleJanuary ["Fri"%string]
             (Some 19727) (Some 19748) 19748 eq_refl eq_refl eq_refl eq_refl).
  - exact (effective_range_is_inclusive 0 ruleJanuary ["Fri"%string]
             (Some 19727) (Some 19748) 19755 eq_refl eq_refl eq_refl eq_refl).
Defined.

Lemma split_without_separator s :
  hasColon s = false -> Js.split ":"%char s = [s].
Proof.
  unfold hasColon.
  induction s as [|c s IH]; cbn [list_ascii_of_string existsb Js.split];
    [reflexivity|].
  intros H. apply orb_false_iff in H. destruct H as [Hc Hs].
  rewrite Ascii.eqb_sym in Hc. rewrite Hc, (IH Hs). reflexivity.
Qed.

Lemma timeToMinutes_without_colon s : hasColon s = false -> timeToMinutes s = None.
Proof.
  intros H. unfold timeToMinutes. rewrite (split_without_separator s H). reflexivity.
Qed.

(** X7.  A recurring rule whose startTime or endTime has no colon (so
    that the minutes part is missing and the minute count is NaN) applies to
    no slot at all, on any date. *)
Theorem rule_without_colon_never_applies zone rule time :
  rule_ruleType rule = Recurring ->
  (rule_startTime rule = Some time \/ rule_endTime rule = Some time) ->
  hasColon time = false ->
  forall currentDate slot, ruleAppliesToSlot zone rule currentDate slot = false.
Proof.
  intros Hty Htime Hcolon cur slot.
  pose proof (timeToMinutes_without_colon time Hcolon) as Hnan.
  unfold ruleAppliesToSlot. rewrite Hty. cbn [RuleType_eqb andb orb].
  apply andb_false_iff. right.
  unfold recurringSlotApplies.
  destruct (negb (Js.truthy (rule_startTime rule))
            || negb (Js.truthy (rule_endTime rule))); [reflexivity|].
  destruct (rule_startTime rule) as [st|], (rule_endTime rule) as [et|];
    try reflexivity.
  unfold Js.le, Js.ge, Js.lt, Js.le.
  destruct Htime as [[= ->]|[= ->]]; rewrite Hnan.
  - destruct (timeToMinutes et), (timeToMinutes (slot_time slot)); reflexivity.
  - destruct (timeToMinutes st), (timeToMinutes (slot_time slot)); cbn;
      rewrite ?andb_false_r; reflexivity.
Qed.

Lemma rule_without_colon_never_applies_witness :
  Forall (fun slot => ruleAppliesToSlot DateFns.utc ruleNoColon friday slot = false)
         (generateDaySlots DateFns.utc friday).
Proof.
  apply Forall_forall. intros slot _.
  apply (rule_without_colon_never_applies DateFns.utc ruleNoColon "0900" eq_refl
           (or_introl eq_refl) eq_refl).
Defined.

Lemma empty_window_selects_nothing startMinutes endMinutes targetDay :
  Js.lt startMinutes endMinutes = false ->
  relevantSlotsOf startMinutes endMinutes targetDay = [].
Proof.
  intros Hwin. unfold relevantSlotsOf.
  induction (day_slots targetDay) as [|slot slots IH]; [reflexivity|].
  cbn [filter]. rewrite IH.
  replace (Js.ge (timeToMinutes (slot_time slot)) startMinutes
           && Js.lt (timeToMinutes (slot_time slot)) endMinutes) with false;
    [reflexivity|].
  symmetry. unfold Js.ge, Js.le, Js.lt in *.
  destruct (timeToMinutes (slot_time slot)) as [x|], startMinutes as [a|],
    endMinutes as [b|]; cbn; rewrite ?andb_false_r; try reflexivity.
  destruct (Z.leb_spec a x), (Z.ltb_spec x b); cbn; try reflexivity.
  apply Z.ltb_ge in Hwin. lia.
Qed.

(** X8.  A window whose end is not after its start (a window across
    midnight such as 22:00 to 02:00, an empty one, or one with a time that
    is not a number) selects no slot: every engineer of the map is put in
    [not_set], in the order of the map, and the other lists are empty. *)
Theorem reversed_window_is_not_set m targetDate startTime endTime :
  Js.lt (timeToMinutes startTime) (timeToMinutes endTime) = false ->
  getAvailabilitySummary m targetDate startTime endTime
  = {| available := []; maybe := []; unavailable := []; booked := [];
       not_set := map fst m |}.
Proof.
  intros Hwin.
  assert (Hall : forall days,
             bucketOfEntry targetDate (timeToMinutes startTime)
               (timeToMinutes endTime) days = B_not_set).
  { intros days. unfold bucketOfEntry.
    destruct (findTargetDay targetDate days) as [targetDay|]; [|reflexivity].
    rewrite (empty_window_selects_nothing _ _ targetDay Hwin). reflexivity. }
  assert (Hnames : forall b,
             namesIn (bucketOfEntry targetDate (timeToMinutes startTime)
                        (timeToMinutes endTime)) b m
             = if Bucket_eqb B_not_set b then map fst m else []).
  { intros b. unfold namesIn.
    induction m as [|[name days] m IH]; cbn [filter map fst snd].
    - destruct (Bucket_eqb B_not_set b); reflexivity.
    - rewrite Hall. destruct (Bucket_eqb B_not_set b); cbn [map fst];
        rewrite IH; reflexivity. }
  pose proof (fun b => getAvailabilitySummary_bucket m targetDate startTime endTime b)
    as Hb.
  pose proof (Hb B_available) as Ha. pose proof (Hb B_maybe) as Hm.
  pose proof (Hb B_unavailable) as Hu. pose proof (Hb B_booked) as Hk.
  pose proof (Hb B_not_set) as Hn.
  rewrite Hnames in Ha, Hm, Hu, Hk, Hn. cbn in Ha, Hm, Hu, Hk, Hn.
  destruct (getAvailabilitySummary m targetDate startTime endTime).
  cbn in *. subst. reflexivity.
Qed.

Lemma reversed_window_is_not_set_witness :
  getAvailabilitySummary sampleEngineers "2024-01-05" "22:00" "02:00"
  = {| available := []; maybe := []; unavailable := []; booked := [];
       not_set := ["Ann"; "Bob"; "Cy"]%string |}.
Proof.
  apply (reversed_window_is_not_set sampleEngineers "2024-01-05" "22:00" "02:00").
  vm_compute. reflexivity.
Defined.

(** X9.  In a zone whose offset never changes, on a day of a result a
    window with numeric bounds selects the
    slots that start at or after its start and strictly before its end:
    slot [i] is selected exactly when [start <= 30 * i < end] in minutes.
    The window 00:00 to 23:59, which the query endpoint uses by default,
    selects all 48 slots. *)
Theorem window_selects_half_open_range utcOffset rules sessions s e k day
    startMinutes endMinutes :
  nth_error (calculateAvailability (DateFns.fixedZone utcOffset) rules sessions s e) k
  = Some day ->
  (forall i slot, nth_error (day_slots day) i = Some slot ->
     (In slot (relevantSlotsOf (Some startMinutes) (Some endMinutes) day)
      <-> startMinutes <= 30 * Z.of_nat i < endMinutes))
  /\ relevantSlotsOf (timeToMinutes "00:00") (timeToMinutes "23:59") day
     = day_slots day.
Proof.
  intros Hday.
  assert (Hmin : forall i slot, nth_error (day_slots day) i = Some slot ->
             timeToMinutes (slot_time slot) = Some (30 * Z.of_nat i) /\ (i < 48)%nat).
  { intros i slot Hslot.
    destruct (resolved_slot_fixed utcOffset rules sessions s e k i day slot Hday Hslot)
      as (Hi & Ht & _).
    rewrite Ht, (timeToMinutes_label i Hi).
    split; [f_equal; unfold SLOT_MINUTES; lia | exact Hi]. }
  split.
  - intros i slot Hslot. destruct (Hmin i slot Hslot) as [Hm _].
    unfold relevantSlotsOf. rewrite filter_In, Hm.
    unfold Js.ge, Js.le, Js.lt. rewrite andb_true_iff, Z.leb_le, Z.ltb_lt.
    split; [intros [_ H]; exact H | intros H; split; [|exact H]].
    eapply nth_error_In. exact Hslot.
  - unfold relevantSlotsOf.
    apply forallb_filter_id. apply forallb_forall. intros slot Hin.
    apply In_nth_error in Hin. destruct Hin as [i Hslot].
    destruct (Hmin i slot Hslot) as [Hm Hi]. rewrite Hm.
    change (timeToMinutes "00:00") with (Some 0).
    change (timeToMinutes "23:59") with (Some 1439).
    unfold Js.ge, Js.le, Js.lt. apply andb_true_iff.
    rewrite Z.leb_le, Z.ltb_lt. lia.
Qed.

Lemma window_selects_half_open_range_witness :
  relevantSlotsOf (timeToMinutes "00:00") (timeToMinutes "23:59")
    (resolveDay DateFns.utc [ruleA] [sessionS] friday)
  = day_slots (resolveDay DateFns.utc [ruleA] [sessionS] friday).
Proof.
  refine (proj2 (window_selects_half_open_range 0 [ruleA] [sessionS] friday friday
                   0%nat _ 0 0 _)).
  vm_compute. reflexivity.
Defined.

(* ================================================================== *)
(** ** Time labels: arithmetic and order *)

Lemma padStart2_twoDigits n :
  0 <= n < 100 -> WebApp.padStart2 (WebApp.toString n) = twoDigits n.
Proof.
  intros Hn.
  assert (Hall : forallb (fun k => String.eqb
                                     (WebApp.padStart2 (WebApp.toString (Z.of_nat k)))
                                     (twoDigits (Z.of_nat k))) (seq 0 100) = true)
    by (vm_compute; reflexivity).
  pose proof (forallb_below _ _ Hall (Z.to_nat n) ltac:(lia)) as H. cbv beta in H.
  rewrite Z2Nat.id in H by lia. apply String.eqb_eq. exact H.
Qed.

Lemma addMinutesToTime_wraps_at_midnight_lemma t minutes :
  (t < 1440)%nat -> 0 <= minutes ->
  WebApp.addMinutesToTime (minuteLabel t) minutes
  = labelOfMinute ((Z.of_nat t + minutes) mod 1440).
Proof.
  intros Ht Hm. unfold WebApp.addMinutesToTime.
  rewrite (timeToMinutes_minuteLabel t Ht). cbv zeta.
  set (x := Z.of_nat t + minutes).
  assert (Hx : 0 <= x) by (unfold x; lia).
  assert (Hq : 0 <= x / 60) by (apply Z.div_pos; lia).
  rewrite !Z.rem_mod_nonneg by lia.
  pose proof (Z.mod_pos_bound (x / 60) 24 ltac:(lia)) as Hh.
  pose proof (Z.mod_pos_bound x 60 ltac:(lia)) as Hmin.
  rewrite !padStart2_twoDigits by lia.
  unfold labelOfMinute.
  assert (Hsplit : x mod 1440 = x mod 60 + 60 * ((x / 60) mod 24))
    by (change 1440 with (60 * 24); apply Z.rem_mul_r; lia).
  rewrite Hsplit.
  replace ((x mod 60 + 60 * ((x / 60) mod 24)) / 60) with ((x / 60) mod 24).
  2:{ apply (Z.div_unique _ 60 _ (x mod 60)); lia. }
  replace ((x mod 60 + 60 * ((x / 60) mod 24)) mod 60) with (x mod 60).
  2:{ apply (Z.mod_unique _ 60 ((x / 60) mod 24)); lia. }
  reflexivity.
Qed.

(** X10.  On a zero-padded time of day, [addMinutesToTime] adds the
    minutes modulo 24 hours and answers zero-padded: 30 minutes after 23:30
    is "00:00", with nothing that tells the day has changed. *)
Theorem addMinutesToTime_wraps_at_midnight t minutes :
  (t < 1440)%nat -> 0 <= minutes ->
  WebApp.addMinutesToTime (minuteLabel t) minutes
  = labelOfMinute ((Z.of_nat t + minutes) mod 1440).
Proof. exact (addMinutesToTime_wraps_at_midnight_lemma t minutes). Qed.

Lemma addMinutesToTime_wraps_at_midnight_witness :
  WebApp.addMinutesToTime "23:30" 30 = "00:00"%string.
Proof.
  exact (addMinutesToTime_wraps_at_midnight 1410 30 ltac:(lia) ltac:(lia)).
Defined.

Lemma compare_Lt_trans a b c :
  String.compare a b = Lt -> String.compare b c = Lt -> String.compare a c = Lt.
Proof.
  intros H1 H2.
  apply OrderedTypeEx.String_as_OT.cmp_lt.
  apply OrderedTypeEx.String_as_OT.cmp_lt in H1.
  apply OrderedTypeEx.String_as_OT.cmp_lt in H2.
  eapply OrderedTypeEx.String_as_OT.lt_trans; eassumption.
Qed.

Lemma compare_refl a : String.compare a a = Eq.
Proof. apply OrderedTypeEx.String_as_OT.cmp_eq. reflexivity. Qed.

Lemma minuteLabel_next t :
  (S t < 1440)%nat -> String.compare (minuteLabel t) (minuteLabel (S t)) = Lt.
Proof.
  intros Ht.
  assert (Hall : forallb (fun t => match String.compare (minuteLabel t)
                                           (minuteLabel (S t)) with
                                   | Lt => true
                                   | _ => false
                                   end) (seq 0 1439) = true)
    by (vm_compute; reflexivity).
  pose proof (forallb_below _ _ Hall t ltac:(lia)) as H. cbv beta in H.
  destruct (String.compare (minuteLabel t) (minuteLabel (S t)));
    [discriminate H | reflexivity | discriminate H].
Qed.

Lemma minuteLabel_increasing a b :
  (a < b)%nat -> (b < 1440)%nat ->
  String.compare (minuteLabel a) (minuteLabel b) = Lt.
Proof.
  induction b as [|b IH]; intros Hab Hb; [lia|].
  destruct (Nat.eq_dec a b) as [->|Hne].
  - apply minuteLabel_next. exact Hb.
  - eapply compare_Lt_trans; [apply IH; lia | apply minuteLabel_next; exact Hb].
Qed.

(** On zero-padded times the order of the code units is the order of
    the clock. *)
Lemma minuteLabel_compare a b :
  (a < 1440)%nat -> (b < 1440)%nat ->
  String.compare (minuteLabel a) (minuteLabel b) = Nat.compare a b.
Proof.
  intros Ha Hb. destruct (Nat.compare_spec a b) as [->|Hlt|Hgt].
  - apply compare_refl.
  - apply minuteLabel_increasing; assumption.
  - rewrite String.compare_antisym, (minuteLabel_increasing b a Hgt Ha). reflexivity.
Qed.

Lemma minuteLabel_ltb a b :
  (a < 1440)%nat -> (b < 1440)%nat ->
  String.ltb (minuteLabel a) (minuteLabel b) = (a <? b)%nat.
Proof.
  intros Ha Hb. unfold String.ltb. rewrite (minuteLabel_compare a b Ha Hb).
  destruct (Nat.compare_spec a b), (Nat.ltb_spec a b); try reflexivity; lia.
Qed.

Lemma minuteLabel_leb a b :
  (a < 1440)%nat -> (b < 1440)%nat ->
  String.leb (minuteLabel a) (minuteLabel b) = (a <=? b)%nat.
Proof.
  intros Ha Hb. unfold String.leb. rewrite (minuteLabel_compare a b Ha Hb).
  destruct (Nat.compare_spec a b), (Nat.leb_spec a b); try reflexivity; lia.
Qed.

(* ================================================================== *)
(** ** The chatbot endpoint on zero-padded times *)

Lemma minuteLabel_shape t :
  exists c rest, minuteLabel t = String c rest.
Proof. unfold minuteLabel, labelOfMinute, twoDigits. cbn. eauto. Qed.

Lemma handler_one_time zone parseISO body engineers c name status engineer
    date start_time end_time parsed day :
  Chatbot.req_engineer body = Some (String c name) ->
  Chatbot.req_status body = Some status ->
  Chatbot.findEngineer engineers (String c name) = Some engineer ->
  Chatbot.isRecurring body = false ->
  Chatbot.req_date body = Some date -> date <> EmptyString ->
  Chatbot.req_start_time body = Some start_time -> start_time <> EmptyString ->
  Chatbot.req_end_time body = Some end_time -> end_time <> EmptyString ->
  parseISO date = Some parsed ->
  DateFns.toLocal zone parsed = day * DateFns.MS_PER_DAY ->
  notSetBackWithinDay zone parsed ->
  exists rule,
    Chatbot.handler zone parseISO "POST" body engineers = Chatbot.Created rule
    /\ Chatbot.new_startDateTime rule = Some (Chatbot.dateTimeText date start_time)
    /\ Chatbot.new_endDateTime rule
       = Some (Chatbot.dateTimeText
                 (if String.ltb end_time start_time
                  then DateFns.formatDay (day + 1) else date)
                 end_time).
Proof.
  intros Heng Hstatus Hfind Hrec Hdate Hdate_ne Hst Hst_ne Het Het_ne
    Hparsed Hmid Hclock.
  destruct date as [|cd date]; [congruence|].
  destruct start_time as [|cs start_time]; [congruence|].
  destruct end_time as [|ce end_time]; [congruence|].
  unfold Chatbot.handler.
  replace (negb ("POST" =? "POST")%string) with false by reflexivity.
  rewrite Heng, Hstatus. cbv beta iota. rewrite Hfind. cbv beta iota.
  rewrite Hrec, Hdate, Hst, Het. cbv beta iota zeta.
  destruct (String.ltb (String ce end_time) (String cs start_time)).
  - rewrite Hparsed, (next_day_text zone parsed day Hmid Hclock).
    eexists. split; [reflexivity|]. cbn. split; reflexivity.
  - eexists. split; [reflexivity|]. cbn. split; reflexivity.
Qed.

(** X11.  When the one-time request gives start_time and end_time as
    zero-padded "HH:mm" times of day, the comparison of the two strings is
    the comparison of the two clock times.  With a date that [parseISO]
    reads as the local midnight of a calendar day after which the clock is
    not set back within 24 hours, the rule ends on the day after the
    request's date exactly when end_time is earlier in the day than
    start_time, and on the request's date when it is later or the same. *)
Theorem padded_times_compare_as_clock_times zone parseISO body engineers name status
    engineer date parsed day startMinute endMinute :
  Chatbot.req_engineer body = Some name -> name <> EmptyString ->
  Chatbot.req_status body = Some status ->
  Chatbot.findEngineer engineers name = Some engineer ->
  Chatbot.isRecurring body = false ->
  Chatbot.req_date body = Some date -> date <> EmptyString ->
  parseISO date = Some parsed ->
  DateFns.toLocal zone parsed = day * DateFns.MS_PER_DAY ->
  notSetBackWithinDay zone parsed ->
  (startMinute < 1440)%nat -> (endMinute < 1440)%nat ->
  Chatbot.req_start_time body = Some (minuteLabel startMinute) ->
  Chatbot.req_end_time body = Some (minuteLabel endMinute) ->
  exists rule,
    Chatbot.handler zone parseISO "POST" body engineers = Chatbot.Created rule
    /\ Chatbot.new_startDateTime rule
       = Some (Chatbot.dateTimeText date (minuteLabel startMinute))
    /\ Chatbot.new_endDateTime rule
       = Some (Chatbot.dateTimeText
                 (if (endMinute <? startMinute)%nat
                  then DateFns.formatDay (day + 1) else date)
                 (minuteLabel endMinute)).
Proof.
  intros Heng Hname Hstatus Hfind Hrec Hdate Hdate_ne Hparsed Hmid Hclock
    Hs He Hst Het.
  destruct name as [|c name]; [congruence|].
  assert (Hne : forall t, minuteLabel t <> EmptyString)
    by (intros t; destruct (minuteLabel_shape t) as (x & r & ->); discriminate).
  rewrite <- (minuteLabel_ltb endMinute startMinute He Hs).
  apply (handler_one_time zone parseISO body engineers c name status engineer date
           (minuteLabel startMinute) (minuteLabel endMinute) parsed day); auto.
Qed.

Lemma padded_times_compare_as_clock_times_witness :
  exists rule,
    Chatbot.handler DateFns.utc (DateFns.parseISO_date DateFns.utc)
      "POST" leapNight [bob] = Chatbot.Created rule
    /\ Chatbot.new_startDateTime rule = Some "2024-02-29T22:00:00"%string
    /\ Chatbot.new_endDateTime rule = Some "2024-03-01T04:00:00"%string.
Proof.
  apply (padded_times_compare_as_clock_times DateFns.utc
           (DateFns.parseISO_date DateFns.utc) leapNight [bob] "bob" RuleAvailable bob
           "2024-02-29" (19782 * DateFns.MS_PER_DAY) 19782 1320 240).
  - reflexivity.
  - discriminate.
  - reflexivity.
  - vm_compute. reflexivity.
  - reflexivity.
  - reflexivity.
  - discriminate.
  - vm_compute. reflexivity.
  - vm_compute. reflexivity.
  - vm_compute. split; [discriminate | reflexivity].
  - lia.
  - lia.
  - reflexivity.
  - reflexivity.
Defined.

(* ================================================================== *)
(** ** pages/index.tsx: sorting the picked times *)

Lemma leb_cases a b : String.leb a b = true <-> String.compare a b = Lt \/ a = b.
Proof.
  unfold String.leb. split.
  - destruct (String.compare a b) eqn:E; [|auto|discriminate].
    intros _. right. apply String.compare_eq_iff. exact E.
  - intros [->| ->]; [reflexivity | rewrite compare_refl; reflexivity].
Qed.

Lemma timeLe_trans a b c : timeLe a b -> timeLe b c -> timeLe a c.
Proof.
  unfold timeLe. rewrite !leb_cases.
  intros [H1| ->] [H2| ->]; auto.
  left. eapply compare_Lt_trans; eassumption.
Qed.

Lemma timeLe_flip a b : String.leb a b = false -> timeLe b a.
Proof.
  intros H. destruct (String.leb_total a b) as [H'|H']; [congruence | exact H'].
Qed.

Lemma insertTime_perm t l : Permutation (t :: l) (WebApp.insertTime t l).
Proof.
  induction l as [|x l IH]; cbn [WebApp.insertTime].
  - apply Permutation_refl.
  - destruct (String.leb t x).
    + apply Permutation_refl.
    + eapply perm_trans; [apply perm_swap|]. apply perm_skip. exact IH.
Qed.

Lemma sortTimes_perm l : Permutation l (WebApp.sortTimes l).
Proof.
  induction l as [|t l IH]; cbn [WebApp.sortTimes].
  - apply perm_nil.
  - eapply perm_trans; [apply perm_skip; exact IH | apply insertTime_perm].
Qed.

Lemma insertTime_sorted t l :
  StronglySorted timeLe l -> StronglySorted timeLe (WebApp.insertTime t l).
Proof.
  induction 1 as [|x l Hs IH Hall]; cbn [WebApp.insertTime].
  - repeat constructor.
  - destruct (String.leb t x) eqn:E.
    + constructor; [constructor; assumption|].
      constructor; [exact E|].
      eapply Forall_impl; [|exact Hall]. intros y Hy.
      eapply timeLe_trans; [exact E | exact Hy].
    + constructor; [exact IH|].
      eapply Permutation_Forall; [apply insertTime_perm|].
      constructor; [apply timeLe_flip; exact E | exact Hall].
Qed.

Lemma sortTimes_sorted l : StronglySorted timeLe (WebApp.sortTimes l).
Proof.
  induction l as [|t l IH]; cbn [WebApp.sortTimes].
  - constructor.
  - apply insertTime_sorted. exact IH.
Qed.

Lemma sorted_times_unique (l1 : list string) : forall l2,
  StronglySorted timeLe l1 -> StronglySorted timeLe l2 ->
  Permutation l1 l2 -> l1 = l2.
Proof.
  induction l1 as [|a l1 IH]; intros l2 Hs1 Hs2 Hperm.
  - apply Permutation_nil in Hperm. subst. reflexivity.
  - destruct l2 as [|b l2];
      [apply Permutation_sym, Permutation_nil in Hperm; discriminate Hperm|].
    inversion Hs1 as [|? ? Hs1' Hall1]; subst.
    inversion Hs2 as [|? ? Hs2' Hall2]; subst.
    rewrite Forall_forall in Hall1, Hall2.
    assert (Hab : a = b).
    { assert (Ha : In a (b :: l2))
        by (eapply Permutation_in; [exact Hperm | left; reflexivity]).
      assert (Hb : In b (a :: l1))
        by (eapply Permutation_in; [apply Permutation_sym; exact Hperm
                                   | left; reflexivity]).
      destruct Ha as [Ha|Ha]; [congruence|].
      destruct Hb as [Hb|Hb]; [congruence|].
      apply String.leb_antisym; [apply Hall1, Hb | apply Hall2, Ha]. }
    subst b. f_equal. apply IH; try assumption.
    eapply Permutation_cons_inv. exact Hperm.
Qed.

Lemma minuteLabels_sorted idx :
  Forall (fun t => (t < 1440)%nat) idx ->
  StronglySorted le idx ->
  StronglySorted timeLe (map minuteLabel idx).
Proof.
  intros Hb Hs. induction Hs as [|a idx Hs IH Hall]; cbn [map]; constructor.
  - apply IH. inversion Hb; assumption.
  - inversion Hb as [|? ? Ha Hb']; subst.
    rewrite Forall_forall in *. intros x Hx. apply in_map_iff in Hx.
    destruct Hx as (b & <- & Hin). unfold timeLe.
    rewrite minuteLabel_leb by auto. apply Nat.leb_le. apply Hall. exact Hin.
Qed.

Lemma picked_times_sort_lemma times :
  Permutation times (WebApp.sortTimes times)
  /\ StronglySorted timeLe (WebApp.sortTimes times)
  /\ forall idx idx',
       times = map minuteLabel idx ->
       Forall (fun t => (t < 1440)%nat) idx ->
       Permutation idx idx' -> StronglySorted le idx' ->
       WebApp.sortTimes times = map minuteLabel idx'.
Proof.
  split; [apply sortTimes_perm|]. split; [apply sortTimes_sorted|].
  intros idx idx' -> Hb Hperm Hs.
  apply sorted_times_unique.
  - apply sortTimes_sorted.
  - apply minuteLabels_sorted; [|exact Hs].
    eapply Permutation_Forall; [exact Hperm | exact Hb].
  - eapply perm_trans; [apply Permutation_sym, sortTimes_perm|].
    apply Permutation_map. exact Hperm.
Qed.


(** X12.  [times.sort()] returns the times it was given, rearranged in
    ascending order of their code units; for zero-padded "HH:mm" times this
    is the order of the clock, whatever order they were picked in. *)
Theorem picked_times_sort_by_clock times :
  Permutation times (WebApp.sortTimes times)
  /\ StronglySorted timeLe (WebApp.sortTimes times)
  /\ forall idx idx',
       times = map minuteLabel idx ->
       Forall (fun t => (t < 1440)%nat) idx ->
       Permutation idx idx' -> StronglySorted le idx' ->
       WebApp.sortTimes times = map minuteLabel idx'.
Proof. exact (picked_times_sort_lemma times). Qed.

Lemma picked_times_sort_by_clock_witness :
  WebApp.sortTimes ["18:00"; "09:30"; "13:00"]%string
  = ["09:30"; "13:00"; "18:00"]%string.
Proof.
  apply (proj2 (proj2 (picked_times_sort_by_clock ["18:00"; "09:30"; "13:00"]%string))
           [1080; 570; 780]%nat [570; 780; 1080]%nat).
  - reflexivity.
  - repeat constructor; lia.
  - apply (Permutation_cons_app [570; 780]%nat [] 1080%nat). apply Permutation_refl.
  - repeat constructor; lia.
Defined.

(* ================================================================== *)
(** ** pages/index.tsx: from sorted times to ranges *)

Lemma slotLabel_minuteLabel i : slotLabel i = minuteLabel (i * 30).
Proof.
  unfold slotLabel, minuteLabel, SLOT_MINUTES. f_equal. lia.
Qed.

Lemma followsBy30_slots e c :
  (e < 48)%nat -> (c < 48)%nat ->
  WebApp.followsBy30 (slotLabel e) (slotLabel c) = (c =? S e)%nat.
Proof.
  intros He Hc. unfold WebApp.followsBy30, slotLabel.
  rewrite (timeToMinutes_label c Hc), (timeToMinutes_label e He).
  unfold SLOT_MINUTES.
  destruct (Nat.eqb_spec c (S e)), (Z.eqb_spec (Z.of_nat c * 30 - Z.of_nat e * 30) 30);
    try reflexivity; lia.
Qed.

Lemma addMinutesToTime_slot e :
  (e < 48)%nat ->
  WebApp.addMinutesToTime (slotLabel e) 30 = slotLabel (S e mod 48).
Proof.
  intros He. rewrite slotLabel_minuteLabel.
  rewrite addMinutesToTime_wraps_at_midnight_lemma by lia.
  unfold slotLabel, SLOT_MINUTES. f_equal.
  rewrite Nat2Z.inj_mod, Nat2Z.inj_mul.
  replace (Z.of_nat e * Z.of_nat 30 + 30) with (Z.of_nat (S e) * 30) by lia.
  change 1440 with (48 * 30). rewrite Z.mul_mod_distr_r by lia.
  reflexivity.
Qed.

Lemma rangeLoop_runs rest : forall s e,
  (e < 48)%nat -> Forall (fun i => (i < 48)%nat) rest ->
  WebApp.rangeLoop (slotLabel s) (slotLabel e) (map slotLabel rest)
  = map rangeOfRun (runsFrom s e rest).
Proof.
  induction rest as [|c rest IH]; intros s e He Hrest;
    cbn [map WebApp.rangeLoop runsFrom].
  - unfold rangeOfRun. cbn [fst snd]. rewrite (addMinutesToTime_slot e He). reflexivity.
  - inversion Hrest as [|? ? Hc Hrest']; subst.
    rewrite (followsBy30_slots e c He Hc).
    destruct (c =? S e)%nat.
    + apply IH; assumption.
    + cbn [map]. rewrite (IH c c Hc Hrest').
      unfold rangeOfRun at 1. cbn [fst snd].
      rewrite (addMinutesToTime_slot e He). reflexivity.
Qed.

Lemma runsFrom_slots rest : forall s e,
  (s <= e)%nat ->
  flat_map slotsOfRun (runsFrom s e rest) = seq s (e - s + 1) ++ rest.
Proof.
  induction rest as [|c rest IH]; intros s e Hse; cbn [runsFrom].
  - cbn. rewrite app_nil_r. reflexivity.
  - destruct (Nat.eqb_spec c (S e)) as [->|Hne].
    + rewrite IH by lia.
      replace (S e - s + 1)%nat with (S (e - s + 1)) by lia.
      rewrite seq_S, <- app_assoc. cbn [app].
      replace (s + (e - s + 1))%nat with (S e) by lia. reflexivity.
    + cbn [flat_map]. rewrite IH by lia.
      unfold slotsOfRun at 1. cbn [fst snd].
      replace (c - c + 1)%nat with 1%nat by lia. reflexivity.
Qed.

Lemma runsFrom_bounds rest : forall s e,
  (s <= e)%nat -> (e < 48)%nat -> Forall (fun i => (i < 48)%nat) rest ->
  Forall (fun run => (fst run <= snd run < 48)%nat) (runsFrom s e rest).
Proof.
  induction rest as [|c rest IH]; intros s e Hse He Hrest; cbn [runsFrom].
  - constructor; [cbn; lia | constructor].
  - inversion Hrest as [|? ? Hc Hrest']; subst.
    destruct (Nat.eqb_spec c (S e)) as [->|Hne].
    + apply IH; auto; lia.
    + constructor; [cbn; lia|]. apply IH; auto.
Qed.

Lemma runsFrom_head rest : forall s e,
  exists last tail, runsFrom s e rest = (s, last) :: tail.
Proof.
  induction rest as [|c rest IH]; intros s e; cbn [runsFrom]; [eauto|].
  destruct (c =? S e)%nat; [apply IH | eauto].
Qed.

(** No two successive runs could be one: the next run does not start at
    the slot after the previous run's last. *)
Lemma runsFrom_separate rest : forall s e j r1 r2,
  nth_error (runsFrom s e rest) j = Some r1 ->
  nth_error (runsFrom s e rest) (S j) = Some r2 ->
  fst r2 <> S (snd r1).
Proof.
  induction rest as [|c rest IH]; intros s e j r1 r2; cbn [runsFrom].
  - destruct j; cbn; discriminate.
  - destruct (Nat.eqb_spec c (S e)) as [->|Hne]; [apply IH|].
    destruct j as [|j]; cbn [nth_error].
    + intros [= <-]. destruct (runsFrom_head rest c c) as (last & tail & ->).
      cbn. intros [= <-]. cbn. exact Hne.
    + apply IH.
Qed.

(** X13.  The ranges made for the times picked on one date are the runs
    of consecutive slots among them.  Given labels of slots in any order,
    read in ascending order [idx']: each range goes from the label of a
    run's first slot to the label 30 minutes after its last (after 23:30:
    "00:00"); the runs, slot by slot, are exactly the picked slots in
    ascending order; and no two successive runs are adjacent. *)
Theorem ranges_are_the_runs_of_picks idx idx' :
  idx <> [] ->
  Forall (fun i => (i < 48)%nat) idx ->
  Permutation idx idx' -> StronglySorted le idx' ->
  exists runs,
    WebApp.rangesOf (map slotLabel idx) = map rangeOfRun runs
    /\ flat_map slotsOfRun runs = idx'
    /\ Forall (fun run => (fst run <= snd run < 48)%nat) runs
    /\ forall j r1 r2,
         nth_error runs j = Some r1 -> nth_error runs (S j) = Some r2 ->
         fst r2 <> S (snd r1).
Proof.
  intros Hne Hb Hperm Hs.
  assert (Hb' : Forall (fun i => (i < 48)%nat) idx')
    by (eapply Permutation_Forall; [exact Hperm | exact Hb]).
  assert (Hsorted : WebApp.sortTimes (map slotLabel idx) = map slotLabel idx').
  { rewrite (map_ext slotLabel (fun i => minuteLabel (i * 30)) slotLabel_minuteLabel).
    rewrite (map_ext slotLabel (fun i => minuteLabel (i * 30)) slotLabel_minuteLabel).
    rewrite <- !(map_map (fun i => (i * 30)%nat) minuteLabel).
    apply (proj2 (proj2 (picked_times_sort_lemma _)) (map (fun i => (i * 30)%nat) idx)).
    - reflexivity.
    - rewrite Forall_map. eapply Forall_impl; [|exact Hb]. cbn. intros; lia.
    - apply Permutation_map. exact Hperm.
    - clear -Hs. induction Hs as [|a l Hs IH Hall]; cbn [map]; constructor.
      + exact IH.
      + rewrite Forall_map. eapply Forall_impl; [|exact Hall]. cbn. intros; lia. }
  destruct idx' as [|first rest].
  { apply Permutation_sym, Permutation_nil in Hperm. contradiction. }
  inversion Hb' as [|? ? Hfirst Hrest]; subst.
  exists (runsFrom first first rest).
  unfold WebApp.rangesOf. rewrite Hsorted. cbn [map].
  split; [apply rangeLoop_runs; assumption|].
  split.
  { rewrite runsFrom_slots by lia.
    replace (first - first + 1)%nat with 1%nat by lia. reflexivity. }
  split; [apply runsFrom_bounds; auto|].
  apply runsFrom_separate.
Qed.

Lemma ranges_are_the_runs_of_picks_witness :
  exists runs,
    WebApp.rangesOf (map slotLabel [20; 10; 11; 47]%nat) = map rangeOfRun runs
    /\ flat_map slotsOfRun runs = [10; 11; 20; 47]%nat
    /\ Forall (fun run => (fst run <= snd run < 48)%nat) runs
    /\ forall j r1 r2,
         nth_error runs j = Some r1 -> nth_error runs (S j) = Some r2 ->
         fst r2 <> S (snd r1).
Proof.
  apply (ranges_are_the_runs_of_picks [20; 10; 11; 47]%nat [10; 11; 20; 47]%nat).
  - discriminate.
  - repeat constructor; lia.
  - apply (Permutation_cons_app [10; 11]%nat [47]%nat 20%nat). apply Permutation_refl.
  - repeat constructor; lia.
Defined.

(** The ranges of that selection, evaluated. *)
Example ranges_evaluated :
  WebApp.rangesOf (map slotLabel [20; 10; 11; 47]%nat)
  = [("05:00", "06:00"); ("10:00", "10:30"); ("23:30", "00:00")]%string.
Proof. vm_compute. reflexivity. Qed.

Lemma seq_sorted n : forall a, StronglySorted le (seq a n).
Proof.
  induction n as [|n IH]; intros a; cbn [seq]; constructor.
  - apply IH.
  - apply Forall_forall. intros x Hx. apply in_seq in Hx. lia.
Qed.

Lemma sortTimes_slots idx :
  Forall (fun i => (i < 48)%nat) idx -> StronglySorted le idx ->
  WebApp.sortTimes (map slotLabel idx) = map slotLabel idx.
Proof.
  intros Hb Hs.
  rewrite (map_ext slotLabel (fun i => minuteLabel (i * 30)) slotLabel_minuteLabel).
  rewrite <- (map_map (fun i => (i * 30)%nat) minuteLabel).
  apply (proj2 (proj2 (picked_times_sort_lemma _)) (map (fun i => (i * 30)%nat) idx)).
  - reflexivity.
  - rewrite Forall_map. eapply Forall_impl; [|exact Hb]. cbn. intros; lia.
  - apply Permutation_refl.
  - clear -Hs. induction Hs as [|a l Hs IH Hall]; cbn [map]; constructor.
    + exact IH.
    + rewrite Forall_map. eapply Forall_impl; [|exact Hall]. cbn. intros; lia.
Qed.

Lemma runsFrom_seq m : forall s e, runsFrom s e (seq (S e) m) = [(s, (e + m)%nat)].
Proof.
  induction m as [|m IH]; intros s e; cbn [seq runsFrom].
  - rewrite Nat.add_0_r. reflexivity.
  - rewrite Nat.eqb_refl, IH. do 2 f_equal. lia.
Qed.

Lemma groupByDate_one_date date times : forall acc,
  fold_left (fun m slot => WebApp.pushTime (fst slot) (snd slot) m)
            (map (fun time => (date, time)) times) [(date, acc)]
  = [(date, acc ++ times)].
Proof.
  induction times as [|t times IH]; intros acc; cbn [map fold_left].
  - rewrite app_nil_r. reflexivity.
  - cbn [WebApp.pushTime fst snd]. rewrite String.eqb_refl, IH, <- app_assoc.
    reflexivity.
Qed.

(** X14.  A selection of [n] consecutive slots of one date, from slot
    [a] on, posts exactly one rule: one-time, from the first slot's time to
    the time 30 minutes after the last slot, both on that date.  When the
    selection reaches the last slot of the day the end is "00:00" of the
    same date, so the rule ends before it starts. *)
Theorem contiguous_selection_is_one_rule engineer status ruleStatus date a n :
  WebApp.ruleStatusOf status = Some ruleStatus ->
  (0 < n)%nat -> (a + n <= 48)%nat ->
  WebApp.handleSlotsSelected (Some engineer) status (picksOn date a n)
  = Some [WebApp.oneTimeRuleFor (engineer_id engineer) ruleStatus date
            (slotLabel a, slotLabel ((a + n) mod 48))].
Proof.
  intros Hstatus Hn Han.
  destruct n as [|n]; [lia|].
  unfold WebApp.handleSlotsSelected. rewrite Hstatus.
  unfold picksOn. cbn [seq map].
  assert (Hgroup : WebApp.groupByDate
                     ((date, slotLabel a)
                        :: map (fun i => (date, labelOfMinute (Z.of_nat i * SLOT_MINUTES)))
                             (seq (S a) n))
                   = [(date, map slotLabel (seq a (S n)))]).
  { unfold WebApp.groupByDate. cbn [fold_left WebApp.pushTime fst snd].
    rewrite <- (map_map slotLabel (fun time => (date, time))).
    rewrite groupByDate_one_date. reflexivity. }
  change (labelOfMinute (Z.of_nat a * SLOT_MINUTES)) with (slotLabel a).
  rewrite Hgroup. cbn [flat_map fst snd]. rewrite app_nil_r.
  unfold WebApp.rangesOf.
  rewrite sortTimes_slots;
    [|apply Forall_forall; intros x Hx; apply in_seq in Hx; lia | apply seq_sorted].
  cbn [seq map].
  rewrite rangeLoop_runs;
    [|lia | apply Forall_forall; intros x Hx; apply in_seq in Hx; lia].
  rewrite runsFrom_seq. cbn [map]. unfold rangeOfRun. cbn [fst snd].
  replace (S (a + n)) with (a + S n)%nat by lia. reflexivity.
Qed.

Lemma contiguous_selection_is_one_rule_witness :
  WebApp.handleSlotsSelected (Some bob) Maybe (picksOn "2024-01-05" 44 4)
  = Some [WebApp.oneTimeRuleFor "recBob" RuleMaybe "2024-01-05" ("22:00", "00:00")%string].
Proof.
  exact (contiguous_selection_is_one_rule bob Maybe RuleMaybe "2024-01-05" 44 4
           eq_refl ltac:(lia) ltac:(lia)).
Defined.

(* ================================================================== *)
(** ** pages/index.tsx: what is posted *)

Lemma pushTime_from date time m d times :
  In (d, times) (WebApp.pushTime date time m) ->
  In (d, times) m
  \/ (d = date /\ exists before, times = before ++ [time]
                                 /\ (before = [] \/ In (d, before) m)).
Proof.
  induction m as [|[d0 ts0] m IH]; cbn [WebApp.pushTime].
  - intros [[= <- <-]|[]]. right. split; [reflexivity|]. exists []. auto.
  - destruct (String.eqb_spec d0 date) as [->|Hne].
    + intros [[= <- <-]|Hin].
      * right. split; [reflexivity|]. exists ts0. split; [reflexivity|].
        right. left. reflexivity.
      * left. right. exact Hin.
    + intros [[= <- <-]|Hin].
      * left. left. reflexivity.
      * destruct (IH Hin) as [H|(Hd & before & Hts & [Hb|Hb])].
        -- left. right. exact H.
        -- right. split; [exact Hd|]. exists before. auto.
        -- right. split; [exact Hd|]. exists before. split; [exact Hts|].
           right. right. exact Hb.
Qed.

(** Every array of the map is non-empty and holds only times picked on
    its date. *)
Lemma groupByDate_from slots2 : forall slots1 m,
  (forall d times, In (d, times) m ->
     times <> [] /\ forall t, In t times -> In (d, t) slots1) ->
  forall d times,
    In (d, times)
       (fold_left (fun m slot => WebApp.pushTime (fst slot) (snd slot) m) slots2 m) ->
    times <> [] /\ forall t, In t times -> In (d, t) (slots1 ++ slots2).
Proof.
  induction slots2 as [|[date time] slots2 IH]; intros slots1 m Hinv d times;
    cbn [fold_left fst snd].
  - rewrite app_nil_r. apply Hinv.
  - intros Hin.
    replace (slots1 ++ (date, time) :: slots2)
      with ((slots1 ++ [(date, time)]) ++ slots2)
      by (rewrite <- app_assoc; reflexivity).
    apply (IH (slots1 ++ [(date, time)]) (WebApp.pushTime date time m)); [|exact Hin].
    clear d times Hin. intros d times Hin.
    destruct (pushTime_from date time m d times Hin)
      as [H|(-> & before & -> & Hb)].
    + destruct (Hinv d times H) as [Hne Hall]. split; [exact Hne|].
      intros t Ht. apply in_or_app. left. apply Hall. exact Ht.
    + split; [destruct before; discriminate|].
      intros t Ht. apply in_app_or in Ht. apply in_or_app.
      destruct Ht as [Ht|[<-|[]]]; [|right; left; reflexivity].
      left. destruct Hb as [->|Hb]; [destruct Ht|].
      apply (proj2 (Hinv date before Hb)). exact Ht.
Qed.

Lemma rangeLoop_starts rest : forall rangeStart rangeEnd range,
  In range (WebApp.rangeLoop rangeStart rangeEnd rest) ->
  fst range = rangeStart \/ In (fst range) rest.
Proof.
  induction rest as [|curr rest IH]; intros rs re range; cbn [WebApp.rangeLoop].
  - intros [<-|[]]. left. reflexivity.
  - destruct (WebApp.followsBy30 re curr).
    + intros Hin. destruct (IH rs curr range Hin); auto. right. right. assumption.
    + intros [<-|Hin]; [left; reflexivity|].
      destruct (IH curr curr range Hin) as [H|H]; right; [left; auto | right; auto].
Qed.

Lemma rangeLoop_nonempty rest : forall rangeStart rangeEnd,
  WebApp.rangeLoop rangeStart rangeEnd rest <> [].
Proof.
  induction rest as [|curr rest IH]; intros rs re; cbn [WebApp.rangeLoop];
    [discriminate|].
  destruct (WebApp.followsBy30 re curr); [apply IH | discriminate].
Qed.

Lemma rangesOf_starts times range :
  In range (WebApp.rangesOf times) -> In (fst range) times.
Proof.
  unfold WebApp.rangesOf. intros Hin.
  eapply Permutation_in; [apply Permutation_sym, sortTimes_perm|].
  destruct (WebApp.sortTimes times) as [|first rest]; [destruct Hin|].
  destruct (rangeLoop_starts rest first first range Hin) as [->|H];
    [left; reflexivity | right; exact H].
Qed.

Lemma rangesOf_nonempty times : times <> [] -> WebApp.rangesOf times <> [].
Proof.
  intros Hne. unfold WebApp.rangesOf.
  destruct (WebApp.sortTimes times) as [|first rest] eqn:E.
  - exfalso. apply Hne.
    apply Permutation_nil. rewrite <- E. apply Permutation_sym, sortTimes_perm.
  - apply rangeLoop_nonempty.
Qed.

(** X15.  Painting posts nothing when no engineer is selected, when no
    slot was picked, or when the paint status is Blank or Booked, and posts
    otherwise.  What it posts is never empty, and every posted rule is a
    one-time rule of source web_app for the selected engineer, with the
    paint status, that starts at a picked slot (its date and its time) and
    ends on the same date. *)
Theorem posted_rules_come_from_picks selectedEngineer selectedStatus slots :
  (WebApp.handleSlotsSelected selectedEngineer selectedStatus slots = None
   <-> selectedEngineer = None \/ slots = []
       \/ selectedStatus = Blank \/ selectedStatus = Booked)
  /\ forall rules,
       WebApp.handleSlotsSelected selectedEngineer selectedStatus slots = Some rules ->
       rules <> []
       /\ forall rule, In rule rules ->
            exists engineer date start end_,
              selectedEngineer = Some engineer
              /\ In (date, start) slots
              /\ Chatbot.new_engineerId rule = engineer_id engineer
              /\ slotStatusOf (Chatbot.new_status rule) = selectedStatus
              /\ Chatbot.new_ruleType rule = OneTime
              /\ Chatbot.new_source rule = web_app
              /\ Chatbot.new_startDateTime rule
                 = Some (Chatbot.dateTimeText date start)
              /\ Chatbot.new_endDateTime rule
                 = Some (Chatbot.dateTimeText date end_).
Proof.
  split.
  - unfold WebApp.handleSlotsSelected.
    destruct selectedEngineer as [engineer|], selectedStatus, slots as [|slot slots];
      cbn [WebApp.ruleStatusOf]; split; intros H; try reflexivity; try discriminate H;
      auto;
      destruct H as [H|[H|[H|H]]]; discriminate H.
  - intros rules Hposted. unfold WebApp.handleSlotsSelected in Hposted.
    destruct selectedEngineer as [engineer|]; [|discriminate Hposted].
    destruct (WebApp.ruleStatusOf selectedStatus) as [status|] eqn:Hstatus;
      [|discriminate Hposted].
    destruct slots as [|slot0 slots0]; [discriminate Hposted|].
    set (slots := slot0 :: slots0) in *.
    injection Hposted as <-.
    assert (Hgroups : forall d times, In (d, times) (WebApp.groupByDate slots) ->
               times <> [] /\ forall t, In t times -> In (d, t) slots).
    { intros d times Hin.
      apply (groupByDate_from slots [] [] (fun _ _ H => match H with end) d times Hin). }
    split.
    + unfold WebApp.groupByDate, slots. cbn [fold_left fst snd WebApp.pushTime].
      fold slots.
      destruct (fold_left _ slots0 [(fst slot0, [snd slot0])]) as [|[d times] groups] eqn:E.
      * exfalso. clear -E.
        assert (Hlen : forall l m, m <> [] ->
                  fold_left (fun m slot => WebApp.pushTime (fst slot) (snd slot) m) l m
                  <> []).
        { induction l as [|x l IH]; intros m Hm; cbn [fold_left]; [exact Hm|].
          apply IH. destruct m as [|[d0 t0] m]; cbn [WebApp.pushTime];
            [discriminate|]. destruct (String.eqb d0 (fst x)); discriminate. }
        apply (Hlen slots0 [(fst slot0, [snd slot0])]); [discriminate | exact E].
      * cbn [flat_map fst snd].
        assert (Hin : In (d, times) (WebApp.groupByDate slots)).
        { unfold WebApp.groupByDate, slots. cbn [fold_left fst snd WebApp.pushTime].
          rewrite E. left. reflexivity. }
        destruct (Hgroups d times Hin) as [Hne _].
        pose proof (rangesOf_nonempty times Hne) as Hr.
        destruct (WebApp.rangesOf times); [congruence | discriminate].
    + intros rule Hrule. apply in_flat_map in Hrule.
      destruct Hrule as ([d times] & Hentry & Hrule). cbn [fst snd] in Hrule.
      apply in_map_iff in Hrule. destruct Hrule as ([start end_] & <- & Hrange).
      destruct (Hgroups d times Hentry) as [_ Hall].
      exists engineer, d, start, end_.
      repeat split; try reflexivity.
      * apply Hall. apply (rangesOf_starts times (start, end_) Hrange).
      * cbn. destruct selectedStatus; cbn in Hstatus; try discriminate Hstatus;
          injection Hstatus as <-; reflexivity.
Qed.
Lemma posted_rules_come_from_picks_witness :
  exists rules,
    WebApp.handleSlotsSelected (Some bob) Available (picksOn "2024-01-05" 36 2)
    = Some rules
    /\ rules <> [].
Proof.
  eexists. split; [vm_compute; reflexivity|].
  refine (proj1 (proj2 (posted_rules_come_from_picks (Some bob) Available
                          (picksOn "2024-01-05" 36 2)) _ _)).
  vm_compute. reflexivity.
Defined.

(* ================================================================== *)
(** ** Days and dates across zones *)

Lemma parseISO_date_fixed utcOffset date day :
  DateFns.parseDay date = Some day ->
  DateFns.parseISO_date (DateFns.fixedZone utcOffset) date
  = Some (day * DateFns.MS_PER_DAY - utcOffset).
Proof.
  intros Hday. unfold DateFns.parseISO_date. rewrite Hday. cbn [option_map].
  unfold DateFns.localDay. rewrite !toLocal_fixed, !fromLocal_fixed.
  pose proof (Z.mod_pos_bound (0 + utcOffset) DateFns.MS_PER_DAY eq_refl) as Hm.
  replace (day * DateFns.MS_PER_DAY + (0 + utcOffset) mod DateFns.MS_PER_DAY
           - utcOffset + utcOffset)
    with ((0 + utcOffset) mod DateFns.MS_PER_DAY + day * DateFns.MS_PER_DAY) by lia.
  rewrite Z.div_add by discriminate.
  rewrite Z.div_small by exact Hm. reflexivity.
Qed.

(** X17.  In a zone whose offset never changes, a one-time request whose
    date is a valid YYYY-MM-DD text and whose end_time is below its
    start_time as a string is stored with its start on the request's date
    and its end on the following calendar date, across the ends of months
    and years. *)
Theorem overnight_request_in_fixed_zone utcOffset body engineers name status engineer
    date day start_time end_time :
  Chatbot.req_engineer body = Some name -> name <> EmptyString ->
  Chatbot.req_status body = Some status ->
  Chatbot.findEngineer engineers name = Some engineer ->
  Chatbot.isRecurring body = false ->
  Chatbot.req_date body = Some date -> DateFns.parseDay date = Some day ->
  Chatbot.req_start_time body = Some start_time -> start_time <> EmptyString ->
  Chatbot.req_end_time body = Some end_time -> end_time <> EmptyString ->
  String.ltb end_time start_time = true ->
  exists rule,
    Chatbot.handler (DateFns.fixedZone utcOffset)
      (DateFns.parseISO_date (DateFns.fixedZone utcOffset)) "POST" body engineers
    = Chatbot.Created rule
    /\ Chatbot.new_startDateTime rule = Some (Chatbot.dateTimeText date start_time)
    /\ Chatbot.new_endDateTime rule
       = Some (Chatbot.dateTimeText (DateFns.formatDay (day + 1)) end_time).
Proof.
  intros Heng Hname Hstatus Hfind Hrec Hdate Hday Hst Hst_ne Het Het_ne Hlt.
  destruct name as [|c name]; [congruence|].
  assert (Hdate_ne : date <> EmptyString)
    by (intros ->; vm_compute in Hday; discriminate Hday).
  destruct (handler_one_time (DateFns.fixedZone utcOffset)
              (DateFns.parseISO_date (DateFns.fixedZone utcOffset))
              body engineers c name status engineer date start_time end_time
              (day * DateFns.MS_PER_DAY - utcOffset) day
              Heng Hstatus Hfind Hrec Hdate Hdate_ne Hst Hst_ne Het Het_ne)
    as (rule & Hrule & Hstart & Hend).
  - apply parseISO_date_fixed. exact Hday.
  - rewrite toLocal_fixed. lia.
  - unfold notSetBackWithinDay. cbn [DateFns.offsetAt DateFns.fixedZone].
    unfold DateFns.MS_PER_DAY. lia.
  - rewrite Hlt in Hend. exists rule. auto.
Qed.

Lemma overnight_request_in_fixed_zone_witness :
  exists rule,
    Chatbot.handler (DateFns.fixedZone (-18000000))
      (DateFns.parseISO_date (DateFns.fixedZone (-18000000)))
      "POST" (request (Some "2024-12-31"%string) (Some "23:00"%string)
                (Some "01:00"%string) None) [bob]
    = Chatbot.Created rule
    /\ Chatbot.new_startDateTime rule = Some "2024-12-31T23:00:00"%string
    /\ Chatbot.new_endDateTime rule = Some "2025-01-01T01:00:00"%string.
Proof.
  apply (overnight_request_in_fixed_zone (-18000000)
           (request (Some "2024-12-31"%string) (Some "23:00"%string)
              (Some "01:00"%string) None) [bob] "bob" RuleAvailable bob
           "2024-12-31" 20088 "23:00" "01:00").
  - reflexivity.
  - discriminate.
  - reflexivity.
  - vm_compute. reflexivity.
  - reflexivity.
  - reflexivity.
  - vm_compute. reflexivity.
  - reflexivity.
  - discriminate.
  - reflexivity.
  - discriminate.
  - vm_compute. reflexivity.
Defined.

Lemma generatedSlot_time zone date i :
  slot_time (generatedSlot zone date i)
  = DateFns.format_HHmm zone (slot_datetime (generatedSlot zone date i)).
Proof. reflexivity. Qed.

Lemma generatedSlot_datetime zone date i :
  slot_datetime (generatedSlot zone date i)
  = DateFns.startOfDay zone date + 30 * Z.of_nat i * DateFns.MS_PER_MINUTE.
Proof.
  unfold generatedSlot, DateFns.addMinutes, SLOT_MINUTES. cbn [slot_datetime]. lia.
Qed.

(** X18.  Whatever the zone, and on days on which its clock changes as
    on others, slot [i] of entry [k] of a result starts [30 * i] minutes
    after the local midnight of the instant the day loop holds in iteration
    [k], and its label is the zero-padded "HH:mm" of the minute the local
    clock shows at that start: a text that [timeToMinutes] reads back as
    that minute. *)
Theorem slot_label_is_local_minute zone rules sessions s e k i day slot :
  nth_error (calculateAvailability zone rules sessions s e) k = Some day ->
  nth_error (day_slots day) i = Some slot ->
  let minute :=
    (DateFns.toLocal zone (slot_datetime slot) mod DateFns.MS_PER_DAY)
    / DateFns.MS_PER_MINUTE in
  (i < 48)%nat
  /\ slot_datetime slot
     = DateFns.startOfDay zone (dayStart zone s k)
       + 30 * Z.of_nat i * DateFns.MS_PER_MINUTE
  /\ 0 <= minute < 1440
  /\ slot_time slot = labelOfMinute minute
  /\ timeToMinutes (slot_time slot) = Some minute.
Proof.
  intros Hday Hslot. cbv zeta.
  destruct (resolved_slot zone rules sessions s e k i day slot Hday Hslot)
    as (_ & Hi & _ & _).
  destruct (resolved_slot_form zone rules sessions s e k i day slot Hday Hslot)
    as (Ht & Hd & _).
  rewrite generatedSlot_time, <- Hd in Ht.
  rewrite generatedSlot_datetime in Hd.
  split; [exact Hi|].
  split; [exact Hd|].
  split; [apply minuteOfDay_bounds|].
  rewrite Ht. split; [apply format_HHmm_label | apply timeToMinutes_format_HHmm].
Qed.

Lemma slot_label_is_local_minute_witness :
  exists slot,
    slotAt (calculateAvailability DateFns.newYork [] [] marchNinth marchNinth) 0 4
    = Some slot
    /\ slot_datetime slot = marchNinth + 2 * DateFns.MS_PER_HOUR
    /\ slot_time slot = "03:00"%string.
Proof.
  eexists. split; [vm_compute; reflexivity|].
  destruct (slot_label_is_local_minute DateFns.newYork [] [] marchNinth marchNinth
              0%nat 4%nat
              (resolveDay DateFns.newYork [] [] marchNinth) _
              ltac:(vm_compute; reflexivity) ltac:(vm_compute; reflexivity))
    as (_ & Hd & _ & Ht & _).
  split; [vm_compute; reflexivity | exact Ht].
Defined.

